(** * BOOM Card recommendation engine: a shallow embedding

    Three source files are embedded, one module each:
    - [SparkJob]: data-pipeline/spark/jobs/recommendations.py
      (the rating CASE of [load_data], [_query_to_df], [preprocess_data]);
    - [Trainer]: ml/models/recommendation/train.py
      (the implicit_rating CASE of [fetch_training_data],
      [create_user_item_matrix]);
    - [Backend]: backend_fixed_full.py
      (the in-memory [Database], [get_current_user], [login], [logout],
      [get_partners], [get_partner], [get_profile], [create_transaction],
      [create_review], [get_recommendations], [search]).

    Numbers: Python floats and SQL numerics are embedded as exact rationals
    [Q]; integers as [Z].  Dates are day numbers in [Z].  A nullable SQL
    column is an [option]. *)

From Stdlib Require Import ZArith QArith Qminmax Lia Lqa Ascii String.
From stdpp Require Import gmap strings list pretty sorting.

Open Scope Z_scope.

(** ** Exceptions and results shared by the three modules *)

(** [HTTPException] is what backend_fixed_full.py raises.  [KeyError] is
    what pandas raises for a column the frame does not have, and
    [InferenceValueError] is the ValueError "Some of types cannot be
    determined after inferring" of [spark.createDataFrame].
    [DataIntegrityError] is the error class the design document names for
    the matrix builder; it is declared here so that statements about it can
    be written down.  No function of the source constructs it. *)
Inductive exception : Type :=
  | HTTPException (status_code : Z) (detail : string)
  | KeyError (key : string)
  | InferenceValueError
  | DataIntegrityError.

Inductive result (A : Type) : Type :=
  | Return (a : A)
  | Raise (e : exception).
Arguments Return {A} a.
Arguments Raise {A} e.

(** ** SQL three-valued comparisons on nullable integer columns *)

Definition sql_le (a : option Z) (b : Z) : option bool :=
  (fun x => bool_decide (x ≤ b)) <$> a.

Definition sql_gt (a : option Z) (b : Z) : option bool :=
  (fun x => bool_decide (b < x)) <$> a.

(** A WHEN branch (SQL CASE, or Spark's [F.when]) is taken only when its
    condition is TRUE; NULL behaves like FALSE. *)
Definition when_true (c : option bool) : bool :=
  match c with Some true => true | _ => false end.

Definition is_not_null {A : Type} (a : option A) : bool :=
  match a with Some _ => true | None => false end.

(** COALESCE of three nullable columns. *)
Definition coalesce3 {A : Type} (a b c : option A) : option A :=
  match a with
  | Some _ => a
  | None => match b with Some _ => b | None => c end
  end.

(** ** Arithmetic mean of a list of numbers *)

Definition Qsum (l : list Q) : Q := foldr Qplus 0%Q l.

Definition mean (l : list Q) : Q :=
  (Qsum l / inject_Z (Z.of_nat (length l)))%Q.

(** ** recommendations.py *)

Module SparkJob.

(** [config.get(key, default)] on the numeric entries of the config dict. *)
Definition config_get (config : gmap string Q) (key : string) (dflt : Q) : Q :=
  default dflt (config !! key).

Record RecommendationEngine : Type := {
  als_rank : Q;
  als_iterations : Q;
  als_reg_param : Q;
  kmeans_k : Q;
  num_recommendations : Q;
  min_interactions : Q;
  recency_weight : Q
}.

(** [RecommendationEngine.__init__], the model and recommendation
    parameters (the Redis and PostgreSQL handles carry no data). *)
Definition __init__ (config : gmap string Q) : RecommendationEngine := {|
  als_rank := config_get config "als_rank" 50;
  als_iterations := config_get config "als_iterations" 10;
  als_reg_param := config_get config "als_reg_param" 0.01;
  kmeans_k := config_get config "kmeans_clusters" 10;
  num_recommendations := config_get config "num_recommendations" 20;
  min_interactions := config_get config "min_interactions" 5;
  recency_weight := config_get config "recency_weight" 0.8
|}.

(** One row of the join [users u LEFT JOIN redemptions r LEFT JOIN
    favorites f LEFT JOIN partner_views v] of [interactions_query].  The
    SELECT list reads [p.id], but the FROM clause of the shipped text names
    no table [p], so PostgreSQL turns the text down as it stands; [p_id] is
    the partner the row is about once a table [p] is supplied.  Nothing
    below depends on where [p_id] comes from: the query is only used to
    say which rows the CASE, the COALESCE and the WHERE clause produce. *)
Record JoinedRow : Type := {
  u_id : Z;
  u_is_active : option bool;
  p_id : Z;
  r_id : option Z;
  r_created_at : option Z;
  f_id : option Z;
  f_created_at : option Z;
  v_id : option Z;
  v_view_count : option Z;
  v_last_viewed_at : option Z
}.

(** The CASE expression of [interactions_query]. *)
Definition rating_case (r_id f_id view_count : option Z) : Q :=
  if is_not_null r_id then 5.0
  else if is_not_null f_id then 4.0
  else if when_true (sql_gt view_count 5) then 3.0
  else if when_true (sql_gt view_count 2) then 2.0
  else 1.0.

Record Interaction : Type := {
  user_id : Z;
  partner_id : Z;
  rating : Q;
  timestamp : option Z
}.

(** The SELECT list of [interactions_query] (the columns the job reads). *)
Definition interactions_select (j : JoinedRow) : Interaction := {|
  user_id := u_id j;
  partner_id := p_id j;
  rating := rating_case (r_id j) (f_id j) (v_view_count j);
  timestamp := coalesce3 (r_created_at j) (f_created_at j) (v_last_viewed_at j)
|}.

(** The WHERE clause; [window_start] is [NOW() - INTERVAL '6 months']. *)
Definition interactions_where (window_start : Z) (j : JoinedRow) : bool :=
  when_true (u_is_active j)
  && (is_not_null (r_id j) || is_not_null (f_id j) || is_not_null (v_id j))
  && when_true (sql_gt
       (coalesce3 (r_created_at j) (f_created_at j) (v_last_viewed_at j))
       window_start).

Definition interactions_query (window_start : Z) (joined : list JoinedRow)
  : list Interaction :=
  interactions_select <$> filter (fun j => interactions_where window_start j = true) joined.

(** A Spark DataFrame as far as [_query_to_df] is concerned: column names
    and rows of values. *)
Record DataFrame (V : Type) : Type := {
  columns : list string;
  data : list (list V)
}.
Arguments columns {V} _.
Arguments data {V} _.

(** Whether column [j] is NULL ([None]) in every row of [data]. *)
Definition column_all_null {V : Type} (data : list (list (option V)))
  (j : nat) : bool :=
  forallb (fun row : list (option V) =>
             match row !! j with
             | Some (Some _) => false
             | _ => true
             end) data.

(** [_query_to_df]: [rows] is what [cursor.fetchall()] returned, each row
    an ordered dict from column name to value, [None] for SQL NULL.  The
    values of type [V] are those whose Spark type can be inferred; the
    rows of one cursor have the same keys.  [spark.createDataFrame(data,
    columns)] infers the schema from all rows and raises when a column is
    NULL in every one of them. *)
Definition _query_to_df {V : Type} (rows : list (list (string * option V)))
  : result (DataFrame (option V)) :=
  match rows with
  | [] => Return {| columns := []; data := [] |}
  | row0 :: _ =>
      let columns := fst <$> row0 in
      let data := (fun row : list (string * option V) => snd <$> row) <$> rows in
      if existsb (column_all_null data) (seq 0 (length columns))
      then Raise InferenceValueError
      else Return {| columns := columns; data := data |}
  end.

(** [F.datediff(current_timestamp, timestamp)]. *)
Definition datediff (now : Z) (ts : option Z) : option Z :=
  (fun t => now - t) <$> ts.

(** The [recency_weight] column:
    [F.when(days_ago <= 7, 1.0).when(days_ago <= 30, 0.9)
      .when(days_ago <= 90, 0.7).otherwise(0.5)]. *)
Definition recency_weight_when (days_ago : option Z) : Q :=
  if when_true (sql_le days_ago 7) then 1.0
  else if when_true (sql_le days_ago 30) then 0.9
  else if when_true (sql_le days_ago 90) then 0.7
  else 0.5.

(** An interaction row after the three [withColumn] calls. *)
Record Weighted : Type := {
  interaction : Interaction;
  days_ago : option Z;
  recency_weight_col : Q;
  weighted_rating : Q
}.

Definition with_columns (self : RecommendationEngine) (now : Z)
  (i : Interaction) : Weighted :=
  let d := datediff now (timestamp i) in
  let w := recency_weight_when d in
  {| interaction := i;
     days_ago := d;
     recency_weight_col := w;
     weighted_rating := (rating i * w * recency_weight self)%Q |}.

Definition row_user (r : Weighted) : Z := user_id (interaction r).

(** [F.count('*')] of one group of [groupBy('user_id')]. *)
Definition interaction_count (u : Z) (df : list Weighted) : Z :=
  Z.of_nat (length (filter (fun r => row_user r = u) df)).

(** [groupBy('user_id').agg(F.count('*'))]: one row per distinct user. *)
Definition groupBy_user_id_count (df : list Weighted) : list (Z * Z) :=
  (fun u => (u, interaction_count u df)) <$> remove_dups (row_user <$> df).

(** [.filter(F.col('interaction_count') >= self.min_interactions)]. *)
Definition active_users (self : RecommendationEngine) (df : list Weighted)
  : list (Z * Z) :=
  filter (fun g => Qle_bool (min_interactions self) (inject_Z g.2) = true)
         (groupBy_user_id_count df).

(** [df.join(active.select('user_id'), on='user_id', how='inner')]: one
    output row per matching pair.  A list stands for the rows of a
    DataFrame as a collection: Spark returns the rows of a join in an
    order of its own, and the order of the list carries no meaning. *)
Definition join_inner_user_id (df : list Weighted) (ids : list Z)
  : list Weighted :=
  r ← df; _ ← filter (fun u => u = row_user r) ids; [r].

(** [preprocess_data], the interactions frame (the partner and user frames
    only get encoded columns and do not feed back into it). *)
Definition preprocess_data (self : RecommendationEngine) (now : Z)
  (interactions_df : list Interaction) : list Weighted :=
  let df := with_columns self now <$> interactions_df in
  join_inner_user_id df ((active_users self df).*1).

End SparkJob.

(** ** train.py *)

Module Trainer.

(** The CASE expression of [fetch_training_data]; [user_partner_count] is
    [COUNT( * ) OVER (PARTITION BY t.user_id, t.partner_id)]. *)
Definition implicit_rating_case (user_partner_count : Z) : Z :=
  if bool_decide (3 < user_partner_count) then 5
  else if bool_decide (2 < user_partner_count) then 4
  else if bool_decide (1 < user_partner_count) then 3
  else 2.

(** The columns of a training row that the matrix builder reads, and the
    window count the rating is computed from. *)
Record TrainingRow : Type := {
  user_id : Z;
  partner_id : Z;
  user_partner_count : Z;
  implicit_rating : Q
}.

(** [fetch_training_data] over the completed transactions of the window,
    each given as (user_id, partner_id): one row per transaction, with the
    window count of its (user, partner) partition.  The LEFT JOIN with
    user_preferences only adds columns.  The list is the [data] handed to
    [pd.DataFrame(data)]: the frame of the empty list has no rows and no
    columns. *)
Definition fetch_training_data (transactions : list (Z * Z)) : list TrainingRow :=
  (fun t : Z * Z =>
     let c := Z.of_nat (length (filter (fun t' => t' = t) transactions)) in
     {| user_id := t.1; partner_id := t.2; user_partner_count := c;
        implicit_rating := inject_Z (implicit_rating_case c) |})
  <$> transactions.

(** Sorted, duplicate-free list of group keys, as pandas orders the index
    and the columns of a pivot table. *)
Fixpoint insert_sorted (x : Z) (l : list Z) : list Z :=
  match l with
  | [] => [x]
  | y :: l' =>
      if decide (x < y) then x :: l
      else if decide (x = y) then l
      else y :: insert_sorted x l'
  end.

Definition sorted_unique (l : list Z) : list Z := foldr insert_sorted [] l.

(** The ratings of all rows of one (user_id, partner_id) group. *)
Definition ratings_of (df : list TrainingRow) (u p : Z) : list Q :=
  implicit_rating <$> filter (fun r => user_id r = u ∧ partner_id r = p) df.

(** One cell of the pivot table; the default [aggfunc] of
    [DataFrame.pivot_table] is the mean. *)
Definition pivot_cell (fill_value : Q) (df : list TrainingRow) (u p : Z) : Q :=
  match ratings_of df u p with
  | [] => fill_value
  | rs => mean rs
  end.

Record PivotTable : Type := {
  index : list Z;
  columns : list Z;
  values : list (list Q)
}.

(** [df.pivot_table(index='user_id', columns='partner_id',
    values='implicit_rating', fill_value=fill_value)]. *)
Definition pivot_table (df : list TrainingRow) (fill_value : Q) : PivotTable :=
  let idx := sorted_unique (user_id <$> df) in
  let cols := sorted_unique (partner_id <$> df) in
  {| index := idx;
     columns := cols;
     values := (fun u => (fun p => pivot_cell fill_value df u p) <$> cols) <$> idx |}.

(** A sparse matrix in compressed-row form: per row, the stored
    (column, value) entries; zeros are not stored. *)
Record csr_matrix : Type := {
  shape : nat * nat;
  stored : list (list (nat * Q))
}.

Definition nonzero (e : nat * Q) : Prop := Qeq_bool e.2 0 = false.

Definition csr_of_dense (vals : list (list Q)) : csr_matrix := {|
  shape := (length vals, from_option length 0%nat (head vals));
  stored := (fun row : list Q => filter nonzero (imap pair row)) <$> vals
|}.

Fixpoint row_get (row : list (nat * Q)) (j : nat) : Q :=
  match row with
  | [] => 0%Q
  | (j', v) :: row' => if decide (j' = j) then v else row_get row' j
  end.

(** [M[i, j]]. *)
Definition csr_get (M : csr_matrix) (i j : nat) : Q :=
  match stored M !! i with
  | Some row => row_get row j
  | None => 0%Q
  end.

(** [{key: idx for idx, key in enumerate(keys)}]. *)
Definition index_mapping (keys : list Z) : gmap Z nat :=
  foldl (fun m e => <[e.2 := e.1]> m) ∅ (imap pair keys).

(** [{idx: item for item, idx in item_mapping.items()}], items in
    insertion order. *)
Definition reverse_mapping (keys : list Z) : gmap nat Z :=
  foldl (fun m e => <[e.1 := e.2]> m) ∅ (imap pair keys).

(** The attributes of the trainer that [create_user_item_matrix] assigns. *)
Record RecommendationModelTrainer : Type := {
  user_mapping : gmap Z nat;
  item_mapping : gmap Z nat;
  reverse_item_mapping : gmap nat Z
}.

(** [create_user_item_matrix]: the returned matrix and the trainer with its
    three mappings stored.  There is no check for an empty frame: on the
    frame without columns [df.pivot_table] raises KeyError for the values
    column it is asked for, before anything is assigned. *)
Definition create_user_item_matrix (df : list TrainingRow)
  : result (RecommendationModelTrainer * csr_matrix) :=
  match df with
  | [] => Raise (KeyError "implicit_rating")
  | _ :: _ =>
      let user_item_df := pivot_table df 0 in
      let user_item_matrix := csr_of_dense (values user_item_df) in
      let self := {|
        user_mapping := index_mapping (index user_item_df);
        item_mapping := index_mapping (columns user_item_df);
        reverse_item_mapping := reverse_mapping (columns user_item_df) |} in
      Return (self, user_item_matrix)
  end.

(** The matrix entry of an external (user_id, partner_id) pair, through
    the stored mappings. *)
Definition matrix_entry (out : RecommendationModelTrainer * csr_matrix)
  (u p : Z) : option Q :=
  i ← user_mapping out.1 !! u;
  j ← item_mapping out.1 !! p;
  Some (csr_get out.2 i j).

End Trainer.

(** ** backend_fixed_full.py *)

Module Backend.

(** An insertion-ordered Python dict with string keys. *)
Fixpoint dict_get {V : Type} (k : string) (d : list (string * V)) : option V :=
  match d with
  | [] => None
  | (k', v) :: d' => if decide (k' = k) then Some v else dict_get k d'
  end.

(** In-place mutation of the object stored under key [k]. *)
Fixpoint dict_mutate {V : Type} (k : string) (f : V -> V)
  (d : list (string * V)) : list (string * V) :=
  match d with
  | [] => []
  | (k', v) :: d' =>
      if decide (k' = k) then (k', f v) :: d' else (k', v) :: dict_mutate k f d'
  end.

(** [d[k] = v]: overwrite in place, or append a new key. *)
Fixpoint dict_set {V : Type} (k : string) (v : V)
  (d : list (string * V)) : list (string * V) :=
  match d with
  | [] => [(k, v)]
  | (k', v') :: d' =>
      if decide (k' = k) then (k', v) :: d' else (k', v') :: dict_set k v d'
  end.

Definition dict_values {V : Type} (d : list (string * V)) : list V := d.*2.

(** [{key(x): x for x in l}]. *)
Definition dict_of_list {V : Type} (key : V -> string) (l : list V)
  : list (string * V) :=
  foldl (fun d x => dict_set (key x) x d) [] l.

Module User.
Record t : Type := {
  id : string;
  name : string;
  email : string;
  membership_type : string;
  joined_date : string;
  total_savings : Q;
  visits_count : Z;
  favorite_categories : list string
}.
End User.

Module Partner.
Record t : Type := {
  id : string;
  name : string;
  category : string;
  discount : string;
  description : string;
  rating : Q;
  reviews_count : Z;
  location : string;
  image_url : option string;
  tags : list string
}.
End Partner.

Module Transaction.
Record t : Type := {
  id : string;
  user_id : string;
  partner_id : string;
  amount : Q;
  discount_applied : Q;
  timestamp : string
}.
End Transaction.

Module Review.
Record t : Type := {
  id : string;
  user_id : string;
  partner_id : string;
  rating : Z;
  comment : string;
  timestamp : string
}.
End Review.

Record Database : Type := {
  users : list (string * User.t);
  partners : list (string * Partner.t);
  transactions : list Transaction.t;
  reviews : list Review.t;
  sessions : gmap string string
}.

(** [str.lower] and [str.replace(" ", "-")] on ASCII strings. *)
Definition ascii_lower (c : ascii) : ascii :=
  let n := nat_of_ascii c in
  if bool_decide (65 ≤ n ≤ 90)%nat then ascii_of_nat (n + 32) else c.

Fixpoint lower (s : string) : string :=
  match s with
  | EmptyString => EmptyString
  | String c s' => String (ascii_lower c) (lower s')
  end.

Fixpoint replace_space_dash (s : string) : string :=
  match s with
  | EmptyString => EmptyString
  | String c s' =>
      String (if decide (c = " "%char) then "-"%char else c) (replace_space_dash s')
  end.

Definition cities : list string := ["Sofia"; "Plovdiv"; "Varna"; "Burgas"].

Definition categories : list (string * list string) := [
  ("Fine Dining", ["Restaurant"; "Bistro"; "Grill"; "Tavern"]);
  ("Luxury Hotels", ["Hotel"; "Resort"; "Palace"; "Grand"]);
  ("Wellness & Spa", ["Spa"; "Wellness"; "Massage"; "Beauty"]);
  ("Entertainment", ["Cinema"; "Theater"; "Club"; "Concert Hall"])
].

(** The partner built in the body of the inner loop of [_load_partners]. *)
Definition make_partner (partner_id : nat) (category : string)
  (types : list string) (i : nat) : Partner.t :=
  let partner_type := default "" (types !! (i mod length types)%nat) in
  let city := default "" (cities !! (i mod 4)%nat) in
  {| Partner.id := pretty partner_id;
     Partner.name := partner_type +:+ " " +:+ city +:+ " " +:+ pretty (i + 1)%nat;
     Partner.category := category;
     Partner.discount := pretty (15 + i mod 20)%nat +:+ "%";
     Partner.description :=
       "Premium " +:+ lower category +:+ " experience with exclusive member benefits";
     Partner.rating := (4.0 + inject_Z (Z.of_nat (i mod 10)) / 10)%Q;
     Partner.reviews_count := 20 + Z.of_nat i * 3;
     Partner.location := city;
     Partner.image_url := None;
     Partner.tags := [replace_space_dash (lower category); "premium"; "exclusive"] |}.

(** [Database._load_partners]: 20 partners per category, ids counting up
    from 1, collected into a dict keyed by id. *)
Definition _load_partners : list (string * Partner.t) :=
  let partners :=
    (foldl (fun (acc : list Partner.t * nat) (ct : string * list string) =>
       foldl (fun (acc' : list Partner.t * nat) (i : nat) =>
                (acc'.1 ++ [make_partner acc'.2 ct.1 ct.2 i], S acc'.2))
             acc (seq 0 20))
     ([], 1%nat) categories).1 in
  dict_of_list Partner.id partners.

Definition initial_users : list (string * User.t) := [
  ("1", {| User.id := "1"; User.name := "Maria Popova";
           User.email := "maria@example.com";
           User.membership_type := "premium";
           User.joined_date := "2024-01-15";
           User.total_savings := 1250.50;
           User.visits_count := 45;
           User.favorite_categories := ["Fine Dining"; "Wellness & Spa"] |});
  ("2", {| User.id := "2"; User.name := "Ivan Petrov";
           User.email := "ivan@example.com";
           User.membership_type := "gold";
           User.joined_date := "2023-11-20";
           User.total_savings := 2340.75;
           User.visits_count := 78;
           User.favorite_categories := ["Luxury Hotels"; "Entertainment"] |})
].

(** [Database.__init__]. *)
Definition db_init : Database := {|
  users := initial_users;
  partners := _load_partners;
  transactions := [];
  reviews := [];
  sessions := ∅
|}.

(** Python truthiness of an optional string: [None] and [""] are falsy. *)
Definition truthy (s : option string) : bool :=
  match s with
  | None => false
  | Some s' => negb (bool_decide (s' = ""))
  end.

(** [get_current_user]. *)
Definition get_current_user (db : Database) (token : option string)
  : option string :=
  if negb (truthy token) then None
  else match token with
       | None => None
       | Some t =>
           if bool_decide (is_Some (sessions db !! t)) then sessions db !! t
           else None
       end.

(** [login]: [email] is [credentials.get("email")], [now_ts] the text of
    [datetime.now().timestamp()].  Returns the user and the token. *)
Definition login (db : Database) (email : option string) (now_ts : string)
  : Database * result (User.t * string) :=
  match list_find (fun u => Some (User.email u) = email) (dict_values (users db)) with
  | Some (_, user) =>
      let token := "token-" +:+ User.id user +:+ "-" +:+ now_ts in
      ({| users := users db; partners := partners db;
          transactions := transactions db; reviews := reviews db;
          sessions := <[token := User.id user]> (sessions db) |},
       Return (user, token))
  | None => (db, Raise (HTTPException 401 "Invalid credentials"))
  end.

(** [logout]. *)
Definition logout (db : Database) (token : string) : Database * result string :=
  ({| users := users db; partners := partners db;
      transactions := transactions db; reviews := reviews db;
      sessions := if bool_decide (is_Some (sessions db !! token))
                  then delete token (sessions db) else sessions db |},
   Return "Logged out successfully").

(** The keys [create_transaction] reads from its request body. *)
Module TransactionDict.
Record t : Type := {
  partner_id : string;
  amount : Q;
  discount_applied : Q
}.
End TransactionDict.

(** The in-place update of the paying user:
    [user.total_savings += transaction["discount_applied"]] and
    [user.visits_count += 1]. *)
Definition update_user_savings (discount_applied : Q) (user : User.t)
  : User.t := {|
  User.id := User.id user; User.name := User.name user;
  User.email := User.email user;
  User.membership_type := User.membership_type user;
  User.joined_date := User.joined_date user;
  User.total_savings := (User.total_savings user + discount_applied)%Q;
  User.visits_count := User.visits_count user + 1;
  User.favorite_categories := User.favorite_categories user |}.

(** [create_transaction]; [now] is [datetime.now().isoformat()]. *)
Definition create_transaction (db : Database) (transaction : TransactionDict.t)
  (token : option string) (now : string)
  : Database * result (Transaction.t * string) :=
  let user_id := get_current_user db token in
  if negb (truthy user_id) then (db, Raise (HTTPException 401 "Unauthorized"))
  else
    let user_id := default "" user_id in
    let new_transaction := {|
      Transaction.id := pretty (length (transactions db) + 1)%nat;
      Transaction.user_id := user_id;
      Transaction.partner_id := TransactionDict.partner_id transaction;
      Transaction.amount := TransactionDict.amount transaction;
      Transaction.discount_applied := TransactionDict.discount_applied transaction;
      Transaction.timestamp := now |} in
    ({| users :=
          dict_mutate user_id
            (update_user_savings (TransactionDict.discount_applied transaction))
            (users db);
        partners := partners db;
        transactions := transactions db ++ [new_transaction];
        reviews := reviews db;
        sessions := sessions db |},
     Return (new_transaction, "Transaction recorded successfully")).

(** The keys [create_review] reads from its request body. *)
Module ReviewDict.
Record t : Type := {
  partner_id : string;
  rating : Z;
  comment : string
}.
End ReviewDict.

(** The in-place update of the reviewed partner:
    [partner.reviews_count += 1] and
    [partner.rating = (partner.rating + review["rating"]) / 2]. *)
Definition update_partner_rating (new_rating : Z) (partner : Partner.t)
  : Partner.t := {|
  Partner.id := Partner.id partner; Partner.name := Partner.name partner;
  Partner.category := Partner.category partner;
  Partner.discount := Partner.discount partner;
  Partner.description := Partner.description partner;
  Partner.rating := ((Partner.rating partner + inject_Z new_rating) / 2)%Q;
  Partner.reviews_count := Partner.reviews_count partner + 1;
  Partner.location := Partner.location partner;
  Partner.image_url := Partner.image_url partner;
  Partner.tags := Partner.tags partner |}.

(** [create_review]; [now] is [datetime.now().isoformat()]. *)
Definition create_review (db : Database) (review : ReviewDict.t)
  (token : option string) (now : string)
  : Database * result (Review.t * string) :=
  let user_id := get_current_user db token in
  if negb (truthy user_id) then (db, Raise (HTTPException 401 "Unauthorized"))
  else
    let new_review := {|
      Review.id := pretty (length (reviews db) + 1)%nat;
      Review.user_id := default "" user_id;
      Review.partner_id := ReviewDict.partner_id review;
      Review.rating := ReviewDict.rating review;
      Review.comment := ReviewDict.comment review;
      Review.timestamp := now |} in
    let partners' :=
      match dict_get (ReviewDict.partner_id review) (partners db) with
      | Some _ =>
          dict_mutate (ReviewDict.partner_id review)
            (update_partner_rating (ReviewDict.rating review)) (partners db)
      | None => partners db
      end in
    ({| users := users db;
        partners := partners';
        transactions := transactions db;
        reviews := reviews db ++ [new_review];
        sessions := sessions db |},
     Return (new_review, "Review submitted successfully")).

Record Recommendations : Type := {
  recommendations : list Partner.t;
  reason : string
}.

(** The loop of [get_recommendations] over the favorite categories:
    [recommendations.extend(category_partners[:3])]. *)
Definition extend_by_category (db : Database) (recs : list Partner.t)
  (category : string) : list Partner.t :=
  let category_partners :=
    filter (fun p => Partner.category p = category) (dict_values (partners db)) in
  recs ++ take 3 category_partners.

(** [get_recommendations]. *)
Definition get_recommendations (db : Database) (token : option string)
  : result Recommendations :=
  let user_id := get_current_user db token in
  if negb (truthy user_id) then
    Return {| recommendations := take 6 (dict_values (partners db));
              reason := "Popular choices" |}
  else
    match dict_get (default "" user_id) (users db) with
    | None => Raise (HTTPException 404 "User not found")
    | Some user =>
        let recs := foldl (extend_by_category db) [] (User.favorite_categories user) in
        Return {| recommendations := take 6 recs;
                  reason := "Based on your preferences" |}
    end.

(** The state-changing requests of the API, and the database after one.
    The request bodies carry the types the data models declare (a number
    for [discount_applied], an integer for [rating]).  The handlers
    themselves take [Dict[str, Any]]: a body that carries such a number as
    text passes the data model, is stored, and then makes the in-place
    update raise TypeError.  These requests do not cover such bodies. *)
Inductive request : Type :=
  | Login (email : option string) (now_ts : string)
  | Logout (token : string)
  | CreateTransaction (transaction : TransactionDict.t) (token : option string) (now : string)
  | CreateReview (review : ReviewDict.t) (token : option string) (now : string).

Definition handle (db : Database) (req : request) : Database :=
  match req with
  | Login email now_ts => (login db email now_ts).1
  | Logout token => (logout db token).1
  | CreateTransaction tr token now => (create_transaction db tr token now).1
  | CreateReview rv token now => (create_review db rv token now).1
  end.

(** The databases the server can be in: [db_init] after any requests. *)
Definition reachable (db : Database) : Prop :=
  exists reqs : list request, db = foldl handle db_init reqs.

(** *** Text helpers of the read-only endpoints *)

(** [s.rstrip(chars)] for the characters satisfying [strip]. *)
Fixpoint rstrip (strip : ascii -> bool) (s : string) : string :=
  match s with
  | EmptyString => EmptyString
  | String c s' =>
      match rstrip strip s' with
      | EmptyString => if strip c then EmptyString else String c EmptyString
      | r => String c r
      end
  end.

Fixpoint lstrip (strip : ascii -> bool) (s : string) : string :=
  match s with
  | EmptyString => EmptyString
  | String c s' => if strip c then lstrip strip s' else s
  end.

Definition is_percent (c : ascii) : bool := bool_decide (c = "%"%char).

(** The ASCII characters [int()] skips around a number: tab to carriage
    return, and the space. *)
Definition is_whitespace (c : ascii) : bool :=
  let n := nat_of_ascii c in
  bool_decide (9 ≤ n ≤ 13)%nat || bool_decide (n = 32)%nat.

Definition digit_value (c : ascii) : option Z :=
  let n := nat_of_ascii c in
  if bool_decide (48 ≤ n ≤ 57)%nat then Some (Z.of_nat n - 48) else None.

(** The digits of a decimal literal, single underscores allowed between
    digits; [after_digit] tells whether the previous character was a
    digit. *)
Fixpoint int_digits (acc : Z) (after_digit : bool) (s : string) : option Z :=
  match s with
  | EmptyString => if after_digit then Some acc else None
  | String c s' =>
      if bool_decide (c = "_"%char) then
        if after_digit then int_digits acc false s' else None
      else
        match digit_value c with
        | Some d => int_digits (acc * 10 + d) true s'
        | None => None
        end
  end.

(** [int(s)] on a text of ASCII characters and at most 4300 of them:
    surrounding whitespace, an optional sign and a decimal literal; [None]
    is the ValueError.  Outside ASCII [int()] also reads other decimal
    digits and skips other spaces, and it turns down numbers of more than
    4300 digits; such texts are not covered. *)
Definition python_int (s : string) : option Z :=
  match lstrip is_whitespace (rstrip is_whitespace s) with
  | String "+" r => int_digits 0 false r
  | String "-" r => Z.opp <$> int_digits 0 false r
  | t => int_digits 0 false t
  end.

(** [query in text]. *)
Fixpoint is_substring (query text : string) : bool :=
  String.prefix query text ||
  match text with
  | EmptyString => false
  | String _ text' => is_substring query text'
  end.

(** [l[-n:]] for a positive [n]. *)
Definition last_n {A : Type} (n : nat) (l : list A) : list A :=
  drop (length l - n) l.

(** [l.sort(key=key, reverse=True)]: descending by key, elements with
    equal keys in their original order. *)
Fixpoint insert_desc {A K : Type} (leb : K -> K -> bool) (key : A -> K)
  (x : A) (l : list A) : list A :=
  match l with
  | [] => [x]
  | y :: l' =>
      if leb (key y) (key x) then x :: l else y :: insert_desc leb key x l'
  end.

Definition sort_desc {A K : Type} (leb : K -> K -> bool) (key : A -> K)
  (l : list A) : list A :=
  foldr (insert_desc leb key) [] l.

(** *** Read-only endpoints *)

(** The outcome of a handler whose only failure is the ValueError of
    [int()]. *)
Inductive converted (A : Type) : Type :=
  | Converted (a : A)
  | ValueError.
Arguments Converted {A} a.
Arguments ValueError {A}.

(** [int(p.discount.rstrip('%'))]. *)
Definition discount_value (p : Partner.t) : option Z :=
  python_int (rstrip is_percent (Partner.discount p)).

(** [[p for p in partners if int(p.discount.rstrip('%')) >= min_discount]]. *)
Fixpoint filter_min_discount (min_discount : Z) (partners : list Partner.t)
  : converted (list Partner.t) :=
  match partners with
  | [] => Converted []
  | p :: partners' =>
      match discount_value p with
      | None => ValueError
      | Some d =>
          match filter_min_discount min_discount partners' with
          | ValueError => ValueError
          | Converted rest =>
              Converted (if bool_decide (min_discount ≤ d) then p :: rest else rest)
          end
      end
  end.

(** The sort keys [int(p.discount.rstrip('%'))] of all partners. *)
Fixpoint discount_keys (partners : list Partner.t)
  : converted (list (Z * Partner.t)) :=
  match partners with
  | [] => Converted []
  | p :: partners' =>
      match discount_value p with
      | None => ValueError
      | Some d =>
          match discount_keys partners' with
          | ValueError => ValueError
          | Converted rest => Converted ((d, p) :: rest)
          end
      end
  end.

Module PartnersResponse.
Record t : Type := {
  partners : list Partner.t;
  total : nat;
  filters : option string * option string * option Z
}.
End PartnersResponse.

(** Python truthiness of an optional integer: [None] and [0] are falsy. *)
Definition truthy_int (n : option Z) : bool :=
  match n with
  | None => false
  | Some n' => negb (bool_decide (n' = 0))
  end.

(** [get_partners]. *)
Definition get_partners (db : Database) (category location : option string)
  (min_discount : option Z) (sort_by : option string)
  : converted PartnersResponse.t :=
  let partners0 := dict_values (partners db) in
  let partners1 :=
    if truthy category
    then filter (fun p => Some (Partner.category p) = category) partners0
    else partners0 in
  let partners2 :=
    if truthy location
    then filter (fun p => Some (Partner.location p) = location) partners1
    else partners1 in
  let partners3 :=
    if truthy_int min_discount
    then filter_min_discount (default 0 min_discount) partners2
    else Converted partners2 in
  match partners3 with
  | ValueError => ValueError
  | Converted partners3 =>
      let sorted :=
        if bool_decide (sort_by = Some "rating") then
          Converted (sort_desc Qle_bool Partner.rating partners3)
        else if bool_decide (sort_by = Some "discount") then
          match discount_keys partners3 with
          | ValueError => ValueError
          | Converted keyed => Converted ((sort_desc Z.leb fst keyed).*2)
          end
        else Converted partners3 in
      match sorted with
      | ValueError => ValueError
      | Converted partners4 =>
          Converted {|
            PartnersResponse.partners := take 20 partners4;
            PartnersResponse.total := length partners4;
            PartnersResponse.filters := (category, location, min_discount) |}
      end
  end.

Module PartnerResponse.
Record t : Type := {
  partner : Partner.t;
  reviews : list Review.t;
  similar_partners : list Partner.t
}.
End PartnerResponse.

(** [get_partner]. *)
Definition get_partner (db : Database) (partner_id : string)
  : result PartnerResponse.t :=
  match dict_get partner_id (partners db) with
  | None => Raise (HTTPException 404 "Partner not found")
  | Some partner =>
      let partner_reviews :=
        last_n 5 (filter (fun r => Review.partner_id r = partner_id) (reviews db)) in
      Return {|
        PartnerResponse.partner := partner;
        PartnerResponse.reviews := partner_reviews;
        PartnerResponse.similar_partners := take 3 (dict_values (partners db)) |}
  end.

Module MembershipBenefits.
Record t : Type := {
  discount_multiplier : Q;
  exclusive_access : bool;
  priority_support : bool
}.
End MembershipBenefits.

Module ProfileResponse.
Record t : Type := {
  user : User.t;
  recent_transactions : list Transaction.t;
  membership_benefits : MembershipBenefits.t
}.
End ProfileResponse.

(** [get_profile]. *)
Definition get_profile (db : Database) (token : option string)
  : result ProfileResponse.t :=
  let user_id := get_current_user db token in
  if negb (truthy user_id) then Raise (HTTPException 401 "Unauthorized")
  else
    match dict_get (default "" user_id) (users db) with
    | None => Raise (HTTPException 404 "User not found")
    | Some user =>
        let user_transactions :=
          last_n 10 (filter (fun t => Transaction.user_id t = default "" user_id)
                            (transactions db)) in
        Return {|
          ProfileResponse.user := user;
          ProfileResponse.recent_transactions := user_transactions;
          ProfileResponse.membership_benefits := {|
            MembershipBenefits.discount_multiplier :=
              if bool_decide (User.membership_type user = "premium")
              then 1.5 else 1.0;
            MembershipBenefits.exclusive_access :=
              bool_decide (User.membership_type user ∈ ["premium"; "gold"]);
            MembershipBenefits.priority_support :=
              bool_decide (User.membership_type user = "premium") |} |}
    end.

Module SearchResponse.
Record t : Type := {
  results : list Partner.t;
  query : string;
  total : nat
}.
End SearchResponse.

(** [search]. *)
Definition search (db : Database) (q : string) : SearchResponse.t :=
  let query := lower q in
  let results :=
    filter (fun partner =>
              is_substring query (lower (Partner.name partner))
              || is_substring query (lower (Partner.description partner))
              || is_substring query (lower (Partner.category partner)) = true)
           (dict_values (partners db)) in
  {| SearchResponse.results := take 10 results;
     SearchResponse.query := q;
     SearchResponse.total := length results |}.

(** The body of [login] as the endpoint receives it: [credentials] is the
    posted dict; the password is read and not used. *)
Definition login_request (db : Database) (credentials : gmap string string)
  (now_ts : string) : Database * result (User.t * string) :=
  let email := credentials !! "email" in
  let password := credentials !! "password" in
  login db email now_ts.

End Backend.

(** * Definitions used in the statements: derived notions and concrete
    inputs *)

Section SparkJobStatements.
Import SparkJob.

(** Whether user [u] passes the [interaction_count >= min_interactions]
    filter on the frame [df]. *)
Definition is_active (self : RecommendationEngine) (df : list Weighted)
  (u : Z) : bool :=
  Qle_bool (min_interactions self) (inject_Z (interaction_count u df)).

(** A redemption of user [u] at partner [p] on day [t]. *)
Definition sample_interaction (u p : Z) (t : Z) : Interaction :=
  {| user_id := u; partner_id := p; rating := 5.0; timestamp := Some t |}.

(** Four interactions of user 1 and five of user 2, read on day 100. *)
Definition sample_interactions : list Interaction :=
  [ sample_interaction 1 10 99; sample_interaction 1 11 80;
    sample_interaction 2 10 95; sample_interaction 1 12 50;
    sample_interaction 2 11 60; sample_interaction 1 13 5;
    sample_interaction 2 12 1; sample_interaction 2 13 98;
    sample_interaction 2 14 97 ].

End SparkJobStatements.

Section TrainerStatements.
Import Trainer.

(** The largest of a non-empty list of ratings. *)
Definition Qlist_max (l : list Q) : Q :=
  match l with
  | [] => 0%Q
  | x :: l' => foldl Qmax x l'
  end.

(** Two rows for the pair (7, 3) with ratings 2 and 5, and one row for
    the pair (4, 9). *)
Definition duplicate_rows : list TrainingRow :=
  [ {| user_id := 7; partner_id := 3; user_partner_count := 2; implicit_rating := 2 |};
    {| user_id := 7; partner_id := 3; user_partner_count := 2; implicit_rating := 5 |};
    {| user_id := 4; partner_id := 9; user_partner_count := 1; implicit_rating := 3 |} ].

(** What [create_user_item_matrix] returns on [duplicate_rows]. *)
Definition duplicate_rows_out : RecommendationModelTrainer * csr_matrix :=
  match create_user_item_matrix duplicate_rows with
  | Return out => out
  | Raise _ => ({| user_mapping := ∅; item_mapping := ∅; reverse_item_mapping := ∅ |},
                {| shape := (0, 0)%nat; stored := [] |})
  end.

End TrainerStatements.

Section BackendStatements.
Import Backend.

(** Up to three partners of each favorite category of [user], in the
    order of the user's list. *)
Definition by_preferences (db : Database) (user : User.t) : list Partner.t :=
  c ← User.favorite_categories user;
  take 3 (filter (fun p => Partner.category p = c) (dict_values (partners db))).

(** Every user is stored under its own id. *)
Definition ids_match (db : Database) : Prop :=
  ∀ k u, (k, u) ∈ users db → User.id u = k.

(** Every session belongs to a stored user. *)
Definition sessions_valid (db : Database) : Prop :=
  ∀ t uid, sessions db !! t = Some uid → uid ∈ (users db).*1.

(** The initial database after Maria Popova logged in at time ["0"]. *)
Definition maria_db : Database := (login db_init (Some "maria@example.com") "0").1.
Definition maria_token : option string := Some "token-1-0".

(** A session whose user id has no stored profile. *)
Definition orphan_session_db : Database := {|
  users := initial_users; partners := _load_partners;
  transactions := []; reviews := [];
  sessions := {["token-9-0" := "9"]} |}.

(** A brand-new member: no visits, no savings, no favorite categories, no
    transactions, no reviews. *)
Definition new_user : User.t := {|
  User.id := "3"; User.name := "Nova Ivanova"; User.email := "nova@example.com";
  User.membership_type := "basic"; User.joined_date := "2025-01-01";
  User.total_savings := 0; User.visits_count := 0;
  User.favorite_categories := [] |}.

Definition new_user_db : Database := {|
  users := initial_users ++ [("3", new_user)]; partners := _load_partners;
  transactions := []; reviews := [];
  sessions := {["token-3-0" := "3"]} |}.

(** A member who listed the same favorite category twice. *)
Definition repeating_user : User.t := {|
  User.id := "4"; User.name := "Petar Petrov"; User.email := "petar@example.com";
  User.membership_type := "gold"; User.joined_date := "2024-06-01";
  User.total_savings := 10; User.visits_count := 2;
  User.favorite_categories := ["Fine Dining"; "Fine Dining"] |}.

Definition repeating_user_db : Database := {|
  users := initial_users ++ [("4", repeating_user)]; partners := _load_partners;
  transactions := []; reviews := [];
  sessions := {["token-4-0" := "4"]} |}.

(** What Maria Popova is recommended. *)
Definition maria_recommendations : Recommendations :=
  {| recommendations :=
       take 6 (by_preferences maria_db
                 (default new_user (dict_get "1" (users maria_db))));
     reason := "Based on your preferences" |}.

(** The fields of a partner and of a user entry that
    [get_recommendations] reads. *)
Definition partner_view (p : Partner.t) : string * string :=
  (Partner.id p, Partner.category p).

Definition user_view (e : string * User.t) : string * list string :=
  (e.1, User.favorite_categories e.2).

(** Per user key the favorite categories, and per partner its id and
    category. *)
Definition static_data (db : Database)
  : list (string * list string) * list (string * string) :=
  (user_view <$> users db, partner_view <$> dict_values (partners db)).

(** The ids [get_recommendations] lists for the favorite categories
    [cats], computed from the (id, category) pairs of the catalog. *)
Definition ids_by_views (views : list (string * string)) (cats : list string)
  : list string :=
  take 6 (c ← cats; take 3 ((filter (fun v => v.2 = c) views).*1)).

(** The database after the reviews [rs] were submitted one after the other
    under the same token. *)
Definition post_reviews (db : Database) (token : option string) (now : string)
  (rs : list ReviewDict.t) : Database :=
  foldl (fun db rv => (create_review db rv token now).1) db rs.

(** The stored rating of a partner. *)
Definition partner_rating (db : Database) (partner_id : string) : option Q :=
  Partner.rating <$> dict_get partner_id (partners db).

(** The arithmetic mean of the ratings of all stored reviews of a partner. *)
Definition reviews_mean (db : Database) (partner_id : string) : Q :=
  mean ((fun rv => inject_Z (Review.rating rv)) <$>
        filter (fun rv => Review.partner_id rv = partner_id) (reviews db)).

(** A request body rating [partner_id] with [rating]. *)
Definition review_of (partner_id : string) (rating : Z) : ReviewDict.t :=
  {| ReviewDict.partner_id := partner_id; ReviewDict.rating := rating;
     ReviewDict.comment := "" |}.

(** The first partner of the catalog, as [_load_partners] builds it. *)
Definition first_partner : Partner.t :=
  make_partner 1 "Fine Dining" ["Restaurant"; "Bistro"; "Grill"; "Tavern"] 0.

End BackendStatements.

Section SparkJobFurtherStatements.
Import SparkJob.

(** The interactions preprocessing keeps, before the columns are added. *)
Definition kept_interactions (self : RecommendationEngine) (now : Z)
  (interactions_df : list Interaction) : list Interaction :=
  interaction <$> preprocess_data self now interactions_df.

(** A configuration that sets the threshold to one interaction. *)
Definition threshold_one_config : gmap string Q := {["min_interactions" := 1%Q]}.

(** One joined row per kind of event: a redemption 3 days old, a favorite
    40 days old and a view count of 7 seen 100 days ago, read on day 200
    with the window starting on day 20. *)
Definition sample_joined : list JoinedRow :=
  [ {| u_id := 1; u_is_active := Some true; p_id := 10;
       r_id := Some 5; r_created_at := Some 197;
       f_id := None; f_created_at := None;
       v_id := None; v_view_count := None; v_last_viewed_at := None |};
    {| u_id := 1; u_is_active := Some true; p_id := 11;
       r_id := None; r_created_at := None;
       f_id := Some 8; f_created_at := Some 160;
       v_id := None; v_view_count := None; v_last_viewed_at := None |};
    {| u_id := 1; u_is_active := Some true; p_id := 12;
       r_id := None; r_created_at := None;
       f_id := None; f_created_at := None;
       v_id := Some 3; v_view_count := Some 7; v_last_viewed_at := Some 100 |} ].

End SparkJobFurtherStatements.

Section TrainerFurtherStatements.
Import Trainer.

(** The number of completed transactions of the pair ([u], [p]). *)
Definition pair_count (transactions : list (Z * Z)) (u p : Z) : Z :=
  Z.of_nat (length (filter (fun t => t = (u, p)) transactions)).

(** Three transactions of user 1 at partner 2 and one of user 3 at
    partner 4. *)
Definition sample_transactions : list (Z * Z) :=
  [(1, 2); (3, 4); (1, 2); (1, 2)].

(** [duplicate_rows] with its first two rows swapped, and what
    [create_user_item_matrix] returns on it. *)
Definition swapped_rows : list TrainingRow :=
  [ {| user_id := 7; partner_id := 3; user_partner_count := 2; implicit_rating := 5 |};
    {| user_id := 7; partner_id := 3; user_partner_count := 2; implicit_rating := 2 |};
    {| user_id := 4; partner_id := 9; user_partner_count := 1; implicit_rating := 3 |} ].

Definition swapped_rows_out : RecommendationModelTrainer * csr_matrix :=
  match create_user_item_matrix swapped_rows with
  | Return out => out
  | Raise _ => ({| user_mapping := ∅; item_mapping := ∅; reverse_item_mapping := ∅ |},
                {| shape := (0, 0)%nat; stored := [] |})
  end.

End TrainerFurtherStatements.

Section BackendSessionStatements.
Import Backend.

(** The credentials Maria Popova posts, with some password. *)
Definition maria_credentials : gmap string string :=
  {["email" := "maria@example.com"; "password" := "anything"]}.

(** A request body recording a discount of 12.5 at partner 7. *)
Definition sample_transaction : TransactionDict.t :=
  {| TransactionDict.partner_id := "7"; TransactionDict.amount := 50;
     TransactionDict.discount_applied := 12.5 |}.

End BackendSessionStatements.

Section BackendInvariantStatements.
Import Backend.

(** The ids [create_transaction] and [create_review] hand out: the count
    of stored records plus one, as text. *)
Definition serial_ids (n : nat) : list string :=
  (fun k => pretty (S k)) <$> seq 0 n.

(** The transactions stored for the user [user_id]. *)
Definition transactions_of (db : Database) (user_id : string)
  : list Transaction.t :=
  filter (fun t => Transaction.user_id t = user_id) (transactions db).

(** The reviews stored for the partner [partner_id]. *)
Definition reviews_of (db : Database) (partner_id : string) : list Review.t :=
  filter (fun r => Review.partner_id r = partner_id) (reviews db).

(** The rating after the reviews [ratings] arrived in this order on a
    partner that had the rating [start]. *)
Definition halved_rating (start : Q) (ratings : list Z) : Q :=
  foldl (fun acc r => ((acc + inject_Z r) / 2)%Q) start ratings.

(** The initial database after Maria Popova logged in, recorded
    [sample_transaction] twice and rated partner 1 twice. *)
Definition maria_busy_db : Database :=
  foldl handle db_init
    [ Login (Some "maria@example.com") "0";
      CreateTransaction sample_transaction maria_token "2025-01-01";
      CreateTransaction sample_transaction maria_token "2025-01-02";
      CreateReview (review_of "1" 1) maria_token "2025-01-03";
      CreateReview (review_of "1" 5) maria_token "2025-01-04" ].

(** What the stored partner under key [k] owes to the review log. *)
Definition partner_reviews_match (db : Database) : Prop :=
  ∀ k p, dict_get k (partners db) = Some p →
    ∃ p0, dict_get k (partners db_init) = Some p0 ∧
      Partner.reviews_count p =
        Partner.reviews_count p0 + Z.of_nat (length (reviews_of db k)) ∧
      Partner.rating p =
        halved_rating (Partner.rating p0) (Review.rating <$> reviews_of db k).

(** Maria's database after she rated partner 1 with 1 and then with 5. *)
Definition maria_reviewed_db : Database :=
  post_reviews maria_db maria_token "2025-01-01" [review_of "1" 1; review_of "1" 5].

End BackendInvariantStatements.

Section BackendTextStatements.
Import Backend.

(** Every character of [s] is a decimal digit. *)
Fixpoint all_digits (s : string) : bool :=
  match s with
  | EmptyString => true
  | String c s' => bool_decide (is_Some (digit_value c)) && all_digits s'
  end.

End BackendTextStatements.

Section BackendListingStatements.
Import Backend.

(** The discount of [p] can be read and is at least [min_discount]. *)
Definition meets_min_discount (min_discount : Z) (p : Partner.t) : bool :=
  match discount_value p with
  | Some d => bool_decide (min_discount ≤ d)
  | None => false
  end.

(** [p] passes the category and the location filter of [get_partners]; a
    filter that is [None] or empty lets every partner pass. *)
Definition matches_place (category location : option string) (p : Partner.t)
  : bool :=
  (negb (truthy category) || bool_decide (Some (Partner.category p) = category))
  && (negb (truthy location) || bool_decide (Some (Partner.location p) = location)).

(** [p] passes all three filters of [get_partners]; a minimum discount
    that is [None] or [0] lets every partner pass. *)
Definition matches_filters (category location : option string)
  (min_discount : option Z) (p : Partner.t) : bool :=
  matches_place category location p
  && (negb (truthy_int min_discount)
      || meets_min_discount (default 0 min_discount) p).

(** A text of ASCII characters, at most 4300 of them.  On these texts
    [python_int] is [int()]. *)
Fixpoint ascii_only (s : string) : bool :=
  match s with
  | EmptyString => true
  | String c s' => bool_decide (nat_of_ascii c < 128)%nat && ascii_only s'
  end.

Definition plain_text (s : string) : bool :=
  ascii_only s && bool_decide (String.length s ≤ 4300)%nat.

(** A partner whose discount is no number, and a catalog that holds it
    next to the first shipped partner. *)
Definition unpriced_partner : Partner.t := {|
  Partner.id := "2"; Partner.name := "Bistro Plovdiv 2";
  Partner.category := "Fine Dining"; Partner.discount := "N/A";
  Partner.description := "Premium fine dining experience with exclusive member benefits";
  Partner.rating := 4.1; Partner.reviews_count := 23;
  Partner.location := "Plovdiv"; Partner.image_url := None;
  Partner.tags := ["fine-dining"; "premium"; "exclusive"] |}.

Definition unpriced_db : Database := {|
  users := initial_users;
  partners := [("1", first_partner); ("2", unpriced_partner)];
  transactions := []; reviews := []; sessions := ∅ |}.

(** The Fine Dining partner [_load_partners] builds in round [i]. *)
Definition fine_dining (i : nat) : Partner.t :=
  make_partner (S i) "Fine Dining" ["Restaurant"; "Bistro"; "Grill"; "Tavern"] i.

(** The answers to three requests for the Fine Dining partners in Sofia
    on the initial database: at least 20 percent discount and no sort
    key, sorted by rating, and sorted by discount. *)
Definition sofia_discount_page : PartnersResponse.t := {|
  PartnersResponse.partners := [fine_dining 8; fine_dining 12; fine_dining 16];
  PartnersResponse.total := 3;
  PartnersResponse.filters := (Some "Fine Dining", Some "Sofia", Some 20) |}.

Definition sofia_rating_page : PartnersResponse.t := {|
  PartnersResponse.partners :=
    [fine_dining 8; fine_dining 16; fine_dining 4; fine_dining 12; fine_dining 0];
  PartnersResponse.total := 5;
  PartnersResponse.filters := (Some "Fine Dining", Some "Sofia", None) |}.

Definition sofia_by_discount_page : PartnersResponse.t := {|
  PartnersResponse.partners :=
    [fine_dining 16; fine_dining 12; fine_dining 8; fine_dining 4; fine_dining 0];
  PartnersResponse.total := 5;
  PartnersResponse.filters := (Some "Fine Dining", Some "Sofia", None) |}.

End BackendListingStatements.

Section BackendLookupStatements.
Import Backend.

(** The lower-cased name, description or category of [p] contains
    [query]. *)
Definition mentions (query : string) (p : Partner.t) : Prop :=
  ∃ a b,
    lower (Partner.name p) = a +:+ query +:+ b ∨
    lower (Partner.description p) = a +:+ query +:+ b ∨
    lower (Partner.category p) = a +:+ query +:+ b.

End BackendLookupStatements.

(** * Properties *)

(** ** Properties of the Spark job *)

Section SparkJobProperties.
Import SparkJob.

Lemma recency_weight_when_cases (d : Z) :
  recency_weight_when (Some d) =
    if decide (d ≤ 7) then 1.0%Q
    else if decide (d ≤ 30) then 0.9%Q
    else if decide (d ≤ 90) then 0.7%Q else 0.5%Q.
Proof.
  unfold recency_weight_when, sql_le, when_true; simpl.
  repeat case_bool_decide; repeat case_decide; try reflexivity; lia.
Qed.

Lemma recency_weight_when_null : recency_weight_when None = 0.5%Q.
Proof. reflexivity. Qed.

Lemma recency_weight_when_antitone (d1 d2 : Z) :
  d1 ≤ d2 →
  (recency_weight_when (Some d2) <= recency_weight_when (Some d1))%Q.
Proof.
  intros Hle. rewrite !recency_weight_when_cases.
  repeat case_decide; try lia; by vm_compute.
Qed.

(** Rows that pass the WHERE clause carry a timestamp inside the window. *)
Lemma interactions_query_timestamp window_start joined i :
  i ∈ interactions_query window_start joined →
  ∃ t, timestamp i = Some t ∧ window_start < t.
Proof.
  unfold interactions_query. intros Hi.
  apply list_elem_of_fmap in Hi as (j & -> & Hj).
  apply list_elem_of_filter in Hj as [Hw _].
  unfold interactions_where in Hw. apply andb_prop in Hw as [_ Hw].
  simpl. destruct (coalesce3 _ _ _) as [t|]; [|discriminate].
  exists t. split; [done|]. simpl in Hw. by case_bool_decide.
Qed.

Lemma filter_eq_NoDup (x : Z) (l : list Z) :
  NoDup l → filter (fun u => u = x) l = if decide (x ∈ l) then [x] else [].
Proof.
  induction 1 as [|y l Hy Hnd IH].
  - by rewrite decide_False by apply not_elem_of_nil.
  - rewrite filter_cons, IH. destruct (decide (y = x)) as [->|Hyx].
    + rewrite (decide_False _ _ Hy). by rewrite decide_True by left.
    + destruct (decide (x ∈ l)) as [Hx|Hx].
      * by rewrite decide_True by (by right).
      * rewrite decide_False; [done|].
        intros [->|?]%elem_of_cons; done.
Qed.

Lemma active_users_ids self df u :
  u ∈ (active_users self df).*1 ↔
  u ∈ row_user <$> df ∧ is_active self df u = true.
Proof.
  unfold active_users, groupBy_user_id_count, is_active.
  rewrite list_elem_of_fmap. split.
  - intros ([u' c] & -> & Hg). apply list_elem_of_filter in Hg as [Hc Hg].
    apply list_elem_of_fmap in Hg as (u'' & Heq & Hu). simplify_eq/=.
    rewrite elem_of_remove_dups in Hu. by split.
  - intros [Hu Hc]. exists (u, interaction_count u df). split; [done|].
    apply list_elem_of_filter. split; [done|].
    apply list_elem_of_fmap. exists u. split; [done|].
    by rewrite elem_of_remove_dups.
Qed.

Lemma active_users_ids_NoDup self df : NoDup (active_users self df).*1.
Proof.
  unfold active_users, groupBy_user_id_count.
  eapply sublist_NoDup; [|apply fmap_sublist, sublist_filter].
  rewrite <- list_fmap_compose.
  rewrite (list_fmap_ext _ id (remove_dups (row_user <$> df))) by done.
  rewrite list_fmap_id. apply NoDup_remove_dups.
Qed.

Lemma filter_ext_elem_of {A : Type} (P1 P2 : A → Prop)
    `{!∀ x, Decision (P1 x), !∀ x, Decision (P2 x)} (l : list A) :
  (∀ x, x ∈ l → P1 x ↔ P2 x) → filter P1 l = filter P2 l.
Proof.
  induction l as [|x l IH]; intros Hext; [done|].
  rewrite !filter_cons, IH by (intros; apply Hext; by right).
  pose proof (Hext x (list_elem_of_here _ _)).
  repeat case_decide; tauto.
Qed.

Lemma join_inner_user_id_filter (l : list Weighted) (ids : list Z) :
  NoDup ids →
  join_inner_user_id l ids = filter (fun r => row_user r ∈ ids) l.
Proof.
  intros Hnd. unfold join_inner_user_id.
  induction l as [|r l IH]; [done|].
  rewrite filter_cons. cbn [mbind list_bind]. rewrite IH.
  rewrite filter_eq_NoDup by done. by case_decide.
Qed.

(** The inner join keeps exactly the rows of the active users, once each
    and in their original order. *)
Lemma preprocess_data_filter self now interactions_df :
  let df := with_columns self now <$> interactions_df in
  preprocess_data self now interactions_df =
  filter (fun r => is_active self df (row_user r) = true) df.
Proof.
  intros df. unfold preprocess_data. fold df.
  rewrite join_inner_user_id_filter by apply active_users_ids_NoDup.
  apply filter_ext_elem_of. intros r Hr. rewrite active_users_ids.
  split; [tauto|]. intros ?. split; [|done]. by apply list_elem_of_fmap_2.
Qed.

Lemma interaction_count_with_columns self now interactions_df u :
  interaction_count u (with_columns self now <$> interactions_df) =
  Z.of_nat (length (filter (fun i => user_id i = u) interactions_df)).
Proof.
  unfold interaction_count. f_equal.
  induction interactions_df as [|i l IH]; [done|].
  rewrite fmap_cons, !filter_cons. unfold row_user at 1. simpl.
  destruct (decide (user_id i = u)); rewrite ?length_cons; by rewrite IH.
Qed.

Lemma Qle_bool_false_lt (a b : Q) : (b < a)%Q → Qle_bool a b = false.
Proof.
  intros Hlt. destruct (Qle_bool a b) eqn:E; [|done].
  apply Qle_bool_iff in E. exfalso. by apply (Qlt_not_le b a).
Qed.

Lemma preprocess_data_row self now interactions_df r :
  r ∈ preprocess_data self now interactions_df →
  ∃ i, i ∈ interactions_df ∧ r = with_columns self now i.
Proof.
  rewrite preprocess_data_filter. intros [_ Hr]%list_elem_of_filter.
  apply list_elem_of_fmap in Hr as (i & -> & Hi). eauto.
Qed.

(** The rating CASE of the interactions query: the value set and the
    priority of its branches. *)
Lemma rating_case_priority (r_id f_id view_count : option Z) :
  rating_case r_id f_id view_count ∈ [1.0; 2.0; 3.0; 4.0; 5.0]%Q ∧
  (is_Some r_id → rating_case r_id f_id view_count = 5.0%Q) ∧
  (r_id = None → is_Some f_id → rating_case r_id f_id view_count = 4.0%Q) ∧
  (∀ c, r_id = None → f_id = None → view_count = Some c →
        (5 < c → rating_case r_id f_id view_count = 3.0%Q) ∧
        (2 < c ≤ 5 → rating_case r_id f_id view_count = 2.0%Q) ∧
        (c ≤ 2 → rating_case r_id f_id view_count = 1.0%Q)) ∧
  (r_id = None → f_id = None → view_count = None →
   rating_case r_id f_id view_count = 1.0%Q).
Proof.
  unfold rating_case, sql_gt, when_true.
  split; [|split; [|split; [|split]]].
  - destruct r_id, f_id, view_count; simpl; repeat case_bool_decide;
      set_solver.
  - by intros [? ->].
  - by intros -> [? ->].
  - intros c -> -> ->. simpl.
    repeat split; intros; repeat case_bool_decide; try done; lia.
  - by intros -> -> ->.
Qed.

(** C1: the recency weight of preprocessing is the step function 1.0 up to
    7 days, 0.9 up to 30, 0.7 up to 90 and 0.5 beyond; it never grows with
    age; every interaction of the training window is given that weight for
    its age in days, and the rows preprocessing returns are such rows. *)
Theorem recency_weight_step_function :
  (∀ d : Z,
     (d ≤ 7 → recency_weight_when (Some d) = 1.0%Q) ∧
     (7 < d ≤ 30 → recency_weight_when (Some d) = 0.9%Q) ∧
     (30 < d ≤ 90 → recency_weight_when (Some d) = 0.7%Q) ∧
     (90 < d → recency_weight_when (Some d) = 0.5%Q)) ∧
  (∀ d1 d2 : Z,
     d1 ≤ d2 →
     (recency_weight_when (Some d2) <= recency_weight_when (Some d1))%Q) ∧
  (∀ self now window_start joined i,
     i ∈ interactions_query window_start joined →
     ∃ t, timestamp i = Some t ∧ window_start < t ∧
          days_ago (with_columns self now i) = Some (now - t) ∧
          recency_weight_col (with_columns self now i) =
            recency_weight_when (Some (now - t))) ∧
  (∀ self now interactions_df r,
     r ∈ preprocess_data self now interactions_df →
     ∃ i, i ∈ interactions_df ∧ r = with_columns self now i).
Proof.
  split; [|split; [|split]].
  - intros d. rewrite recency_weight_when_cases.
    repeat split; intros; repeat case_decide; try done; lia.
  - apply recency_weight_when_antitone.
  - intros self now window_start joined i Hi.
    apply interactions_query_timestamp in Hi as (t & Ht & Hw).
    exists t. simpl. by rewrite Ht.
  - apply preprocess_data_row.
Qed.

(** C4: a user whose interaction count is strictly below
    [min_interactions] (5 unless configured) has no row left after
    preprocessing. *)
Theorem inactive_users_removed self now interactions_df (u : Z) :
  (inject_Z (Z.of_nat (length (filter (fun i => user_id i = u) interactions_df)))
   < min_interactions self)%Q →
  (∀ r, r ∈ preprocess_data self now interactions_df →
        user_id (interaction r) ≠ u) ∧
  (∀ config : gmap string Q,
     config !! "min_interactions" = None →
     min_interactions (__init__ config) = 5%Q).
Proof.
  intros Hlt. split.
  - intros r Hr Hu. rewrite preprocess_data_filter in Hr.
    apply list_elem_of_filter in Hr as [Hact _].
    unfold is_active in Hact. unfold row_user in Hact. rewrite Hu in Hact.
    rewrite interaction_count_with_columns in Hact.
    rewrite Qle_bool_false_lt in Hact; done.
  - intros config Hc. unfold __init__, config_get; simpl. by rewrite Hc.
Qed.

Lemma inactive_users_removed_witness :
  (inject_Z (Z.of_nat (length (filter (fun i => user_id i = 1%Z) sample_interactions)))
   < min_interactions (__init__ ∅))%Q ∧
  (∀ r, r ∈ preprocess_data (__init__ ∅) 100 sample_interactions →
        user_id (interaction r) ≠ 1).
Proof.
  split; [by vm_compute|].
  apply (inactive_users_removed (__init__ ∅) 100 sample_interactions 1).
  by vm_compute.
Defined.

(** Users at or above the threshold keep every one of their rows. *)
Lemma active_users_kept self now interactions_df i :
  i ∈ interactions_df →
  (min_interactions self <=
   inject_Z (Z.of_nat (length (filter (fun i' => user_id i' = user_id i) interactions_df))))%Q →
  with_columns self now i ∈ preprocess_data self now interactions_df.
Proof.
  intros Hi Hle. rewrite preprocess_data_filter.
  apply list_elem_of_filter. split; [|by apply list_elem_of_fmap_2].
  unfold is_active. rewrite interaction_count_with_columns.
  by apply Qle_bool_iff.
Qed.

(** C10: the weighted rating used for training is
    rating × recency step weight × the engine's [recency_weight] factor,
    the value of the configuration key 'recency_weight' with default 0.8;
    so with the default the effective weight is 0.8 times the step
    weight. *)
Theorem weighted_rating_default_factor (config : gmap string Q) now
    interactions_df r :
  r ∈ preprocess_data (__init__ config) now interactions_df →
  recency_weight_col r = recency_weight_when (days_ago r) ∧
  weighted_rating r =
    (rating (interaction r) * recency_weight_col r
     * default 0.8 (config !! "recency_weight"))%Q ∧
  (config !! "recency_weight" = None →
   recency_weight (__init__ config) = 0.8%Q ∧
   weighted_rating r =
     (rating (interaction r) * recency_weight_col r * 0.8)%Q ∧
   (weighted_rating r ==
      rating (interaction r) * (0.8 * recency_weight_when (days_ago r)))%Q).
Proof.
  intros Hr.
  apply preprocess_data_row in Hr as (i & _ & ->).
  split; [done|]. split; [done|]. intros Hc.
  assert (Hw : recency_weight (__init__ config) = 0.8%Q).
  { unfold __init__, config_get; simpl. by rewrite Hc. }
  split; [done|].
  unfold with_columns.
  cbn [weighted_rating recency_weight_col days_ago interaction].
  rewrite Hw. split; [done|]. ring.
Qed.

Lemma weighted_rating_default_factor_witness :
  with_columns (__init__ ∅) 100 (sample_interaction 2 10 95)
    ∈ preprocess_data (__init__ ∅) 100 sample_interactions ∧
  weighted_rating (with_columns (__init__ ∅) 100 (sample_interaction 2 10 95)) =
    (5.0 * 1.0 * 0.8)%Q.
Proof.
  assert (Hin : with_columns (__init__ ∅) 100 (sample_interaction 2 10 95)
                  ∈ preprocess_data (__init__ ∅) 100 sample_interactions).
  { apply active_users_kept; [|by vm_compute].
    unfold sample_interactions. set_solver. }
  split; [done|].
  by destruct (weighted_rating_default_factor ∅ 100 sample_interactions _ Hin)
    as (_ & -> & _).
Defined.

(** With a configured factor the same product is taken with that factor. *)
Lemma weighted_rating_configured_factor self now interactions_df r :
  r ∈ preprocess_data self now interactions_df →
  weighted_rating r =
    (rating (interaction r) * recency_weight_when (days_ago r)
     * recency_weight self)%Q.
Proof. by intros (i & _ & ->)%preprocess_data_row. Qed.

End SparkJobProperties.

(** ** Properties of the training script *)

Section TrainerProperties.
Import Trainer.

Lemma elem_of_insert_sorted (x y : Z) (l : list Z) :
  y ∈ insert_sorted x l ↔ y = x ∨ y ∈ l.
Proof.
  induction l as [|z l IH]; simpl.
  - rewrite list_elem_of_singleton, elem_of_nil. tauto.
  - repeat case_decide; rewrite ?elem_of_cons, ?IH, ?elem_of_cons;
      subst; tauto.
Qed.

Lemma elem_of_sorted_unique (x : Z) (l : list Z) :
  x ∈ sorted_unique l ↔ x ∈ l.
Proof.
  induction l as [|y l IH]; simpl; [done|].
  rewrite elem_of_insert_sorted, IH, elem_of_cons. done.
Qed.

Lemma insert_sorted_sorted (x : Z) (l : list Z) :
  StronglySorted Z.lt l → StronglySorted Z.lt (insert_sorted x l).
Proof.
  induction 1 as [|y l Hs IH Hy]; simpl.
  - repeat constructor.
  - repeat case_decide.
    + constructor; [by constructor|]. constructor; [done|].
      eapply Forall_impl; [exact Hy|]. simpl. lia.
    + by constructor.
    + constructor; [done|]. apply Forall_forall. intros z Hz.
      apply elem_of_insert_sorted in Hz as [->|Hz]; [lia|].
      by eapply Forall_forall in Hy.
Qed.

Lemma sorted_unique_sorted (l : list Z) : StronglySorted Z.lt (sorted_unique l).
Proof.
  induction l; simpl; [constructor|by apply insert_sorted_sorted].
Qed.

Lemma StronglySorted_lt_NoDup (l : list Z) : StronglySorted Z.lt l → NoDup l.
Proof.
  induction 1 as [|y l Hs IH Hy]; constructor; [|done].
  intros Hin. eapply Forall_forall in Hy; [|done]. lia.
Qed.

Lemma sorted_unique_NoDup (l : list Z) : NoDup (sorted_unique l).
Proof. apply StronglySorted_lt_NoDup, sorted_unique_sorted. Qed.

Lemma index_mapping_snoc (keys : list Z) (k : Z) :
  index_mapping (keys ++ [k]) = <[k := length keys]> (index_mapping keys).
Proof.
  unfold index_mapping. rewrite imap_app, foldl_app. simpl.
  by rewrite Nat.add_0_r.
Qed.

Lemma index_mapping_lookup (keys : list Z) (k : Z) (i : nat) :
  NoDup keys → keys !! i = Some k → index_mapping keys !! k = Some i.
Proof.
  revert i. induction keys as [|x keys IH] using rev_ind; intros i Hnd Hi.
  - done.
  - apply NoDup_app in Hnd as (Hnd & Hx & _).
    rewrite index_mapping_snoc.
    destruct (decide (i < length keys)%nat) as [Hlt|Hge].
    + rewrite lookup_app_l in Hi by done.
      rewrite lookup_insert_ne; [by apply IH|].
      intros ->. eapply Hx; [|left]. by eapply list_elem_of_lookup_2.
    + rewrite lookup_app_r in Hi by lia.
      destruct (i - length keys)%nat as [|n] eqn:E; simplify_eq/=.
      rewrite lookup_insert_eq. f_equal. lia.
Qed.

Lemma index_mapping_lookup_None (keys : list Z) (k : Z) :
  k ∉ keys → index_mapping keys !! k = None.
Proof.
  induction keys as [|x keys IH] using rev_ind; intros Hk; [done|].
  rewrite not_elem_of_app, list_elem_of_singleton in Hk. destruct Hk.
  rewrite index_mapping_snoc. rewrite lookup_insert_ne by done. by apply IH.
Qed.

Lemma row_get_sparse_above (row : list Q) (k j : nat) :
  (j < k)%nat →
  row_get (filter nonzero (imap (fun i => pair (k + i)%nat) row)) j = 0%Q.
Proof.
  revert k. induction row as [|v row IH]; intros k Hlt; [done|].
  rewrite imap_cons, filter_cons.
  rewrite (imap_ext _ (fun i => pair (S k + i)%nat)) by (intros; f_equal/=; lia).
  case_decide; simpl; [rewrite decide_False by lia|]; apply (IH (S k)); lia.
Qed.

Lemma row_get_sparse (row : list Q) (k j : nat) :
  (row_get (filter nonzero (imap (fun i => pair (k + i)%nat) row)) (k + j)
   == default 0 (row !! j))%Q.
Proof.
  revert k j. induction row as [|v row IH]; intros k j; [done|].
  rewrite imap_cons, filter_cons.
  rewrite (imap_ext _ (fun i => pair (S k + i)%nat)) by (intros; f_equal/=; lia).
  destruct j as [|j]; simpl.
  - case_decide as Hnz; simpl.
    + rewrite decide_True by lia. reflexivity.
    + rewrite (row_get_sparse_above row (S k)) by lia.
      unfold nonzero in Hnz. simpl in Hnz.
      apply not_false_is_true, Qeq_bool_iff in Hnz. by symmetry.
  - replace (k + S j)%nat with (S k + j)%nat by lia.
    case_decide; simpl; [rewrite decide_False by lia|]; apply (IH (S k)).
Qed.

(** Reading the sparse matrix gives back the dense values. *)
Lemma csr_get_of_dense (vals : list (list Q)) (i j : nat) (row : list Q) (v : Q) :
  vals !! i = Some row → row !! j = Some v →
  (csr_get (csr_of_dense vals) i j == v)%Q.
Proof.
  intros Hi Hj. unfold csr_get, csr_of_dense; simpl.
  rewrite list_lookup_fmap, Hi. simpl.
  pose proof (row_get_sparse row 0 j) as H. simpl in H.
  rewrite H, Hj. reflexivity.
Qed.

Lemma pivot_table_values_lookup (df : list TrainingRow) (fill_value : Q)
    (i j : nat) (u p : Z) :
  index (pivot_table df fill_value) !! i = Some u →
  columns (pivot_table df fill_value) !! j = Some p →
  ∃ row, values (pivot_table df fill_value) !! i = Some row ∧
         row !! j = Some (pivot_cell fill_value df u p).
Proof.
  unfold pivot_table; simpl. intros Hi Hj.
  eexists. rewrite list_lookup_fmap, Hi. split; [done|].
  by rewrite list_lookup_fmap, Hj.
Qed.

Lemma ratings_of_nonempty (df : list TrainingRow) (u p : Z) :
  ratings_of df u p ≠ [] →
  u ∈ user_id <$> df ∧ p ∈ partner_id <$> df.
Proof.
  unfold ratings_of. intros Hne.
  destruct (filter _ df) as [|r l] eqn:E; [done|].
  assert (Hr : r ∈ filter (fun r => user_id r = u ∧ partner_id r = p) df)
    by (rewrite E; left).
  apply list_elem_of_filter in Hr as [[<- <-] Hr].
  split; by apply list_elem_of_fmap_2.
Qed.

(** What [create_user_item_matrix] returns when it returns. *)
Lemma create_user_item_matrix_Return (df : list TrainingRow) out :
  create_user_item_matrix df = Return out →
  df ≠ [] ∧
  out = ({| user_mapping := index_mapping (index (pivot_table df 0));
            item_mapping := index_mapping (columns (pivot_table df 0));
            reverse_item_mapping := reverse_mapping (columns (pivot_table df 0)) |},
         csr_of_dense (values (pivot_table df 0))).
Proof. destruct df; [done|]. by intros [= <-]. Qed.

(** The matrix entry of every (user, partner) pair that occurs in the
    frame is the pivot cell of the pair. *)
Lemma matrix_entry_pivot_cell (df : list TrainingRow) out (u p : Z) :
  create_user_item_matrix df = Return out →
  u ∈ user_id <$> df → p ∈ partner_id <$> df →
  ∃ v, matrix_entry out u p = Some v ∧ (v == pivot_cell 0 df u p)%Q.
Proof.
  intros [_ ->]%create_user_item_matrix_Return Hu Hp.
  unfold matrix_entry; simpl.
  apply elem_of_sorted_unique, list_elem_of_lookup in Hu as [i Hi].
  apply elem_of_sorted_unique, list_elem_of_lookup in Hp as [j Hj].
  rewrite (index_mapping_lookup _ u i) by (apply sorted_unique_NoDup || done).
  rewrite (index_mapping_lookup _ p j) by (apply sorted_unique_NoDup || done).
  simpl. eexists. split; [done|].
  destruct (pivot_table_values_lookup df 0 i j u p Hi Hj) as (row & Hrow & Hv).
  by eapply csr_get_of_dense.
Qed.

Lemma Qsum_all_equal (l : list Q) (v : Q) :
  Forall (fun x => x == v)%Q l →
  (Qsum l == inject_Z (Z.of_nat (length l)) * v)%Q.
Proof.
  induction 1 as [|x l Hx _ IH].
  - simpl. ring.
  - cbn [Qsum foldr length]. fold (Qsum l). rewrite IH, Hx.
    rewrite Nat2Z.inj_succ. unfold Z.succ. rewrite inject_Z_plus. ring.
Qed.

Lemma mean_all_equal (l : list Q) (v : Q) :
  l ≠ [] → Forall (fun x => x == v)%Q l → (mean l == v)%Q.
Proof.
  intros Hne Hall. unfold mean. rewrite Qsum_all_equal by done.
  field. destruct l; [done|]. simpl length.
  rewrite Nat2Z.inj_succ. unfold Z.succ.
  intros H. unfold Qeq in H. simpl in H. lia.
Qed.

Lemma foldl_Qmax_all_equal (l : list Q) (x v : Q) :
  (x == v)%Q → Forall (fun y => y == v)%Q l → (foldl Qmax x l == v)%Q.
Proof.
  intros Hx Hall. revert x Hx. induction Hall as [|y l Hy _ IH]; intros x Hx.
  - done.
  - simpl. apply IH. rewrite Hx, Hy. apply Q.max_id.
Qed.

Lemma Qlist_max_all_equal (l : list Q) (v : Q) :
  l ≠ [] → Forall (fun x => x == v)%Q l → (Qlist_max l == v)%Q.
Proof.
  destruct l as [|x l]; [done|]. intros _ Hall.
  apply Forall_cons in Hall as [Hx Hall]. by apply foldl_Qmax_all_equal.
Qed.

Lemma foldl_Qmax_ge (l : list Q) (x : Q) :
  (x <= foldl Qmax x l)%Q ∧ Forall (fun y => y <= foldl Qmax x l)%Q l.
Proof.
  revert x. induction l as [|y l IH]; intros x; simpl.
  - split; [apply Qle_refl|constructor].
  - destruct (IH (Qmax x y)) as [Hm Hall]. split.
    + eapply Qle_trans; [apply Q.le_max_l|exact Hm].
    + constructor; [|done].
      eapply Qle_trans; [apply Q.le_max_r|exact Hm].
Qed.

Lemma Qlist_max_ge (l : list Q) : Forall (fun y => y <= Qlist_max l)%Q l.
Proof.
  destruct l as [|x l]; [constructor|]. simpl.
  destruct (foldl_Qmax_ge l x). by constructor.
Qed.

Lemma Qsum_le_bound (l : list Q) (M : Q) :
  Forall (fun y => y <= M)%Q l →
  (Qsum l <= inject_Z (Z.of_nat (length l)) * M)%Q.
Proof.
  induction 1 as [|x l Hx _ IH].
  - change (0 <= 0 * M)%Q. lra.
  - cbn [Qsum foldr length]. fold (Qsum l).
    rewrite Nat2Z.inj_succ. unfold Z.succ. rewrite inject_Z_plus.
    change (inject_Z 1) with 1%Q. lra.
Qed.

Lemma Qsum_eq_bound (l : list Q) (M : Q) :
  Forall (fun y => y <= M)%Q l →
  (Qsum l == inject_Z (Z.of_nat (length l)) * M)%Q →
  Forall (fun y => y == M)%Q l.
Proof.
  induction 1 as [|x l Hx Hl IH]; intros Hsum; [constructor|].
  pose proof (Qsum_le_bound l M Hl) as Hle.
  cbn [Qsum foldr length] in Hsum. fold (Qsum l) in Hsum.
  rewrite Nat2Z.inj_succ in Hsum. unfold Z.succ in Hsum.
  rewrite inject_Z_plus in Hsum. change (inject_Z 1) with 1%Q in Hsum.
  constructor; [lra|]. apply IH. lra.
Qed.

Lemma mean_times_length (l : list Q) :
  l ≠ [] → (Qsum l == inject_Z (Z.of_nat (length l)) * mean l)%Q.
Proof.
  intros Hne. unfold mean. field.
  destruct l; [done|]. simpl length.
  rewrite Nat2Z.inj_succ. unfold Z.succ.
  intros H. unfold Qeq in H. simpl in H. lia.
Qed.

(** The mean of a non-empty list is its maximum exactly when all its
    elements are equal. *)
Lemma mean_eq_max_iff (l : list Q) :
  l ≠ [] →
  (mean l == Qlist_max l)%Q ↔ Forall (fun x => x == Qlist_max l)%Q l.
Proof.
  intros Hne. split.
  - intros Heq. apply Qsum_eq_bound; [apply Qlist_max_ge|].
    rewrite <- Heq. by apply mean_times_length.
  - intros Hall. by apply mean_all_equal.
Qed.

(** C2 (amended): the entry stored for a (user_id, partner_id) pair that
    has at least one row is the arithmetic mean of the ratings of all rows
    of the pair; it is the maximum of those ratings exactly when they are
    all equal. *)
Theorem matrix_entry_is_mean (df : list TrainingRow) out (u p : Z) :
  create_user_item_matrix df = Return out →
  ratings_of df u p ≠ [] →
  ∃ v, matrix_entry out u p = Some v ∧
       (v == mean (ratings_of df u p))%Q ∧
       ((v == Qlist_max (ratings_of df u p))%Q ↔
        Forall (fun x => x == Qlist_max (ratings_of df u p))%Q (ratings_of df u p)).
Proof.
  intros Hout Hne.
  destruct (ratings_of_nonempty df u p Hne) as [Hu Hp].
  destruct (matrix_entry_pivot_cell df out u p Hout Hu Hp) as (v & Hv & Hcell).
  exists v. split; [done|].
  assert (Hmean : (v == mean (ratings_of df u p))%Q).
  { rewrite Hcell. unfold pivot_cell.
    destruct (ratings_of df u p); [done|reflexivity]. }
  split; [done|]. rewrite Hmean. by apply mean_eq_max_iff.
Qed.

Lemma matrix_entry_is_mean_witness :
  create_user_item_matrix duplicate_rows = Return duplicate_rows_out ∧
  ratings_of duplicate_rows 7 3 ≠ [] ∧
  ∃ v, matrix_entry duplicate_rows_out 7 3 = Some v ∧
       (v == mean (ratings_of duplicate_rows 7 3))%Q.
Proof.
  assert (H1 : create_user_item_matrix duplicate_rows = Return duplicate_rows_out)
    by reflexivity.
  assert (H2 : ratings_of duplicate_rows 7 3 ≠ []) by (vm_compute; discriminate).
  split; [done|]. split; [done|].
  destruct (matrix_entry_is_mean duplicate_rows duplicate_rows_out 7 3 H1 H2)
    as (v & Hv & Hmean & _).
  by exists v.
Defined.

(** C2 as stated fails: with ratings 2 and 5 for the same pair the stored
    entry is 7/2, not the maximum 5. *)
Lemma matrix_entry_not_max :
  ¬ (∀ (df : list TrainingRow) out (u p : Z),
       create_user_item_matrix df = Return out →
       (1 < length (ratings_of df u p))%nat →
       ∃ v, matrix_entry out u p = Some v ∧
            (v == Qlist_max (ratings_of df u p))%Q).
Proof.
  intros H.
  destruct (H duplicate_rows duplicate_rows_out 7 3 eq_refl) as (v & Hv & Hmax).
  - vm_compute. lia.
  - vm_compute in Hv. injection Hv as <-. vm_compute in Hmax. discriminate.
Qed.

Lemma implicit_rating_case_ladder (c : Z) :
  implicit_rating_case c ∈ [2; 3; 4; 5] ∧
  (3 < c → implicit_rating_case c = 5) ∧
  (c = 3 → implicit_rating_case c = 4) ∧
  (c = 2 → implicit_rating_case c = 3) ∧
  (c ≤ 1 → implicit_rating_case c = 2).
Proof.
  unfold implicit_rating_case.
  repeat split; intros; repeat case_bool_decide; try lia;
    rewrite ?elem_of_cons; tauto.
Qed.

Lemma fetch_training_data_row (transactions : list (Z * Z)) row :
  row ∈ fetch_training_data transactions →
  (user_id row, partner_id row) ∈ transactions ∧
  user_partner_count row =
    Z.of_nat (length (filter (fun t => t = (user_id row, partner_id row)) transactions)) ∧
  1 ≤ user_partner_count row ∧
  implicit_rating row = inject_Z (implicit_rating_case (user_partner_count row)).
Proof.
  unfold fetch_training_data. intros (t & -> & Ht)%list_elem_of_fmap.
  simpl. destruct t as [u p]; simpl. repeat split; try done.
  assert (Hin : (u, p) ∈ filter (fun t' => t' = (u, p)) transactions)
    by (by apply list_elem_of_filter).
  destruct (filter _ transactions); [by apply elem_of_nil in Hin|].
  simpl length. lia.
Qed.

(** In the training frame all rows of one (user, partner) pair carry the
    same rating, so there the mean stored in the matrix is also their
    maximum. *)
Lemma fetch_training_data_ratings_equal (transactions : list (Z * Z)) (u p : Z) :
  Forall (fun x => x = inject_Z (implicit_rating_case
            (Z.of_nat (length (filter (fun t => t = (u, p)) transactions)))))
         (ratings_of (fetch_training_data transactions) u p).
Proof.
  apply Forall_forall. intros x Hx. unfold ratings_of in Hx.
  apply list_elem_of_fmap in Hx as (row & -> & Hrow).
  apply list_elem_of_filter in Hrow as [[<- <-] Hrow].
  apply fetch_training_data_row in Hrow as (_ & Hc & _ & ->). by rewrite <- Hc.
Qed.

End TrainerProperties.

(** ** Properties of the backend *)

Section BackendProperties.
Import Backend.

Lemma dict_get_mutate_eq {V : Type} (k : string) (f : V → V) (d : list (string * V)) :
  dict_get k (dict_mutate k f d) = f <$> dict_get k d.
Proof.
  induction d as [|[k' v] d IH]; [done|]. simpl.
  destruct (decide (k' = k)) as [->|Hne]; simpl.
  - by rewrite decide_True.
  - by rewrite decide_False.
Qed.

Lemma dict_get_mutate_ne {V : Type} (k k0 : string) (f : V → V) (d : list (string * V)) :
  k0 ≠ k → dict_get k0 (dict_mutate k f d) = dict_get k0 d.
Proof.
  intros Hne. induction d as [|[k' v] d IH]; [done|]. simpl.
  destruct (decide (k' = k)) as [->|Hne']; simpl.
  - by rewrite !decide_False.
  - by rewrite IH.
Qed.

Lemma dict_mutate_keys {V : Type} (k : string) (f : V → V) (d : list (string * V)) :
  (dict_mutate k f d).*1 = d.*1.
Proof.
  induction d as [|[k' v] d IH]; [done|]. simpl.
  destruct (decide (k' = k)); simpl; [done|]. f_equal. exact IH.
Qed.

Lemma dict_get_is_Some {V : Type} (k : string) (d : list (string * V)) :
  is_Some (dict_get k d) ↔ k ∈ d.*1.
Proof.
  induction d as [|[k' v] d IH]; simpl.
  - rewrite elem_of_nil. split; [by intros [??]|done].
  - rewrite elem_of_cons. destruct (decide (k' = k)) as [->|Hne].
    + split; eauto.
    + rewrite IH. split; [tauto|]. by intros [?|?]; [congruence|].
Qed.

(** What [get_current_user] returns, in terms of the session table. *)
Lemma get_current_user_Some db token uid :
  get_current_user db token = Some uid ↔
  ∃ t, token = Some t ∧ t ≠ "" ∧ sessions db !! t = Some uid.
Proof.
  unfold get_current_user, truthy. destruct token as [t|]; simpl.
  - case_bool_decide as Ht; simpl.
    + split; [done|]. intros (t' & [= <-] & ? & _). done.
    + case_bool_decide as Hs.
      * split; [intros; by exists t|]. by intros (t' & [= <-] & _ & ?).
      * split; [done|]. intros (t' & [= <-] & _ & Hl).
        destruct Hs. by rewrite Hl.
  - split; [done|]. by intros (t' & ? & _).
Qed.

(** The loop over the favorite categories, as one comprehension. *)
Lemma foldl_extend_by_category db (cats : list string) (recs : list Partner.t) :
  foldl (extend_by_category db) recs cats =
  recs ++ (c ← cats;
           take 3 (filter (fun p => Partner.category p = c) (dict_values (partners db)))).
Proof.
  revert recs. induction cats as [|c cats IH]; intros recs; simpl.
  - by rewrite app_nil_r.
  - rewrite IH. unfold extend_by_category. by rewrite <- app_assoc.
Qed.

(** The three outcomes of [get_recommendations]. *)
Lemma get_recommendations_anonymous db token :
  truthy (get_current_user db token) = false →
  get_recommendations db token =
    Return {| recommendations := take 6 (dict_values (partners db));
              reason := "Popular choices" |}.
Proof. intros H. unfold get_recommendations. by rewrite H. Qed.

Lemma get_recommendations_no_profile db token uid :
  get_current_user db token = Some uid → uid ≠ "" →
  dict_get uid (users db) = None →
  get_recommendations db token = Raise (HTTPException 404 "User not found").
Proof.
  intros Hu Hne Hget. unfold get_recommendations. rewrite Hu. simpl.
  rewrite bool_decide_eq_false_2 by done. simpl. by rewrite Hget.
Qed.

Lemma get_recommendations_profile db token uid user :
  get_current_user db token = Some uid → uid ≠ "" →
  dict_get uid (users db) = Some user →
  get_recommendations db token =
    Return {| recommendations := take 6 (by_preferences db user);
              reason := "Based on your preferences" |}.
Proof.
  intros Hu Hne Hget. unfold get_recommendations. rewrite Hu. simpl.
  rewrite bool_decide_eq_false_2 by done. simpl. rewrite Hget.
  by rewrite foldl_extend_by_category.
Qed.

(** *** Invariant of the reachable databases: every session points to a
    stored user profile. *)

Lemma elem_of_dict_mutate {V : Type} (k k0 : string) (f : V → V) (v' : V)
    (d : list (string * V)) :
  (k0, v') ∈ dict_mutate k f d → ∃ v, (k0, v) ∈ d ∧ (v' = v ∨ v' = f v).
Proof.
  induction d as [|[k' v] d IH]; simpl; [by intros ?%elem_of_nil|].
  destruct (decide (k' = k)) as [->|Hne]; rewrite elem_of_cons.
  - intros [[= -> ->]|Hin].
    + exists v. split; [left|by right].
    + exists v'. split; [by right|by left].
  - intros [[= -> ->]|Hin].
    + exists v. split; [left|by left].
    + destruct (IH Hin) as (v0 & ? & ?). exists v0. split; [by right|done].
Qed.

Lemma login_invariant db email now_ts :
  ids_match db → sessions_valid db →
  ids_match (login db email now_ts).1 ∧ sessions_valid (login db email now_ts).1.
Proof.
  intros Hids Hs. unfold login.
  destruct (list_find _ _) as [[i user]|] eqn:E; [|done]. simpl.
  split; [done|]. intros t uid. simpl.
  rewrite lookup_insert. case_decide; [|by apply Hs].
  intros [= <-]. apply list_find_Some in E as (Hi & _ & _).
  apply list_elem_of_lookup_2 in Hi.
  apply list_elem_of_fmap in Hi as ([k u] & -> & Hku). simpl.
  rewrite (Hids k u Hku). by apply (list_elem_of_fmap_2 fst) in Hku.
Qed.

Lemma logout_invariant db token :
  ids_match db → sessions_valid db →
  ids_match (logout db token).1 ∧ sessions_valid (logout db token).1.
Proof.
  intros Hids Hs. unfold logout. simpl. split; [done|].
  intros t uid. simpl. case_bool_decide; [|by apply Hs].
  intros [_ ?]%lookup_delete_Some. by eapply Hs.
Qed.

Lemma create_transaction_invariant db tr token now :
  ids_match db → sessions_valid db →
  ids_match (create_transaction db tr token now).1 ∧
  sessions_valid (create_transaction db tr token now).1.
Proof.
  intros Hids Hs. unfold create_transaction.
  destruct (negb (truthy (get_current_user db token))); [done|]. simpl. split.
  - intros k u' Hin. simpl in Hin.
    apply elem_of_dict_mutate in Hin as (u & Hu & [->| ->]);
      [by apply Hids|]. simpl. by apply Hids.
  - intros t uid Ht. simpl in *. rewrite dict_mutate_keys. by eapply Hs.
Qed.

Lemma create_review_invariant db rv token now :
  ids_match db → sessions_valid db →
  ids_match (create_review db rv token now).1 ∧
  sessions_valid (create_review db rv token now).1.
Proof.
  intros Hids Hs. unfold create_review.
  by destruct (negb (truthy (get_current_user db token))).
Qed.

Lemma reachable_invariant db :
  reachable db → ids_match db ∧ sessions_valid db.
Proof.
  intros [reqs ->]. induction reqs as [|req reqs IH] using rev_ind.
  - simpl. split.
    + intros k u Hin. unfold db_init, initial_users in Hin. simpl in Hin.
      repeat (apply elem_of_cons in Hin as [[= -> ->]|Hin]; [done|]).
      by apply elem_of_nil in Hin.
    + intros t uid Ht. simpl in Ht. by rewrite lookup_empty in Ht.
  - rewrite foldl_app. simpl. destruct IH as [Hids Hs].
    destruct req; simpl.
    + by apply login_invariant.
    + by apply logout_invariant.
    + by apply create_transaction_invariant.
    + by apply create_review_invariant.
Qed.

(** On every database the server can reach, the 404 branch is dead. *)
Lemma get_recommendations_reachable db token :
  reachable db → ∃ r, get_recommendations db token = Return r.
Proof.
  intros [_ Hs]%reachable_invariant.
  destruct (truthy (get_current_user db token)) eqn:Ht.
  - destruct (get_current_user db token) as [uid|] eqn:Hu; [|done].
    assert (uid ≠ "") as Hne.
    { intros ->. vm_compute in Ht. discriminate. }
    pose proof Hu as Hu'.
    apply get_current_user_Some in Hu' as (t & _ & _ & Hl).
    apply Hs, dict_get_is_Some in Hl as [user Huser].
    rewrite (get_recommendations_profile db token uid user) by done. eauto.
  - rewrite get_recommendations_anonymous by done. eauto.
Qed.

(** C6 (amended): [get_recommendations] returns a list to unauthenticated
    callers and to sessions of users with a stored profile; for a session
    whose user id has no stored profile it raises HTTPException 404; no
    request of the API creates such a session, so on every reachable
    database it returns a list. *)
Theorem get_recommendations_outcomes db token :
  (truthy (get_current_user db token) = false →
   ∃ r, get_recommendations db token = Return r) ∧
  (∀ uid, get_current_user db token = Some uid → uid ≠ "" →
     (is_Some (dict_get uid (users db)) →
      ∃ r, get_recommendations db token = Return r) ∧
     (dict_get uid (users db) = None →
      get_recommendations db token = Raise (HTTPException 404 "User not found"))) ∧
  (reachable db → ∃ r, get_recommendations db token = Return r).
Proof.
  split; [|split].
  - intros H. rewrite get_recommendations_anonymous by done. eauto.
  - intros uid Hu Hne. split.
    + intros [user Huser].
      rewrite (get_recommendations_profile db token uid user) by done. eauto.
    + by apply get_recommendations_no_profile.
  - apply get_recommendations_reachable.
Qed.

(** C6 as stated fails: for a session whose user id has no stored profile
    the call raises. *)
Lemma get_recommendations_raises_404 :
  ¬ (∀ db token, ∃ r, get_recommendations db token = Return r).
Proof.
  intros H. destruct (H orphan_session_db (Some "token-9-0")) as [r Hr].
  vm_compute in Hr. discriminate.
Qed.

Lemma take_nonempty {A : Type} (n : nat) (l : list A) :
  take (S n) l ≠ [] ↔ l ≠ [].
Proof. by destruct l. Qed.

Lemma by_preferences_nonempty db user :
  by_preferences db user ≠ [] ↔
  ∃ c p, c ∈ User.favorite_categories user ∧
         p ∈ dict_values (partners db) ∧ Partner.category p = c.
Proof.
  unfold by_preferences.
  induction (User.favorite_categories user) as [|c cats IH].
  - split; [done|]. intros (c & p & []%elem_of_nil & _).
  - cbn [mbind list_bind].
    destruct (filter (fun p => Partner.category p = c) (dict_values (partners db)))
      as [|p ps] eqn:E.
    + simpl. rewrite IH. split.
      * intros (c' & p' & ? & ? & ?). exists c', p'. by rewrite elem_of_cons; auto.
      * intros (c' & p' & [->|?]%elem_of_cons & Hp & Hc); [|by eauto].
        assert (p' ∈ filter (fun p => Partner.category p = c)
                  (dict_values (partners db))) as Hin
          by (by apply list_elem_of_filter).
        rewrite E in Hin. by apply elem_of_nil in Hin.
    + split; [|done]. intros _. exists c, p.
      assert (p ∈ filter (fun p => Partner.category p = c)
                 (dict_values (partners db))) as Hin by (rewrite E; left).
      apply list_elem_of_filter in Hin as [? ?]. split; [left|done].
Qed.

(** C7 (amended): an anonymous caller gets the first six partners of the
    catalog ("Popular choices"), non-empty when the catalog is; a user with
    a profile gets up to three partners per favorite category, cut to six,
    which is empty exactly when no partner belongs to a favorite category,
    in particular when the user has no favorite categories. *)
Theorem recommendations_without_history db token :
  (truthy (get_current_user db token) = false →
   get_recommendations db token =
     Return {| recommendations := take 6 (dict_values (partners db));
               reason := "Popular choices" |} ∧
   (partners db ≠ [] → take 6 (dict_values (partners db)) ≠ [])) ∧
  (∀ uid user,
     get_current_user db token = Some uid → uid ≠ "" →
     dict_get uid (users db) = Some user →
     get_recommendations db token =
       Return {| recommendations := take 6 (by_preferences db user);
                 reason := "Based on your preferences" |} ∧
     (take 6 (by_preferences db user) ≠ [] ↔
      ∃ c p, c ∈ User.favorite_categories user ∧
             p ∈ dict_values (partners db) ∧ Partner.category p = c) ∧
     (User.favorite_categories user = [] →
      take 6 (by_preferences db user) = [])).
Proof.
  split.
  - intros H. split; [by apply get_recommendations_anonymous|].
    intros Hne. apply take_nonempty. unfold dict_values.
    by destruct (partners db).
  - intros uid user Hu Hne Huser.
    split; [by apply (get_recommendations_profile db token uid)|]. split.
    + rewrite take_nonempty. apply by_preferences_nonempty.
    + intros Hf. unfold by_preferences. by rewrite Hf.
Qed.

(** C7 as stated fails: a brand-new user without favorite categories gets
    the empty list. *)
Lemma new_user_gets_empty_list :
  ¬ (∀ db token uid user,
       get_current_user db token = Some uid → uid ≠ "" →
       dict_get uid (users db) = Some user →
       User.visits_count user = 0 →
       (∀ t, t ∈ transactions db → Transaction.user_id t ≠ uid) →
       (∀ rv, rv ∈ reviews db → Review.user_id rv ≠ uid) →
       ∃ r, get_recommendations db token = Return r ∧ recommendations r ≠ []).
Proof.
  intros H.
  destruct (H new_user_db (Some "token-3-0") "3" new_user) as (r & Hr & Hne);
    try done.
  - intros t []%elem_of_nil.
  - intros rv []%elem_of_nil.
  - vm_compute in Hr. injection Hr as <-. by apply Hne.
Qed.

Lemma NoDup_fmap_elem_inj {A B : Type} (f : A → B) (l : list A) (x y : A) :
  NoDup (f <$> l) → x ∈ l → y ∈ l → f x = f y → x = y.
Proof.
  induction l as [|z l IH]; [by intros _ ?%elem_of_nil|].
  rewrite fmap_cons, NoDup_cons.
  intros [Hz Hnd] [->|Hx]%elem_of_cons [->|Hy]%elem_of_cons Hf; auto.
  - destruct Hz. rewrite Hf. by apply list_elem_of_fmap_2.
  - destruct Hz. rewrite <- Hf. by apply list_elem_of_fmap_2.
Qed.

Lemma take_filter_sublist {A : Type} (P : A → Prop) `{!∀ x, Decision (P x)}
    (n : nat) (l : list A) :
  take n (filter P l) `sublist_of` l.
Proof. etrans; [apply sublist_take|apply sublist_filter]. Qed.

Lemma by_categories_NoDup (ps : list Partner.t) (cats : list string) :
  NoDup (Partner.id <$> ps) → NoDup cats →
  NoDup (Partner.id <$>
           (c ← cats; take 3 (filter (fun p => Partner.category p = c) ps))).
Proof.
  intros Hps. induction 1 as [|c cats Hc Hcats IH]; [constructor|].
  cbn [mbind list_bind]. rewrite fmap_app. apply NoDup_app. split; [|split].
  - eapply sublist_NoDup; [exact Hps|]. apply fmap_sublist, take_filter_sublist.
  - intros x Hx1 Hx2.
    apply list_elem_of_fmap in Hx1 as (p1 & -> & Hp1).
    apply list_elem_of_fmap in Hx2 as (p2 & Heq & Hp2).
    apply list_elem_of_bind in Hp2 as (c' & Hp2 & Hc').
    apply elem_of_take in Hp1 as (i1 & Hp1 & _).
    apply list_elem_of_lookup_2, list_elem_of_filter in Hp1 as [Hcat1 Hp1].
    apply elem_of_take in Hp2 as (i2 & Hp2 & _).
    apply list_elem_of_lookup_2, list_elem_of_filter in Hp2 as [Hcat2 Hp2].
    assert (p1 = p2) as -> by (by apply (NoDup_fmap_elem_inj Partner.id ps)).
    congruence.
  - exact IH.
Qed.

(** The returned list has at most six entries on every database, which is
    within [num_recommendations] for its default 20 and for every
    configured value of at least 6. *)
Lemma recommendations_length db token r :
  get_recommendations db token = Return r →
  (length (recommendations r) ≤ 6)%nat ∧
  (inject_Z (Z.of_nat (length (recommendations r)))
   <= SparkJob.num_recommendations (SparkJob.__init__ ∅))%Q ∧
  (∀ self,
     (6 <= SparkJob.num_recommendations self)%Q →
     (inject_Z (Z.of_nat (length (recommendations r)))
      <= SparkJob.num_recommendations self)%Q).
Proof.
  intros Hr.
  assert (Hlen : (length (recommendations r) ≤ 6)%nat).
  { unfold get_recommendations in Hr.
    destruct (negb _); [|destruct (dict_get _ _)]; simplify_eq/=;
      rewrite length_take; lia. }
  split; [done|]. split.
  { change (SparkJob.num_recommendations (SparkJob.__init__ ∅)) with 20%Q.
    unfold Qle; simpl. lia. }
  intros self H6. eapply Qle_trans; [|exact H6].
  unfold Qle; simpl. lia.
Qed.

(** No deduplication is performed: the ids are distinct when the catalog
    ids are and the calling user lists no favorite category twice. *)
Lemma recommendations_ids_NoDup db token r :
  get_recommendations db token = Return r →
  NoDup (Partner.id <$> dict_values (partners db)) →
  (∀ uid user, get_current_user db token = Some uid →
               dict_get uid (users db) = Some user →
               NoDup (User.favorite_categories user)) →
  NoDup (Partner.id <$> recommendations r).
Proof.
  intros Hr Hps Hfav.
  destruct (truthy (get_current_user db token)) eqn:Ht.
  - destruct (get_current_user db token) as [uid|] eqn:Hu; [|done].
    assert (uid ≠ "") as Hne by (intros ->; vm_compute in Ht; discriminate).
    destruct (dict_get uid (users db)) as [user|] eqn:Huser.
    + rewrite (get_recommendations_profile db token uid user) in Hr by done.
      injection Hr as <-. simpl.
      eapply sublist_NoDup; [|apply fmap_sublist, sublist_take].
      apply by_categories_NoDup; [done|]. by eapply Hfav.
    + by rewrite (get_recommendations_no_profile db token uid) in Hr.
  - rewrite get_recommendations_anonymous in Hr by done.
    injection Hr as <-. simpl.
    eapply sublist_NoDup; [exact Hps|]. apply fmap_sublist, sublist_take.
Qed.

(** On a database that holds a user who lists a favorite category twice
    the same three partners are returned twice; no request creates such a
    user. *)
Lemma recommendations_duplicate_ids :
  ¬ (∀ db token r,
       get_recommendations db token = Return r →
       (inject_Z (Z.of_nat (length (recommendations r)))
        <= SparkJob.num_recommendations (SparkJob.__init__ ∅))%Q ∧
       NoDup (Partner.id <$> recommendations r)).
Proof.
  intros H.
  destruct (get_recommendations repeating_user_db (Some "token-4-0"))
    as [r|e] eqn:E; [|by vm_compute in E].
  destruct (H _ _ _ E) as [_ Hnd].
  vm_compute in E. injection E as <-.
  vm_compute in Hnd. inversion Hnd as [|x l Hx _]; subst.
  apply Hx. do 2 right. left.
Qed.

Lemma dict_mutate_fmap {V B : Type} (g : string * V → B) (k : string)
    (f : V → V) (d : list (string * V)) :
  (∀ k' v, g (k', f v) = g (k', v)) →
  g <$> dict_mutate k f d = g <$> d.
Proof.
  intros Hg. induction d as [|[k' v] d IH]; [done|]. cbn [dict_mutate].
  destruct (decide (k' = k)); rewrite !fmap_cons; [by rewrite Hg|by f_equal].
Qed.

Lemma static_data_handle db req : static_data (handle db req) = static_data db.
Proof.
  destruct req as [email ts|t|tr token now|rv token now]; simpl.
  - unfold login. by destruct (list_find _ _) as [[??]|].
  - done.
  - unfold create_transaction.
    destruct (negb (truthy (get_current_user db token))); [done|].
    unfold static_data. simpl. by rewrite dict_mutate_fmap.
  - unfold create_review.
    destruct (negb (truthy (get_current_user db token))); [done|].
    unfold static_data. simpl. f_equal.
    destruct (dict_get _ (partners db)); [|done].
    unfold dict_values. rewrite <- !list_fmap_compose.
    by apply dict_mutate_fmap.
Qed.

Lemma reachable_static_data db :
  reachable db → static_data db = static_data db_init.
Proof.
  intros [reqs ->]. induction reqs as [|req reqs IH] using rev_ind; [done|].
  rewrite foldl_app. simpl. by rewrite static_data_handle.
Qed.

Lemma filter_category_ids (ps : list Partner.t) (c : string) :
  Partner.id <$> filter (fun p => Partner.category p = c) ps =
  (filter (fun v : string * string => v.2 = c) (partner_view <$> ps)).*1.
Proof.
  induction ps as [|p ps IH]; [done|].
  rewrite fmap_cons, !filter_cons. cbn [partner_view snd].
  destruct (decide (Partner.category p = c)); rewrite ?fmap_cons;
    [by f_equal|done].
Qed.

Lemma by_preferences_ids db user :
  Partner.id <$> take 6 (by_preferences db user) =
  ids_by_views (static_data db).2 (User.favorite_categories user).
Proof.
  unfold ids_by_views, by_preferences, static_data. simpl.
  rewrite fmap_take. f_equal.
  induction (User.favorite_categories user) as [|c cats IH]; [done|].
  cbn [mbind list_bind]. rewrite fmap_app, IH. f_equal.
  by rewrite fmap_take, filter_category_ids.
Qed.

Lemma dict_get_user_view (uid : string) (d : list (string * User.t)) :
  dict_get uid (user_view <$> d) = User.favorite_categories <$> dict_get uid d.
Proof.
  induction d as [|[k u] d IH]; [done|]. simpl.
  by destruct (decide (k = uid)).
Qed.

(** On the databases the server can reach, the call lists six distinct
    partners: the first six of the catalog, or three for each of the two
    favorite categories of the logged-in user. *)
Lemma reachable_recommendations db token r :
  reachable db →
  get_recommendations db token = Return r →
  Partner.id <$> recommendations r ∈
    [ ["1"; "2"; "3"; "4"; "5"; "6"];
      ["1"; "2"; "3"; "41"; "42"; "43"];
      ["21"; "22"; "23"; "61"; "62"; "63"] ].
Proof.
  intros Hreach Hr. pose proof (reachable_static_data db Hreach) as Hst.
  destruct (truthy (get_current_user db token)) eqn:Ht.
  - destruct (get_current_user db token) as [uid|] eqn:Hu; [|done].
    assert (uid ≠ "") as Hne by (intros ->; vm_compute in Ht; discriminate).
    destruct (dict_get uid (users db)) as [user|] eqn:Huser;
      [|by rewrite (get_recommendations_no_profile db token uid) in Hr].
    rewrite (get_recommendations_profile db token uid user) in Hr by done.
    injection Hr as <-. simpl. rewrite by_preferences_ids, Hst.
    assert (Hcats : dict_get uid (static_data db).1
                    = Some (User.favorite_categories user)).
    { unfold static_data. simpl. by rewrite dict_get_user_view, Huser. }
    rewrite Hst in Hcats. simpl in Hcats.
    destruct (decide ("1" = uid));
      [injection Hcats as <-; vm_compute; right; left|].
    destruct (decide ("2" = uid));
      [injection Hcats as <-; vm_compute; do 2 right; left|].
    done.
  - rewrite get_recommendations_anonymous in Hr by done.
    injection Hr as <-. simpl. rewrite fmap_take.
    replace (Partner.id <$> dict_values (partners db))
      with ((static_data db).2.*1).
    + rewrite Hst. vm_compute. left.
    + unfold static_data. simpl. rewrite <- list_fmap_compose.
      by apply list_fmap_ext.
Qed.

Lemma reachable_recommendations_six_distinct db token r :
  reachable db →
  get_recommendations db token = Return r →
  length (recommendations r) = 6%nat ∧
  NoDup (Partner.id <$> recommendations r).
Proof.
  intros Hreach Hr.
  pose proof (reachable_recommendations db token r Hreach Hr) as Hin.
  rewrite <- (length_fmap Partner.id).
  assert (Hall : Forall (fun ids : list string => length ids = 6%nat ∧ NoDup ids)
            [ ["1"; "2"; "3"; "4"; "5"; "6"];
              ["1"; "2"; "3"; "41"; "42"; "43"];
              ["21"; "22"; "23"; "61"; "62"; "63"] ]).
  { rewrite !Forall_cons, Forall_nil.
    repeat split; try reflexivity; apply (bool_decide_unpack _); by vm_compute. }
  by eapply Forall_forall in Hall.
Qed.



Lemma create_review_partner db review token now partner :
  truthy (get_current_user db token) = true →
  dict_get (ReviewDict.partner_id review) (partners db) = Some partner →
  dict_get (ReviewDict.partner_id review)
           (partners (create_review db review token now).1)
  = Some (update_partner_rating (ReviewDict.rating review) partner).
Proof.
  intros Ht Hp. unfold create_review. rewrite Ht. simpl.
  rewrite Hp. by rewrite dict_get_mutate_eq, Hp.
Qed.

Lemma create_review_other_partner db review token now k :
  k ≠ ReviewDict.partner_id review →
  dict_get k (partners (create_review db review token now).1)
  = dict_get k (partners db).
Proof.
  intros Hne. unfold create_review.
  destruct (negb (truthy (get_current_user db token))); [done|]. simpl.
  destruct (dict_get (ReviewDict.partner_id review) (partners db)); [|done].
  by apply dict_get_mutate_ne.
Qed.

Lemma create_review_unauthorized db review token now :
  truthy (get_current_user db token) = false →
  create_review db review token now = (db, Raise (HTTPException 401 "Unauthorized")).
Proof. intros Ht. unfold create_review. by rewrite Ht. Qed.

(** C9: an accepted review of a known partner sets the stored rating to
    (old rating + new rating) / 2 and counts the review; the stored rating
    is not the arithmetic mean of the reviews, and the same two reviews in
    the two possible orders leave different ratings. *)
Theorem create_review_halving_average db review token now partner :
  truthy (get_current_user db token) = true →
  dict_get (ReviewDict.partner_id review) (partners db) = Some partner →
  (∃ partner',
     dict_get (ReviewDict.partner_id review)
              (partners (create_review db review token now).1) = Some partner' ∧
     Partner.rating partner' =
       ((Partner.rating partner + inject_Z (ReviewDict.rating review)) / 2)%Q ∧
     Partner.reviews_count partner' = Partner.reviews_count partner + 1) ∧
  (∃ db0 token0 now0 pid r1 r2 stored,
     partner_rating (post_reviews db0 token0 now0 [review_of pid r1; review_of pid r2]) pid
       = Some stored ∧
     ¬ (stored == reviews_mean
          (post_reviews db0 token0 now0 [review_of pid r1; review_of pid r2]) pid)%Q) ∧
  (∃ db0 token0 now0 pid r1 r2 stored12 stored21,
     partner_rating (post_reviews db0 token0 now0 [review_of pid r1; review_of pid r2]) pid
       = Some stored12 ∧
     partner_rating (post_reviews db0 token0 now0 [review_of pid r2; review_of pid r1]) pid
       = Some stored21 ∧
     ¬ (stored12 == stored21)%Q).
Proof.
  intros Ht Hp. split; [|split].
  - eexists. split; [by apply create_review_partner|]. done.
  - exists maria_db, maria_token, "2025-01-01T00:00:00", "1", 1, 5.
    eexists. split; [vm_compute; reflexivity|]. by vm_compute.
  - exists maria_db, maria_token, "2025-01-01T00:00:00", "1", 1, 5.
    do 2 eexists. split; [vm_compute; reflexivity|].
    split; [vm_compute; reflexivity|]. by vm_compute.
Qed.

Lemma create_review_halving_average_witness :
  truthy (get_current_user maria_db maria_token) = true ∧
  dict_get (ReviewDict.partner_id (review_of "1" 5)) (partners maria_db)
    = Some first_partner ∧
  ∃ partner',
    dict_get (ReviewDict.partner_id (review_of "1" 5))
      (partners (create_review maria_db (review_of "1" 5) maria_token "2025-01-01").1)
      = Some partner' ∧
    Partner.rating partner' =
      ((Partner.rating first_partner + inject_Z (ReviewDict.rating (review_of "1" 5))) / 2)%Q ∧
    Partner.reviews_count partner' = Partner.reviews_count first_partner + 1.
Proof.
  assert (H1 : truthy (get_current_user maria_db maria_token) = true)
    by (vm_compute; reflexivity).
  assert (H2 : dict_get (ReviewDict.partner_id (review_of "1" 5)) (partners maria_db)
               = Some first_partner) by (vm_compute; reflexivity).
  split; [exact H1|]. split; [exact H2|].
  pose proof (create_review_halving_average maria_db (review_of "1" 5)
                maria_token "2025-01-01" first_partner H1 H2) as [H _].
  exact H.
Defined.

End BackendProperties.

(** ** Properties across the two training pipelines *)

Section RatingDerivation.

(** C3 (amended): in the interactions query of the Spark job the rating
    lies in {1.0, ..., 5.0} and follows the priority redemption (5.0),
    favorite (4.0), more than 5 views (3.0), more than 2 views (2.0),
    otherwise 1.0; in the training script the implicit rating lies in
    {2, 3, 4, 5} and is fixed by the number of completed transactions of
    the (user, partner) pair: more than 3 gives 5, 3 gives 4, 2 gives 3 and
    1 gives 2. *)
Theorem rating_by_priority_or_count :
  (∀ r_id f_id view_count : option Z,
     SparkJob.rating_case r_id f_id view_count ∈ [1.0; 2.0; 3.0; 4.0; 5.0]%Q ∧
     (is_Some r_id → SparkJob.rating_case r_id f_id view_count = 5.0%Q) ∧
     (r_id = None → is_Some f_id →
      SparkJob.rating_case r_id f_id view_count = 4.0%Q) ∧
     (∀ c, r_id = None → f_id = None → view_count = Some c →
           (5 < c → SparkJob.rating_case r_id f_id view_count = 3.0%Q) ∧
           (2 < c ≤ 5 → SparkJob.rating_case r_id f_id view_count = 2.0%Q) ∧
           (c ≤ 2 → SparkJob.rating_case r_id f_id view_count = 1.0%Q)) ∧
     (r_id = None → f_id = None → view_count = None →
      SparkJob.rating_case r_id f_id view_count = 1.0%Q)) ∧
  (∀ window_start joined i,
     i ∈ SparkJob.interactions_query window_start joined →
     ∃ j, j ∈ joined ∧
          SparkJob.rating i =
            SparkJob.rating_case (SparkJob.r_id j) (SparkJob.f_id j)
                                 (SparkJob.v_view_count j)) ∧
  (∀ transactions row,
     row ∈ Trainer.fetch_training_data transactions →
     let c := Z.of_nat (length (filter
                (fun t => t = (Trainer.user_id row, Trainer.partner_id row))
                transactions)) in
     Trainer.implicit_rating row ∈ [2; 3; 4; 5]%Q ∧
     1 ≤ c ∧
     (3 < c → Trainer.implicit_rating row = 5%Q) ∧
     (c = 3 → Trainer.implicit_rating row = 4%Q) ∧
     (c = 2 → Trainer.implicit_rating row = 3%Q) ∧
     (c = 1 → Trainer.implicit_rating row = 2%Q)).
Proof.
  split; [|split].
  - apply rating_case_priority.
  - intros window_start joined i Hi. unfold SparkJob.interactions_query in Hi.
    apply list_elem_of_fmap in Hi as (j & -> & Hj).
    apply list_elem_of_filter in Hj as [_ Hj]. by exists j.
  - intros transactions row Hrow c.
    apply fetch_training_data_row in Hrow as (_ & Hc & Hpos & Hr).
    fold c in Hc. rewrite Hc in Hpos, Hr. rewrite Hr.
    destruct (implicit_rating_case_ladder c) as (Hin & H5 & H4 & H3 & H2).
    split.
    + rewrite !elem_of_cons in Hin. rewrite !elem_of_cons.
      destruct Hin as [->|[->|[->|[->|[]%elem_of_nil]]]]; auto.
    + split; [done|].
      repeat split; intros Hcase;
        [rewrite H5|rewrite H4|rewrite H3|rewrite H2]; (done || lia).
Qed.

(** C3 as stated fails on the training script: every training row stems
    from a completed transaction, the redemption of a discount, yet the
    single transaction of a pair is rated 2, not 5. *)
Lemma training_rating_not_by_event_type :
  ¬ (∀ transactions row,
       row ∈ Trainer.fetch_training_data transactions →
       (Trainer.implicit_rating row == 5.0)%Q).
Proof.
  intros H.
  pose proof (H [(1, 2)] {| Trainer.user_id := 1; Trainer.partner_id := 2;
                            Trainer.user_partner_count := 1;
                            Trainer.implicit_rating := 2 |}) as H1.
  assert (Hin : {| Trainer.user_id := 1; Trainer.partner_id := 2;
                   Trainer.user_partner_count := 1;
                   Trainer.implicit_rating := 2 |}
                ∈ Trainer.fetch_training_data [(1, 2)]) by (vm_compute; left).
  specialize (H1 Hin). vm_compute in H1. discriminate.
Qed.

End RatingDerivation.

Section EmptyInput.



End EmptyInput.

(** ** Further properties of the Spark job *)

Section SparkJobFurtherProperties.
Import SparkJob.

Lemma filter_user_of_active self (df l : list Weighted) (u : Z) :
  filter (fun r => row_user r = u)
         (filter (fun r => is_active self df (row_user r) = true) l) =
  if is_active self df u then filter (fun r => row_user r = u) l else [].
Proof.
  rewrite list_filter_filter.
  destruct (is_active self df u) eqn:Hact.
  - apply filter_ext_elem_of. intros r _. split; [tauto|].
    intros Hu. split; [done|]. by rewrite Hu.
  - induction l as [|r l IH]; [done|].
    rewrite filter_cons. case_decide as H; [|done].
    destruct H as [Hu Ha]. rewrite Hu in Ha. congruence.
Qed.

(** X1: preprocessing treats the rows of a user all alike: of a user with
    at least [min_interactions] rows all rows are kept, each as often as
    it came in, of any other user none.  Rows are compared as collections,
    whatever their order. *)
Theorem preprocess_data_all_or_nothing self now interactions_df (u : Z) :
  filter (fun r => row_user r = u) (preprocess_data self now interactions_df) ≡ₚ
    if Qle_bool (min_interactions self)
         (inject_Z (Z.of_nat (length (filter (fun i => user_id i = u) interactions_df))))
    then filter (fun r => row_user r = u) (with_columns self now <$> interactions_df)
    else [].
Proof.
  rewrite preprocess_data_filter.
  rewrite filter_user_of_active. unfold is_active.
  by rewrite interaction_count_with_columns.
Qed.

Lemma filter_all {A : Type} (P : A → Prop) `{!∀ x, Decision (P x)}
    (l : list A) :
  (∀ x, x ∈ l → P x) → filter P l = l.
Proof.
  induction l as [|x l IH]; intros Hall; [done|].
  rewrite filter_cons, decide_True by (apply Hall; left).
  f_equal. apply IH. intros y Hy. apply Hall. by right.
Qed.

Lemma interaction_filter_with_columns self now (df : list Weighted)
    (l : list Interaction) :
  interaction <$> filter (fun r => is_active self df (row_user r) = true)
                         (with_columns self now <$> l) =
  filter (fun i => is_active self df (user_id i) = true) l.
Proof.
  induction l as [|i l IH]; [done|].
  rewrite fmap_cons, !filter_cons. unfold row_user at 1.
  cbn [with_columns interaction].
  destruct (decide (is_active self df (user_id i) = true));
    rewrite ?fmap_cons, IH; done.
Qed.

Lemma with_columns_kept self now interactions_df :
  with_columns self now <$> kept_interactions self now interactions_df =
  preprocess_data self now interactions_df.
Proof.
  unfold kept_interactions. rewrite <- list_fmap_compose.
  rewrite <- (list_fmap_id (preprocess_data self now interactions_df)) at 2.
  apply list_fmap_ext. intros k r Hr. apply list_elem_of_lookup_2 in Hr.
  apply preprocess_data_row in Hr as (i & _ & ->). done.
Qed.

(** X2: preprocessing its own output again changes nothing. *)
Theorem preprocess_data_idempotent self now interactions_df :
  preprocess_data self now (kept_interactions self now interactions_df) =
  preprocess_data self now interactions_df.
Proof.
  rewrite (preprocess_data_filter self now (kept_interactions _ _ _)).
  cbv zeta. rewrite with_columns_kept.
  apply filter_all. intros r Hr.
  unfold is_active, interaction_count.
  pose proof (filter_user_of_active self
                (with_columns self now <$> interactions_df)
                (with_columns self now <$> interactions_df) (row_user r)) as Hf.
  assert (Hact : is_active self (with_columns self now <$> interactions_df)
                   (row_user r) = true).
  { rewrite preprocess_data_filter in Hr.
    by apply list_elem_of_filter in Hr as [? _]. }
  rewrite Hact in Hf. rewrite preprocess_data_filter. cbv zeta.
  rewrite Hf. exact Hact.
Qed.

(** X3: with a threshold of at most one interaction nothing is filtered
    out. *)
Theorem preprocess_data_threshold_one self now interactions_df :
  (min_interactions self <= 1)%Q →
  preprocess_data self now interactions_df =
  with_columns self now <$> interactions_df.
Proof.
  intros Hmin. rewrite preprocess_data_filter. cbv zeta.
  set (df := with_columns self now <$> interactions_df).
  apply filter_all. intros r Hr.
  unfold is_active. apply Qle_bool_iff.
  eapply Qle_trans; [exact Hmin|].
  unfold interaction_count.
  assert (Hin : r ∈ filter (fun r' => row_user r' = row_user r) df)
    by (by apply list_elem_of_filter).
  destruct (filter _ df) as [|r0 l0]; [by apply elem_of_nil in Hin|].
  simpl length. rewrite Nat2Z.inj_succ. unfold Qle; simpl. lia.
Qed.

Lemma preprocess_data_threshold_one_witness :
  (min_interactions (__init__ threshold_one_config) <= 1)%Q ∧
  preprocess_data (__init__ threshold_one_config) 100 sample_interactions =
  with_columns (__init__ threshold_one_config) 100 <$> sample_interactions.
Proof.
  assert (H : (min_interactions (__init__ threshold_one_config) <= 1)%Q)
    by (by vm_compute).
  split; [exact H|].
  exact (preprocess_data_threshold_one (__init__ threshold_one_config) 100
           sample_interactions H).
Defined.

Lemma recency_weight_when_range (d : option Z) :
  recency_weight_when d ∈ [1.0; 0.9; 0.7; 0.5]%Q.
Proof.
  unfold recency_weight_when.
  repeat (destruct (when_true _); [repeat constructor|]).
  repeat constructor.
Qed.

(** X4: under the default factor 0.8 the weighted rating of every row
    built from the interactions query lies between 0.4 and 4.0, so the
    top of the five-point scale is never reached. *)
Theorem weighted_rating_range (config : gmap string Q) now window_start
    joined r :
  config !! "recency_weight" = None →
  r ∈ preprocess_data (__init__ config) now
        (interactions_query window_start joined) →
  (0.4 <= weighted_rating r)%Q ∧ (weighted_rating r <= 4.0)%Q.
Proof.
  intros Hc Hr.
  apply preprocess_data_row in Hr as (i & Hi & ->).
  unfold interactions_query in Hi.
  apply list_elem_of_fmap in Hi as (j & -> & _).
  unfold with_columns, interactions_select.
  cbn [weighted_rating rating timestamp].
  assert (Hf : recency_weight (__init__ config) = 0.8%Q).
  { unfold __init__, config_get; simpl. by rewrite Hc. }
  rewrite Hf. clear Hf.
  pose proof (rating_case_priority (r_id j) (f_id j) (v_view_count j))
    as [Hrat _].
  pose proof (recency_weight_when_range
                (datediff now (coalesce3 (r_created_at j) (f_created_at j)
                                         (v_last_viewed_at j)))) as Hw.
  repeat (apply elem_of_cons in Hrat as [Hrat|Hrat];
          [rewrite Hrat; clear Hrat|]);
    try (by apply elem_of_nil in Hrat);
    repeat (apply elem_of_cons in Hw as [Hw|Hw]; [rewrite Hw; clear Hw|]);
    try (by apply elem_of_nil in Hw);
    split; by vm_compute.
Qed.

Lemma weighted_rating_range_witness :
  threshold_one_config !! "recency_weight" = None ∧
  length (preprocess_data (__init__ threshold_one_config) 200
            (interactions_query 20 sample_joined)) = 3%nat ∧
  Forall (fun r => (0.4 <= weighted_rating r)%Q ∧ (weighted_rating r <= 4.0)%Q)
         (preprocess_data (__init__ threshold_one_config) 200
            (interactions_query 20 sample_joined)).
Proof.
  assert (Hc : threshold_one_config !! "recency_weight" = None)
    by (vm_compute; reflexivity).
  split; [exact Hc|]. split; [vm_compute; reflexivity|].
  apply Forall_forall. intros r Hr.
  exact (weighted_rating_range threshold_one_config 200 20 sample_joined r Hc Hr).
Defined.

(** X5: for equal base ratings the older interaction never gets the
    larger weighted rating, as long as rating and factor are not
    negative. *)
Theorem weighted_rating_antitone_in_age self now (i1 i2 : Interaction)
    (t1 t2 : Z) :
  timestamp i1 = Some t1 → timestamp i2 = Some t2 → t1 ≤ t2 →
  (rating i1 == rating i2)%Q → (0 <= rating i1)%Q →
  (0 <= recency_weight self)%Q →
  (weighted_rating (with_columns self now i1)
   <= weighted_rating (with_columns self now i2))%Q.
Proof.
  intros H1 H2 Hle Heq Hr Hf. unfold with_columns.
  cbn [weighted_rating]. rewrite H1, H2. simpl datediff.
  assert (Hw : (recency_weight_when (Some (now - t1)%Z)
                <= recency_weight_when (Some (now - t2)%Z))%Q)
    by (apply recency_weight_when_antitone; lia).
  rewrite <- Heq.
  apply Qmult_le_compat_r; [|done].
  rewrite !(Qmult_comm (rating i1)). by apply Qmult_le_compat_r.
Qed.

Lemma weighted_rating_antitone_in_age_witness :
  timestamp (sample_interaction 1 12 50) = Some 50 ∧
  timestamp (sample_interaction 1 10 99) = Some 99 ∧
  50 ≤ 99 ∧
  (0 <= recency_weight (__init__ ∅))%Q ∧
  (weighted_rating (with_columns (__init__ ∅) 100 (sample_interaction 1 12 50))
   <= weighted_rating (with_columns (__init__ ∅) 100 (sample_interaction 1 10 99)))%Q.
Proof.
  assert (Hf : (0 <= recency_weight (__init__ ∅))%Q) by (by vm_compute).
  split; [reflexivity|]. split; [reflexivity|]. split; [lia|].
  split; [exact Hf|].
  apply (weighted_rating_antitone_in_age (__init__ ∅) 100
           (sample_interaction 1 12 50) (sample_interaction 1 10 99) 50 99);
    try reflexivity; try exact Hf; by vm_compute.
Defined.

End SparkJobFurtherProperties.

(** ** Further properties of the trainer *)

Section TrainerFurtherProperties.
Import Trainer.

Lemma sorted_unique_length (l : list Z) :
  length (sorted_unique l) = size (list_to_set l : gset Z).
Proof.
  rewrite <- (size_list_to_set (C:=gset Z) (sorted_unique l))
    by apply sorted_unique_NoDup.
  f_equal. apply set_eq. intros x.
  by rewrite !elem_of_list_to_set, elem_of_sorted_unique.
Qed.

Lemma index_mapping_lookup_Some (keys : list Z) (k : Z) (i : nat) :
  index_mapping keys !! k = Some i → keys !! i = Some k.
Proof.
  revert i. induction keys as [|x keys IH] using rev_ind; intros i Hi.
  - done.
  - rewrite index_mapping_snoc in Hi.
    destruct (decide (x = k)) as [->|Hne].
    + rewrite lookup_insert_eq in Hi. injection Hi as <-.
      by rewrite lookup_app_r, Nat.sub_diag by lia.
    + rewrite lookup_insert_ne in Hi by done.
      apply lookup_app_l_Some. by apply IH.
Qed.

Lemma reverse_mapping_snoc (keys : list Z) (k : Z) :
  reverse_mapping (keys ++ [k]) = <[length keys := k]> (reverse_mapping keys).
Proof.
  unfold reverse_mapping. rewrite imap_app, foldl_app. simpl.
  by rewrite Nat.add_0_r.
Qed.

Lemma reverse_mapping_lookup (keys : list Z) (j : nat) :
  reverse_mapping keys !! j = keys !! j.
Proof.
  induction keys as [|x keys IH] using rev_ind; [done|].
  rewrite reverse_mapping_snoc.
  destruct (decide (length keys = j)) as [<-|Hne].
  - rewrite lookup_insert_eq. by rewrite lookup_app_r, Nat.sub_diag by lia.
  - rewrite lookup_insert_ne by done. rewrite IH.
    destruct (decide (j < length keys)%nat).
    + by rewrite lookup_app_l.
    + rewrite !lookup_ge_None_2; [done|rewrite length_app; simpl; lia|lia].
Qed.

Lemma StronglySorted_lt_lookup (l : list Z) (i j : nat) (x y : Z) :
  StronglySorted Z.lt l → l !! i = Some x → l !! j = Some y →
  (i < j)%nat → x < y.
Proof.
  intros Hs. revert i j. induction Hs as [|z l Hs IH Hz]; intros i j Hi Hj Hlt.
  - done.
  - destruct j as [|j]; [lia|]. simpl in Hj. destruct i as [|i]; simpl in Hi.
    + injection Hi as <-. eapply Forall_forall in Hz; [exact Hz|].
      by eapply list_elem_of_lookup_2.
    + eapply IH; [done..|lia].
Qed.

Lemma StronglySorted_lt_lookup_iff (l : list Z) (i j : nat) (x y : Z) :
  StronglySorted Z.lt l → l !! i = Some x → l !! j = Some y →
  (x < y ↔ (i < j)%nat).
Proof.
  intros Hs Hi Hj. split.
  - intros Hxy. destruct (decide (i < j)%nat) as [|Hge]; [done|].
    destruct (decide (i = j)) as [->|Hne]; [simplify_eq; lia|].
    assert (y < x) by (eapply StronglySorted_lt_lookup; [done..|lia]). lia.
  - by eapply StronglySorted_lt_lookup.
Qed.

(** X7: the matrix has one row per distinct user id and one column per
    distinct partner id of the frame; the two mappings are defined exactly
    on those ids and send them to row and column numbers inside the
    matrix. *)
Theorem matrix_shape_and_mapping_domains (df : list TrainingRow) out :
  create_user_item_matrix df = Return out →
  shape out.2 = (size (list_to_set (user_id <$> df) : gset Z),
                 size (list_to_set (partner_id <$> df) : gset Z)) ∧
  length (stored out.2) = (shape out.2).1 ∧
  (∀ u, is_Some (user_mapping out.1 !! u) ↔ u ∈ user_id <$> df) ∧
  (∀ p, is_Some (item_mapping out.1 !! p) ↔ p ∈ partner_id <$> df) ∧
  (∀ u i, user_mapping out.1 !! u = Some i → (i < (shape out.2).1)%nat) ∧
  (∀ p j, item_mapping out.1 !! p = Some j → (j < (shape out.2).2)%nat).
Proof.
  intros [_ ->]%create_user_item_matrix_Return. cbn [fst snd create_user_item_matrix].
  unfold csr_of_dense, pivot_table.
  cbn [shape stored values index columns user_mapping item_mapping fst snd].
  set (idx := sorted_unique (user_id <$> df)).
  set (cols := sorted_unique (partner_id <$> df)).
  assert (Hrows : length ((fun u => (fun p => pivot_cell 0 df u p) <$> cols) <$> idx)
                  = size (list_to_set (user_id <$> df) : gset Z)).
  { rewrite length_fmap. apply sorted_unique_length. }
  assert (Hcols : from_option length 0%nat
                    (head ((fun u => (fun p => pivot_cell 0 df u p) <$> cols) <$> idx))
                  = size (list_to_set (partner_id <$> df) : gset Z)).
  { rewrite <- sorted_unique_length. fold cols.
    destruct idx as [|u idx'] eqn:Hidx; simpl; [|by rewrite length_fmap].
    destruct df as [|r df']; [done|].
    assert (user_id r ∈ idx) as Hin
      by (apply elem_of_sorted_unique; rewrite fmap_cons; left).
    rewrite Hidx in Hin. by apply elem_of_nil in Hin. }
  rewrite Hrows, Hcols. split; [done|].
  split; [by rewrite length_fmap, Hrows|].
  assert (Hdom : ∀ (keys : list Z) k,
            is_Some (index_mapping (sorted_unique keys) !! k) ↔ k ∈ keys).
  { intros keys k. rewrite <- elem_of_sorted_unique. split.
    - intros [i Hi]. apply index_mapping_lookup_Some in Hi.
      by eapply list_elem_of_lookup_2.
    - intros [i Hi]%list_elem_of_lookup. exists i.
      apply index_mapping_lookup; [apply sorted_unique_NoDup|done]. }
  assert (Hlt : ∀ (keys : list Z) k i,
            index_mapping (sorted_unique keys) !! k = Some i →
            (i < size (list_to_set keys : gset Z))%nat).
  { intros keys k i Hi. rewrite <- sorted_unique_length.
    apply index_mapping_lookup_Some in Hi. by eapply lookup_lt_Some. }
  repeat split; try apply Hdom; eauto.
Qed.

Lemma matrix_shape_and_mapping_domains_witness :
  create_user_item_matrix duplicate_rows = Return duplicate_rows_out ∧
  shape duplicate_rows_out.2 =
    (size (list_to_set (user_id <$> duplicate_rows) : gset Z),
     size (list_to_set (partner_id <$> duplicate_rows) : gset Z)).
Proof.
  assert (H : create_user_item_matrix duplicate_rows = Return duplicate_rows_out)
    by reflexivity.
  split; [exact H|].
  pose proof (matrix_shape_and_mapping_domains duplicate_rows
                duplicate_rows_out H) as [Hs _].
  exact Hs.
Defined.

(** X8: both mappings preserve the order of the ids, so distinct ids get
    distinct indices and a larger id a larger index. *)
Theorem mappings_preserve_order (df : list TrainingRow) out :
  create_user_item_matrix df = Return out →
  (∀ u u' i i', user_mapping out.1 !! u = Some i →
                user_mapping out.1 !! u' = Some i' →
                (u < u' ↔ (i < i')%nat)) ∧
  (∀ p p' j j', item_mapping out.1 !! p = Some j →
                item_mapping out.1 !! p' = Some j' →
                (p < p' ↔ (j < j')%nat)).
Proof.
  intros [_ ->]%create_user_item_matrix_Return. cbn [fst user_mapping item_mapping pivot_table index columns].
  split; intros a a' i i' Hi Hi';
    apply index_mapping_lookup_Some in Hi, Hi';
    eapply StronglySorted_lt_lookup_iff; eauto using sorted_unique_sorted.
Qed.

Lemma mappings_preserve_order_witness :
  create_user_item_matrix duplicate_rows = Return duplicate_rows_out ∧
  user_mapping duplicate_rows_out.1 !! 4 = Some 0%nat ∧
  user_mapping duplicate_rows_out.1 !! 7 = Some 1%nat ∧
  (4 < 7 ↔ (0 < 1)%nat).
Proof.
  assert (H : create_user_item_matrix duplicate_rows = Return duplicate_rows_out)
    by reflexivity.
  assert (H4 : user_mapping duplicate_rows_out.1 !! 4 = Some 0%nat)
    by (vm_compute; reflexivity).
  assert (H7 : user_mapping duplicate_rows_out.1 !! 7 = Some 1%nat)
    by (vm_compute; reflexivity).
  split; [exact H|]. split; [exact H4|]. split; [exact H7|].
  pose proof (mappings_preserve_order duplicate_rows duplicate_rows_out H)
    as [Hu _].
  exact (Hu 4 7 0%nat 1%nat H4 H7).
Defined.

(** X9: the reverse item mapping is the inverse of the item mapping. *)
Theorem reverse_item_mapping_inverse (df : list TrainingRow) out (p : Z) (j : nat) :
  create_user_item_matrix df = Return out →
  item_mapping out.1 !! p = Some j ↔ reverse_item_mapping out.1 !! j = Some p.
Proof.
  intros [_ ->]%create_user_item_matrix_Return. cbn [fst item_mapping reverse_item_mapping].
  rewrite reverse_mapping_lookup. split.
  - apply index_mapping_lookup_Some.
  - apply index_mapping_lookup, sorted_unique_NoDup.
Qed.

Lemma reverse_item_mapping_inverse_witness :
  create_user_item_matrix duplicate_rows = Return duplicate_rows_out ∧
  (item_mapping duplicate_rows_out.1 !! 9 = Some 1%nat ↔
   reverse_item_mapping duplicate_rows_out.1 !! 1%nat = Some 9).
Proof.
  assert (H : create_user_item_matrix duplicate_rows = Return duplicate_rows_out)
    by reflexivity.
  split; [exact H|].
  exact (reverse_item_mapping_inverse duplicate_rows duplicate_rows_out 9 1 H).
Defined.

Lemma matrix_entry_unknown (df : list TrainingRow) out (u p : Z) :
  create_user_item_matrix df = Return out →
  u ∉ user_id <$> df ∨ p ∉ partner_id <$> df → matrix_entry out u p = None.
Proof.
  intros [_ ->]%create_user_item_matrix_Return. unfold matrix_entry.
  cbn [fst user_mapping item_mapping pivot_table index columns].
  intros [Hu|Hp].
  - rewrite (index_mapping_lookup_None _ u); [done|].
    by rewrite elem_of_sorted_unique.
  - rewrite (index_mapping_lookup_None _ p); [|by rewrite elem_of_sorted_unique].
    by destruct (index_mapping _ !! u).
Qed.

(** X10: a pair of a known user and a known partner that has no row of
    its own reads as 0, and a user or partner that does not occur in the
    frame has no entry at all. *)
Theorem matrix_entry_without_rows (df : list TrainingRow) out (u p : Z) :
  create_user_item_matrix df = Return out →
  (u ∈ user_id <$> df → p ∈ partner_id <$> df → ratings_of df u p = [] →
   ∃ v, matrix_entry out u p = Some v ∧ (v == 0)%Q) ∧
  (u ∉ user_id <$> df ∨ p ∉ partner_id <$> df → matrix_entry out u p = None).
Proof.
  intros Hout. split; [|by apply matrix_entry_unknown].
  intros Hu Hp Hnone.
  destruct (matrix_entry_pivot_cell df out u p Hout Hu Hp) as (v & Hv & Hcell).
  exists v. split; [done|]. rewrite Hcell. unfold pivot_cell.
  by rewrite Hnone.
Qed.

Lemma matrix_entry_without_rows_witness :
  create_user_item_matrix duplicate_rows = Return duplicate_rows_out ∧
  (∃ v, matrix_entry duplicate_rows_out 7 9 = Some v ∧ (v == 0)%Q) ∧
  matrix_entry duplicate_rows_out 5 9 = None.
Proof.
  assert (H : create_user_item_matrix duplicate_rows = Return duplicate_rows_out)
    by reflexivity.
  pose proof (matrix_entry_without_rows duplicate_rows duplicate_rows_out 7 9 H)
    as [H1 _].
  pose proof (matrix_entry_without_rows duplicate_rows duplicate_rows_out 5 9 H)
    as [_ H2].
  split; [exact H|]. split.
  - apply H1; [apply (bool_decide_unpack _); by vm_compute..|reflexivity].
  - apply H2. left. apply (bool_decide_unpack _). by vm_compute.
Defined.

Lemma implicit_rating_case_mono (c c' : Z) :
  c ≤ c' → implicit_rating_case c ≤ implicit_rating_case c'.
Proof.
  unfold implicit_rating_case. intros.
  repeat case_bool_decide; lia.
Qed.

Lemma fetch_training_data_pair (transactions : list (Z * Z)) (u p : Z) :
  (u, p) ∈ transactions →
  ratings_of (fetch_training_data transactions) u p ≠ [].
Proof.
  intros Hin. unfold ratings_of, fetch_training_data.
  set (mk := fun t : Z * Z => _).
  assert (Hrow : mk (u, p) ∈ filter (fun r => user_id r = u ∧ partner_id r = p)
                                    (mk <$> transactions)).
  { apply list_elem_of_filter. split; [done|]. by apply list_elem_of_fmap_2. }
  destruct (filter _ _); [by apply elem_of_nil in Hrow|done].
Qed.

(** X11: built from the fetched training frame, the matrix entry of every
    pair that has a completed transaction is the rating the CASE gives to
    the number of its transactions: 2 for one, 3 for two, 4 for three and
    5 for more; a pair with more transactions never gets the smaller
    entry. *)
Theorem matrix_entry_of_transactions (transactions : list (Z * Z)) out
    (u p : Z) :
  create_user_item_matrix (fetch_training_data transactions) = Return out →
  (u, p) ∈ transactions →
  ∃ v, matrix_entry out u p = Some v ∧
       (v == inject_Z (implicit_rating_case (pair_count transactions u p)))%Q ∧
       (2 <= v <= 5)%Q ∧
       ∀ u' p' v', (u', p') ∈ transactions →
         matrix_entry out u' p' = Some v' →
         pair_count transactions u p ≤ pair_count transactions u' p' →
         (v <= v')%Q.
Proof.
  intros Hout Hin.
  assert (Hentry : ∀ a b, (a, b) ∈ transactions →
            ∃ w, matrix_entry out a b = Some w ∧
                 (w == inject_Z (implicit_rating_case (pair_count transactions a b)))%Q).
  { intros a b Hab. pose proof (fetch_training_data_pair _ _ _ Hab) as Hne.
    destruct (ratings_of_nonempty _ _ _ Hne) as [Ha Hb].
    destruct (matrix_entry_pivot_cell _ out a b Hout Ha Hb) as (w & Hw & Hcell).
    exists w. split; [done|]. rewrite Hcell. unfold pivot_cell.
    destruct (ratings_of (fetch_training_data transactions) a b) as [|x xs] eqn:E;
      [done|].
    apply mean_all_equal; [done|]. rewrite <- E.
    eapply Forall_impl; [apply fetch_training_data_ratings_equal|].
    intros y ->. reflexivity. }
  destruct (Hentry u p Hin) as (v & Hv & Heq).
  exists v. split; [done|]. split; [done|]. split.
  - rewrite Heq.
    destruct (implicit_rating_case_ladder (pair_count transactions u p))
      as [Hc _].
    repeat (apply elem_of_cons in Hc as [Hc|Hc]; [rewrite Hc; by vm_compute|]).
    by apply elem_of_nil in Hc.
  - intros u' p' v' Hin' Hv' Hle.
    destruct (Hentry u' p' Hin') as (w & Hw & Heq'). simplify_eq.
    rewrite Heq, Heq'. rewrite <- Zle_Qle. by apply implicit_rating_case_mono.
Qed.

Lemma matrix_entry_of_transactions_witness :
  (1, 2) ∈ sample_transactions ∧
  ∃ out, create_user_item_matrix (fetch_training_data sample_transactions)
         = Return out ∧
    ∃ v, matrix_entry out 1 2 = Some v ∧
         (v == inject_Z (implicit_rating_case (pair_count sample_transactions 1 2)))%Q.
Proof.
  assert (Hin : (1, 2) ∈ sample_transactions) by (unfold sample_transactions; left).
  split; [exact Hin|]. eexists. split; [reflexivity|].
  destruct (matrix_entry_of_transactions sample_transactions _ 1 2 eq_refl Hin)
    as (v & Hv & Heq & _).
  by exists v.
Defined.

Lemma sorted_unique_Permutation (l l' : list Z) :
  l ≡ₚ l' → sorted_unique l = sorted_unique l'.
Proof.
  intros Hp. apply (StronglySorted_unique_strong Z.lt).
  - intros; lia.
  - apply sorted_unique_sorted.
  - apply sorted_unique_sorted.
  - apply NoDup_Permutation; try apply sorted_unique_NoDup.
    intros x. by rewrite !elem_of_sorted_unique, Hp.
Qed.

Lemma Qsum_Permutation (l l' : list Q) : l ≡ₚ l' → (Qsum l == Qsum l')%Q.
Proof.
  induction 1 as [|x l l' _ IH|x y l|l1 l2 l3 _ IH1 _ IH2]; simpl.
  - reflexivity.
  - fold (Qsum l) (Qsum l'). by rewrite IH.
  - fold (Qsum l). ring.
  - by rewrite IH1.
Qed.

Lemma pivot_cell_Permutation (df df' : list TrainingRow) (u p : Z) :
  df ≡ₚ df' → (pivot_cell 0 df u p == pivot_cell 0 df' u p)%Q.
Proof.
  intros Hp. unfold pivot_cell.
  assert (Hr : ratings_of df u p ≡ₚ ratings_of df' u p)
    by (unfold ratings_of; by rewrite Hp).
  destruct (ratings_of df u p) as [|x xs] eqn:E.
  - apply Permutation_nil in Hr. rewrite Hr. reflexivity.
  - destruct (ratings_of df' u p) as [|y ys] eqn:E'.
    + by apply Permutation_nil_r in Hr.
    + unfold mean. by rewrite (Qsum_Permutation _ _ Hr), (Permutation_length Hr).
Qed.

(** X12: the order of the rows of the frame does not matter: a reordered
    frame gives the same mappings and, for every pair, the same entry. *)
Theorem matrix_row_order_irrelevant (df df' : list TrainingRow) out out' :
  df ≡ₚ df' →
  create_user_item_matrix df = Return out →
  create_user_item_matrix df' = Return out' →
  out.1 = out'.1 ∧
  ∀ u p, match matrix_entry out u p, matrix_entry out' u p with
         | Some v, Some v' => (v == v')%Q
         | None, None => True
         | _, _ => False
         end.
Proof.
  intros Hp Hout Hout'.
  assert (Hmaps : out.1 = out'.1).
  { apply create_user_item_matrix_Return in Hout as [_ ->].
    apply create_user_item_matrix_Return in Hout' as [_ ->].
    cbn [fst create_user_item_matrix pivot_table index columns].
    by rewrite (sorted_unique_Permutation (user_id <$> df) (user_id <$> df')),
      (sorted_unique_Permutation (partner_id <$> df) (partner_id <$> df'))
      by (by rewrite Hp). }
  split; [done|]. intros u p.
  destruct (decide (u ∈ user_id <$> df ∧ p ∈ partner_id <$> df)) as [[Hu Hq]|Hno].
  - destruct (matrix_entry_pivot_cell df out u p Hout Hu Hq) as (v & -> & Hv).
    rewrite Hp in Hu, Hq.
    destruct (matrix_entry_pivot_cell df' out' u p Hout' Hu Hq) as (v' & -> & Hv').
    rewrite Hv, Hv'. by apply pivot_cell_Permutation.
  - assert (Hno' : u ∉ user_id <$> df ∨ p ∉ partner_id <$> df).
    { destruct (decide (u ∈ user_id <$> df)); [|by left].
      destruct (decide (p ∈ partner_id <$> df)); [|by right]. by destruct Hno. }
    rewrite (matrix_entry_unknown df out u p Hout Hno').
    rewrite Hp in Hno'.
    by rewrite (matrix_entry_unknown df' out' u p Hout' Hno').
Qed.

Lemma matrix_row_order_irrelevant_witness :
  duplicate_rows ≡ₚ swapped_rows ∧
  create_user_item_matrix duplicate_rows = Return duplicate_rows_out ∧
  create_user_item_matrix swapped_rows = Return swapped_rows_out ∧
  duplicate_rows_out.1 = swapped_rows_out.1.
Proof.
  assert (H0 : duplicate_rows ≡ₚ swapped_rows) by apply perm_swap.
  assert (H1 : create_user_item_matrix duplicate_rows = Return duplicate_rows_out)
    by reflexivity.
  assert (H2 : create_user_item_matrix swapped_rows = Return swapped_rows_out)
    by reflexivity.
  split; [exact H0|]. split; [exact H1|]. split; [exact H2|].
  pose proof (matrix_row_order_irrelevant duplicate_rows swapped_rows
                duplicate_rows_out swapped_rows_out H0 H1 H2) as [Hl _].
  exact Hl.
Defined.

End TrainerFurtherProperties.

(** ** Sessions and rejected requests *)

Section BackendSessionProperties.
Import Backend.

Lemma get_current_user_unknown db token :
  (∀ t, token = Some t → sessions db !! t = None) →
  get_current_user db token = None.
Proof.
  intros Hno. destruct (get_current_user db token) as [uid|] eqn:E; [|done].
  apply get_current_user_Some in E as (t & -> & _ & Hl).
  by rewrite (Hno t eq_refl) in Hl.
Qed.

Lemma get_current_user_session db (t uid : string) :
  t ≠ "" → sessions db !! t = Some uid →
  get_current_user db (Some t) = Some uid.
Proof. intros Ht Hl. apply get_current_user_Some. by exists t. Qed.

(** X13: posting the email of a stored user logs in, whatever password
    comes with it: the answer carries the first user, in the order of the
    user table, with that email and the token "token-<id>-<time>", the
    token then identifies that user, and every other session and all
    stored data stay as they were. *)
Theorem login_request_opens_session db (credentials : gmap string string)
    (now_ts e : string) :
  credentials !! "email" = Some e →
  (∃ u, u ∈ dict_values (users db) ∧ User.email u = e) →
  ∃ user token,
    (login_request db credentials now_ts).2 = Return (user, token) ∧
    (∃ i : nat,
       dict_values (users db) !! i = Some user ∧
       ∀ (j : nat) u', (j < i)%nat → dict_values (users db) !! j = Some u' →
                       User.email u' ≠ e) ∧
    User.email user = e ∧
    token = "token-" +:+ User.id user +:+ "-" +:+ now_ts ∧
    get_current_user (login_request db credentials now_ts).1 (Some token)
      = Some (User.id user) ∧
    (∀ t, t ≠ token →
          sessions (login_request db credentials now_ts).1 !! t = sessions db !! t) ∧
    users (login_request db credentials now_ts).1 = users db ∧
    partners (login_request db credentials now_ts).1 = partners db ∧
    transactions (login_request db credentials now_ts).1 = transactions db ∧
    reviews (login_request db credentials now_ts).1 = reviews db.
Proof.
  intros He (u & Hu & Hemail). unfold login_request, login. rewrite He.
  destruct (list_find (fun u0 => Some (User.email u0) = Some e)
                      (dict_values (users db))) as [[i user]|] eqn:E.
  - apply list_find_Some in E as (Hi & Hmail & Hfirst).
    exists user, ("token-" +:+ User.id user +:+ "-" +:+ now_ts).
    cbn [fst snd users partners transactions reviews sessions].
    split; [done|]. split.
    { exists i. split; [done|]. intros j u' Hj Hu' Heq.
      apply (Hfirst j u' Hu' Hj). by rewrite Heq. }
    split; [congruence|]. split; [done|]. split.
    + apply get_current_user_session; [done|]. simpl. apply lookup_insert_eq.
    + split; [|done]. intros t Ht. simpl. by rewrite lookup_insert_ne.
  - exfalso. apply list_find_None in E.
    eapply Forall_forall in E; [|exact Hu]. apply E. by rewrite Hemail.
Qed.

Lemma login_request_opens_session_witness :
  maria_credentials !! "email" = Some "maria@example.com" ∧
  get_current_user (login_request db_init maria_credentials "0").1
    (Some "token-1-0") = Some "1".
Proof.
  assert (He : maria_credentials !! "email" = Some "maria@example.com")
    by (vm_compute; reflexivity).
  split; [exact He|].
  destruct (login_request_opens_session db_init maria_credentials "0"
              "maria@example.com" He) as (user & token & Hret & _ & _ & -> & Hcur & _).
  - eexists. split; [left|reflexivity].
  - vm_compute in Hret. injection Hret as <-. exact Hcur.
Defined.

(** X14: a request that is turned away leaves the database untouched: a
    login whose email belongs to no stored user ends in 401 "Invalid
    credentials", and a transaction or a review under a token that is not
    in the session table ends in 401 "Unauthorized". *)
Theorem rejected_requests_change_nothing db :
  (∀ (credentials : gmap string string) now_ts,
     (∀ u, u ∈ dict_values (users db) →
           Some (User.email u) ≠ credentials !! "email") →
     login_request db credentials now_ts
       = (db, Raise (HTTPException 401 "Invalid credentials"))) ∧
  (∀ transaction token now,
     (∀ t, token = Some t → sessions db !! t = None) →
     create_transaction db transaction token now
       = (db, Raise (HTTPException 401 "Unauthorized"))) ∧
  (∀ review token now,
     (∀ t, token = Some t → sessions db !! t = None) →
     create_review db review token now
       = (db, Raise (HTTPException 401 "Unauthorized"))).
Proof.
  split; [|split].
  - intros credentials now_ts Hno. unfold login_request, login.
    destruct (list_find _ _) as [[i user]|] eqn:E; [|done].
    apply list_find_Some in E as (Hi & Hmail & _).
    destruct (Hno user); [by eapply list_elem_of_lookup_2|done].
  - intros transaction token now Hno. unfold create_transaction.
    by rewrite get_current_user_unknown.
  - intros review token now Hno. unfold create_review.
    by rewrite get_current_user_unknown.
Qed.

(** X15: after a logout the token identifies nobody, requests under it
    are turned away, every other token identifies whom it did before, and
    a second logout changes nothing. *)
Theorem logout_closes_session db (token : string) :
  get_current_user (logout db token).1 (Some token) = None ∧
  (∀ transaction now,
     (create_transaction (logout db token).1 transaction (Some token) now).2
       = Raise (HTTPException 401 "Unauthorized")) ∧
  (∀ t, t ≠ token →
        get_current_user (logout db token).1 (Some t)
          = get_current_user db (Some t)) ∧
  (logout (logout db token).1 token).1 = (logout db token).1.
Proof.
  assert (Hgone : sessions (logout db token).1 !! token = None).
  { unfold logout; simpl. case_bool_decide as H; [apply lookup_delete_eq|].
    by apply eq_None_not_Some. }
  assert (Hcur : get_current_user (logout db token).1 (Some token) = None).
  { apply get_current_user_unknown. by intros t [= <-]. }
  split; [done|]. split; [|split].
  - intros transaction now. unfold create_transaction. by rewrite Hcur.
  - intros t Hne.
    assert (Hsame : sessions (logout db token).1 !! t = sessions db !! t).
    { unfold logout; simpl. case_bool_decide; [|done].
      by rewrite lookup_delete_ne. }
    unfold get_current_user. by rewrite Hsame.
  - unfold logout at 1. cbn [fst].
    rewrite bool_decide_eq_false_2; [done|].
    rewrite Hgone. by intros [??].
Qed.



End BackendSessionProperties.

(** ** Invariants of the reachable databases *)

Section BackendInvariantProperties.
Import Backend.

Lemma serial_ids_snoc (n : nat) : serial_ids (S n) = serial_ids n ++ [pretty (S n)].
Proof. unfold serial_ids. by rewrite seq_S, fmap_app. Qed.

Lemma serial_ids_NoDup (n : nat) : NoDup (serial_ids n).
Proof.
  unfold serial_ids. apply NoDup_fmap_2; [|apply NoDup_seq].
  intros a b Hab. apply (inj pretty) in Hab. lia.
Qed.

Lemma ids_serial_handle db req :
  Transaction.id <$> transactions db = serial_ids (length (transactions db)) →
  Review.id <$> reviews db = serial_ids (length (reviews db)) →
  Transaction.id <$> transactions (handle db req)
    = serial_ids (length (transactions (handle db req))) ∧
  Review.id <$> reviews (handle db req)
    = serial_ids (length (reviews (handle db req))).
Proof.
  intros Ht Hr.
  destruct req as [email ts|t|tr token now|rv token now]; simpl.
  - unfold login. by destruct (list_find _ _) as [[??]|].
  - done.
  - unfold create_transaction.
    destruct (negb (truthy (get_current_user db token))); [done|].
    cbn [fst transactions reviews]. split; [|done].
    rewrite fmap_app, length_app, Ht. simpl.
    by rewrite !Nat.add_1_r, serial_ids_snoc.
  - unfold create_review.
    destruct (negb (truthy (get_current_user db token))); [done|].
    cbn [fst transactions reviews]. split; [done|].
    rewrite fmap_app, length_app, Hr. simpl.
    by rewrite !Nat.add_1_r, serial_ids_snoc.
Qed.

Lemma reachable_ids_serial db :
  reachable db →
  Transaction.id <$> transactions db = serial_ids (length (transactions db)) ∧
  Review.id <$> reviews db = serial_ids (length (reviews db)).
Proof.
  intros [reqs ->]. induction reqs as [|req reqs IH] using rev_ind; [done|].
  rewrite foldl_app. simpl. destruct IH. by apply ids_serial_handle.
Qed.

(** X17: on every database the server can reach the stored transactions
    carry the ids "1", "2", ... in order of arrival, and so do the stored
    reviews; no id is given twice. *)
Theorem reachable_ids_distinct db :
  reachable db →
  Transaction.id <$> transactions db = serial_ids (length (transactions db)) ∧
  Review.id <$> reviews db = serial_ids (length (reviews db)) ∧
  NoDup (Transaction.id <$> transactions db) ∧
  NoDup (Review.id <$> reviews db).
Proof.
  intros [Ht Hr]%reachable_ids_serial.
  split; [done|]. split; [done|]. rewrite Ht, Hr.
  split; apply serial_ids_NoDup.
Qed.

Lemma reachable_ids_distinct_witness :
  reachable maria_busy_db ∧
  Transaction.id <$> transactions maria_busy_db = ["1"; "2"] ∧
  Review.id <$> reviews maria_busy_db = ["1"; "2"] ∧
  Transaction.id <$> transactions maria_busy_db
    = serial_ids (length (transactions maria_busy_db)) ∧
  Review.id <$> reviews maria_busy_db
    = serial_ids (length (reviews maria_busy_db)) ∧
  NoDup (Transaction.id <$> transactions maria_busy_db) ∧
  NoDup (Review.id <$> reviews maria_busy_db).
Proof.
  assert (H : reachable maria_busy_db) by (eexists; reflexivity).
  split; [exact H|].
  split; [vm_compute; reflexivity|]. split; [vm_compute; reflexivity|].
  exact (reachable_ids_distinct maria_busy_db H).
Defined.

Lemma partners_db_init : partners db_init = _load_partners.
Proof. vm_compute. reflexivity. Qed.

Lemma partner_reviews_handle db req :
  partner_reviews_match db → partner_reviews_match (handle db req).
Proof.
  intros Hinv.
  destruct req as [email ts|t|tr token now|rv token now]; simpl.
  - unfold login. by destruct (list_find _ _) as [[??]|].
  - done.
  - unfold create_transaction.
    by destruct (negb (truthy (get_current_user db token))).
  - unfold create_review.
    destruct (negb (truthy (get_current_user db token))); [done|].
    cbn [fst]. set (pid := ReviewDict.partner_id rv).
    intros k p. unfold reviews_of. cbn [partners reviews].
    rewrite filter_app, filter_cons, filter_nil. cbn [Review.partner_id].
    fold pid.
    destruct (decide (pid = k)) as [<-|Hne].
    + destruct (dict_get pid (partners db)) as [p1|] eqn:E.
      * rewrite dict_get_mutate_eq, E. intros [= <-].
        destruct (Hinv pid p1 E) as (p0 & H0 & Hc & Hr).
        exists p0. split; [done|]. unfold reviews_of in Hc, Hr.
        cbn [update_partner_rating Partner.reviews_count Partner.rating].
        split.
        -- rewrite length_app, Hc. simpl. lia.
        -- rewrite fmap_app. unfold halved_rating. rewrite foldl_app.
           simpl. by rewrite Hr.
      * by rewrite E.
    + rewrite app_nil_r. intros Hk. apply Hinv.
      destruct (dict_get pid (partners db)); [|done].
      by rewrite dict_get_mutate_ne in Hk.
Qed.

Lemma partner_reviews_init : partner_reviews_match db_init.
Proof.
  intros k p Hp. exists p. split; [exact Hp|].
  assert (Hnone : reviews_of db_init k = []) by reflexivity.
  rewrite Hnone. split; [simpl length; lia|reflexivity].
Qed.

Lemma reachable_partner_reviews db :
  reachable db → partner_reviews_match db.
Proof.
  intros [reqs ->]. induction reqs as [|req reqs IH] using rev_ind.
  - apply partner_reviews_init.
  - rewrite foldl_app. cbn [foldl]. by apply partner_reviews_handle.
Qed.

Lemma halved_rating_between (a b start : Q) (ratings : list Z) :
  (a <= start <= b)%Q →
  Forall (fun r => (a <= inject_Z r <= b)%Q) ratings →
  (a <= halved_rating start ratings <= b)%Q.
Proof.
  intros Hs Hall. revert start Hs.
  induction Hall as [|r rs Hr _ IH]; intros start Hs; [done|].
  simpl. apply IH. destruct Hs, Hr.
  split.
  - apply Qle_shift_div_l; [reflexivity|]. lra.
  - apply Qle_shift_div_r; [reflexivity|]. lra.
Qed.

Lemma shipped_ratings_in_range :
  Forall (fun e : string * Partner.t =>
            Qle_bool 1 (Partner.rating e.2) && Qle_bool (Partner.rating e.2) 5 = true)
         _load_partners.
Proof. apply (bool_decide_unpack _). by vm_compute. Qed.

(** X20: on every database the server can reach, a partner all of whose
    stored reviews rate between 1 and 5 has a rating between 1 and 5. *)
Theorem reachable_rating_in_range db (k : string) (p : Partner.t) :
  reachable db →
  dict_get k (partners db) = Some p →
  (∀ rv, rv ∈ reviews_of db k → 1 ≤ Review.rating rv ≤ 5) →
  (1 <= Partner.rating p <= 5)%Q.
Proof.
  intros Hreach Hp Hall.
  destruct (reachable_partner_reviews db Hreach k p Hp) as (p0 & H0 & _ & ->).
  rewrite partners_db_init in H0.
  apply halved_rating_between.
  - assert (Hin : (k, p0) ∈ _load_partners).
    { clear -H0. induction _load_partners as [|[k' v] d IH]; [done|].
      simpl in H0. case_decide; simplify_eq; [left|right; by apply IH]. }
    pose proof shipped_ratings_in_range as Hship.
    eapply Forall_forall in Hship; [|exact Hin]. simpl in Hship.
    apply andb_prop in Hship as [H1 H5].
    by apply Qle_bool_iff in H1, H5.
  - apply Forall_forall. intros r (rv & -> & Hrv)%list_elem_of_fmap.
    destruct (Hall rv Hrv).
    change 1%Q with (inject_Z 1). change 5%Q with (inject_Z 5).
    split; rewrite <- Zle_Qle; lia.
Qed.

Lemma reachable_rating_in_range_witness :
  reachable maria_reviewed_db ∧
  ∃ p, dict_get "1" (partners maria_reviewed_db) = Some p ∧
       (1 <= Partner.rating p <= 5)%Q.
Proof.
  assert (H : reachable maria_reviewed_db).
  { exists [Login (Some "maria@example.com") "0";
            CreateReview (review_of "1" 1) maria_token "2025-01-01";
            CreateReview (review_of "1" 5) maria_token "2025-01-01"].
    vm_compute. reflexivity. }
  split; [exact H|].
  destruct (dict_get "1" (partners maria_reviewed_db)) as [p|] eqn:E;
    [|by vm_compute in E].
  exists p. split; [done|].
  apply (reachable_rating_in_range maria_reviewed_db "1" p H E).
  intros rv Hrv. vm_compute in Hrv.
  repeat (apply elem_of_cons in Hrv as [->|Hrv]; [simpl; lia|]).
  by apply elem_of_nil in Hrv.
Defined.

End BackendInvariantProperties.

(** ** Reading the discount text *)

Section BackendTextProperties.
Import Backend.

Lemma digit_value_pretty_N_char (d : N) :
  (d < 10)%N → digit_value (pretty_N_char d) = Some (Z.of_N d).
Proof.
  intros Hd.
  assert (d = 0 ∨ d = 1 ∨ d = 2 ∨ d = 3 ∨ d = 4 ∨ d = 5 ∨ d = 6 ∨ d = 7
          ∨ d = 8 ∨ d = 9)%N as Hcases by lia.
  repeat (destruct Hcases as [->|Hcases]; [reflexivity|]). by subst.
Qed.

Lemma pretty_N_char_not_underscore (d : N) : pretty_N_char d ≠ "_"%char.
Proof. unfold pretty_N_char. by repeat case_match. Qed.

Lemma int_digits_digit (acc : Z) (af : bool) (d : N) (s : string) :
  (d < 10)%N →
  int_digits acc af (String (pretty_N_char d) s)
  = int_digits (acc * 10 + Z.of_N d) true s.
Proof.
  intros Hd. cbn [int_digits].
  rewrite bool_decide_eq_false_2 by apply pretty_N_char_not_underscore.
  by rewrite digit_value_pretty_N_char.
Qed.

Lemma int_digits_pretty_N_go (x : N) (s : string) (af : bool) :
  (0 < x)%N →
  int_digits 0 af (pretty_N_go x s) = int_digits (Z.of_N x) true s.
Proof.
  revert s af. induction (N.lt_wf_0 x) as [x _ IH]; intros s af Hx.
  rewrite pretty_N_go_step by done.
  assert (Hmod : (x `mod` 10 < 10)%N) by (apply N.mod_lt; lia).
  destruct (decide (0 < x `div` 10)%N) as [Hdiv|Hdiv].
  - rewrite IH; [|by apply N.div_lt|done].
    rewrite int_digits_digit by done. f_equal.
    pose proof (N.div_mod x 10 ltac:(lia)). lia.
  - assert (x `div` 10 = 0)%N as Hz by (by apply N.nlt_ge, N.le_0_r in Hdiv).
    rewrite Hz, pretty_N_go_0.
    rewrite int_digits_digit by done. f_equal.
    pose proof (N.div_mod x 10 ltac:(lia)). lia.
Qed.

Lemma all_digits_pretty_N_go (x : N) (s : string) :
  all_digits s = true → all_digits (pretty_N_go x s) = true.
Proof.
  revert s. induction (N.lt_wf_0 x) as [x _ IH]; intros s Hs.
  destruct (decide (0 < x)%N) as [Hx|Hx].
  - rewrite pretty_N_go_step by done. apply IH; [by apply N.div_lt|].
    cbn [all_digits]. rewrite Hs, andb_true_r.
    apply bool_decide_eq_true_2.
    rewrite digit_value_pretty_N_char by (apply N.mod_lt; lia). eauto.
  - assert (x = 0%N) as -> by lia. by rewrite pretty_N_go_0.
Qed.

Lemma pretty_N_go_nonempty (x : N) (s : string) :
  (0 < x)%N → pretty_N_go x s ≠ "".
Proof.
  revert s. induction (N.lt_wf_0 x) as [x _ IH]; intros s Hx.
  rewrite pretty_N_go_step by done.
  destruct (decide (0 < x `div` 10)%N) as [Hdiv|Hdiv].
  - apply IH; [by apply N.div_lt|done].
  - assert (x `div` 10 = 0)%N as -> by (by apply N.nlt_ge, N.le_0_r in Hdiv).
    by rewrite pretty_N_go_0.
Qed.

Lemma pretty_N_digits (n : N) :
  all_digits (pretty n) = true ∧ pretty n ≠ "" ∧
  int_digits 0 false (pretty n) = Some (Z.of_N n).
Proof.
  unfold pretty, pretty_N. destruct (decide (n = 0%N)) as [->|Hn]; [done|].
  split; [by apply all_digits_pretty_N_go|].
  split; [apply pretty_N_go_nonempty; lia|].
  rewrite int_digits_pretty_N_go by lia. done.
Qed.

Lemma digit_not_stripped (c : ascii) :
  is_Some (digit_value c) →
  is_whitespace c = false ∧ is_percent c = false ∧
  c ≠ "+"%char ∧ c ≠ "-"%char.
Proof.
  unfold digit_value, is_whitespace, is_percent. cbv zeta. intros [d Hd].
  case_bool_decide as Hn; [|done].
  repeat split.
  - clear Hd. revert Hn. generalize (nat_of_ascii c) as n. intros n Hn.
    apply orb_false_intro; apply bool_decide_eq_false_2. all: lia.
  - apply bool_decide_eq_false_2. intros ->. vm_compute in Hn. lia.
  - intros ->. vm_compute in Hn. lia.
  - intros ->. vm_compute in Hn. lia.
Qed.

Lemma rstrip_unchanged (P : ascii → bool) (s : string) :
  (∀ c, is_Some (digit_value c) → P c = false) →
  all_digits s = true → rstrip P s = s.
Proof.
  intros HP. induction s as [|c s IH]; [done|].
  cbn [all_digits rstrip]. intros [Hc Hs]%andb_prop.
  apply bool_decide_eq_true_1 in Hc.
  rewrite IH by done. destruct s; [by rewrite HP|done].
Qed.

Lemma rstrip_percent_suffix (s : string) :
  all_digits s = true → rstrip is_percent (s +:+ "%") = s.
Proof.
  induction s as [|c s IH]; [done|].
  cbn [all_digits]. intros [Hc Hs]%andb_prop.
  apply bool_decide_eq_true_1 in Hc.
  change (String c s +:+ "%") with (String c (s +:+ "%")).
  cbn [rstrip]. rewrite IH by done.
  destruct s; [|done].
  by destruct (digit_not_stripped c Hc) as (_ & -> & _).
Qed.

Lemma python_int_digits (s : string) :
  all_digits s = true → s ≠ "" → python_int s = int_digits 0 false s.
Proof.
  intros Hs Hne. unfold python_int.
  rewrite rstrip_unchanged; [|intros c Hc; by apply digit_not_stripped|done].
  destruct s as [|c s']; [done|].
  cbn [all_digits] in Hs. apply andb_prop in Hs as [Hc _].
  apply bool_decide_eq_true_1 in Hc.
  destruct (digit_not_stripped c Hc) as (Hw & _ & Hplus & Hminus).
  cbn [lstrip]. rewrite Hw.
  destruct c as [[] [] [] [] [] [] [] []]; try done.
Qed.

Lemma discount_round_trip (n : nat) (p : Partner.t) :
  Partner.discount p = pretty n +:+ "%" →
  discount_value p = Some (Z.of_nat n).
Proof.
  intros Hp. unfold discount_value. rewrite Hp. unfold pretty, pretty_nat.
  destruct (pretty_N_digits (N.of_nat n)) as (Hd & Hne & Hint).
  rewrite rstrip_percent_suffix, python_int_digits, Hint by done.
  by rewrite nat_N_Z.
Qed.

(** X21: the discount text [_load_partners] writes and the number
    [get_partners] reads back agree: for the partner built in round [i] of
    the loop, whatever its id, category and type names,
    [int(p.discount.rstrip('%'))] is 15 + i mod 20. *)
Theorem discount_text_round_trip (partner_id : nat) (category : string)
    (types : list string) (i : nat) :
  discount_value (make_partner partner_id category types i)
  = Some (15 + Z.of_nat (i mod 20)).
Proof.
  rewrite (discount_round_trip (15 + i mod 20)) by reflexivity.
  f_equal. lia.
Qed.

End BackendTextProperties.

(** ** The partner listing *)

Section BackendListingProperties.
Import Backend.

(** *** The descending stable sort *)

Lemma insert_desc_Permutation {A K : Type} (leb : K → K → bool) (key : A → K)
    (x : A) (l : list A) :
  insert_desc leb key x l ≡ₚ x :: l.
Proof.
  induction l as [|y l IH]; [done|]. simpl.
  destruct (leb _ _); [done|]. rewrite IH. apply perm_swap.
Qed.

Lemma sort_desc_Permutation {A K : Type} (leb : K → K → bool) (key : A → K)
    (l : list A) :
  sort_desc leb key l ≡ₚ l.
Proof.
  induction l as [|x l IH]; [done|]. unfold sort_desc in *. simpl.
  rewrite insert_desc_Permutation. by f_equiv.
Qed.

Lemma insert_desc_sorted {A K : Type} (leb : K → K → bool) (key : A → K)
    (x : A) (l : list A) :
  (∀ a b, leb a b = false → leb b a = true) →
  (∀ a b c, leb a b = true → leb b c = true → leb a c = true) →
  StronglySorted (λ a b, leb (key b) (key a) = true) l →
  StronglySorted (λ a b, leb (key b) (key a) = true) (insert_desc leb key x l).
Proof.
  intros Htot Htrans. induction l as [|y l IH]; intros Hs; simpl.
  - repeat constructor.
  - apply StronglySorted_cons in Hs as [Hy Hl].
    destruct (leb (key y) (key x)) eqn:E.
    + constructor; [by constructor|]. constructor; [done|].
      eapply Forall_impl; [exact Hy|]. intros z Hz. simpl in *.
      by eapply Htrans.
    + constructor; [by apply IH|].
      rewrite insert_desc_Permutation. constructor; [by apply Htot|done].
Qed.

Lemma sort_desc_sorted {A K : Type} (leb : K → K → bool) (key : A → K)
    (l : list A) :
  (∀ a b, leb a b = false → leb b a = true) →
  (∀ a b c, leb a b = true → leb b c = true → leb a c = true) →
  StronglySorted (λ a b, leb (key b) (key a) = true) (sort_desc leb key l).
Proof.
  intros Htot Htrans. induction l as [|x l IH]; [constructor|].
  by apply insert_desc_sorted.
Qed.

Lemma insert_desc_filter {A K : Type} (leb : K → K → bool) (key : A → K)
    (P : A → Prop) `{!∀ x, Decision (P x)} (x : A) (l : list A) :
  (∀ y, P x → P y → leb (key y) (key x) = true) →
  filter P (insert_desc leb key x l) = filter P (x :: l).
Proof.
  intros HP. induction l as [|y l IH]; [done|]. simpl.
  destruct (leb (key y) (key x)) eqn:E; [done|].
  rewrite filter_cons, IH, !filter_cons.
  destruct (decide (P y)) as [Hy|], (decide (P x)) as [Hx|]; try done.
  by rewrite HP in E.
Qed.

Lemma sort_desc_stable {A K : Type} (leb : K → K → bool) (key : A → K)
    (P : A → Prop) `{!∀ x, Decision (P x)} (l : list A) :
  (∀ x y, P x → P y → leb (key y) (key x) = true) →
  filter P (sort_desc leb key l) = filter P l.
Proof.
  intros HP. induction l as [|x l IH]; [done|].
  change (sort_desc leb key (x :: l))
    with (insert_desc leb key x (sort_desc leb key l)).
  rewrite insert_desc_filter by (intros y; apply HP).
  by rewrite !filter_cons, IH.
Qed.

Lemma insert_desc_fmap {A B K : Type} (leb : K → K → bool) (key : B → K)
    (g : A → B) (x : A) (l : list A) :
  insert_desc leb key (g x) (g <$> l) = g <$> insert_desc leb (key ∘ g) x l.
Proof.
  induction l as [|y l IH]; [done|].
  rewrite fmap_cons. cbn [insert_desc]. unfold compose at 1 2.
  destruct (leb _ _); [done|]. rewrite fmap_cons. by f_equal.
Qed.

Lemma sort_desc_fmap {A B K : Type} (leb : K → K → bool) (key : B → K)
    (g : A → B) (l : list A) :
  sort_desc leb key (g <$> l) = g <$> sort_desc leb (key ∘ g) l.
Proof.
  induction l as [|x l IH]; [done|].
  change (sort_desc leb key (g <$> x :: l))
    with (insert_desc leb key (g x) (sort_desc leb key (g <$> l))).
  by rewrite IH, insert_desc_fmap.
Qed.

Lemma StronglySorted_weaken {A : Type} (R R' : relation A) (Q : A → Prop)
    (l : list A) :
  (∀ x y, Q x → Q y → R x y → R' x y) →
  Forall Q l → StronglySorted R l → StronglySorted R' l.
Proof.
  intros HR HQ Hs. induction Hs as [|x l Hs IH Hx]; [constructor|].
  apply Forall_cons in HQ as [Hqx HQ]. constructor; [by apply IH|].
  apply Forall_forall. intros y Hy.
  rewrite Forall_forall in Hx, HQ. apply HR; auto.
Qed.

Lemma Qle_bool_total (a b : Q) : Qle_bool a b = false → Qle_bool b a = true.
Proof.
  intros Hab. apply Qle_bool_iff. destruct (Qlt_le_dec b a) as [Hlt|Hle].
  - by apply Qlt_le_weak.
  - apply Qle_bool_iff in Hle. congruence.
Qed.

Lemma Qle_bool_trans (a b c : Q) :
  Qle_bool a b = true → Qle_bool b c = true → Qle_bool a c = true.
Proof. rewrite !Qle_bool_iff. apply Qle_trans. Qed.

(** *** Reading the discounts *)

Lemma discount_values_dec (l : list Partner.t) :
  Forall (λ p, is_Some (discount_value p)) l ∨
  ∃ p, p ∈ l ∧ discount_value p = None.
Proof.
  induction l as [|p l [IH|(q & Hq & Hnone)]].
  - left. constructor.
  - destruct (discount_value p) as [d|] eqn:E.
    + left. constructor; [by rewrite E|done].
    + right. exists p. split; [left|done].
  - right. exists q. split; [by right|done].
Qed.

Lemma filter_min_discount_readable (m : Z) (l : list Partner.t) :
  Forall (λ p, is_Some (discount_value p)) l →
  filter_min_discount m l
  = Converted (filter (λ p, meets_min_discount m p = true) l).
Proof.
  induction 1 as [|p l [d Hd] _ IH]; [done|].
  assert (meets_min_discount m p = bool_decide (m ≤ d)) as Hp
    by (unfold meets_min_discount; by rewrite Hd).
  cbn [filter_min_discount]. rewrite Hd, IH, filter_cons.
  destruct (bool_decide (m ≤ d)).
  - by rewrite decide_True.
  - rewrite decide_False; [done|]. by rewrite Hp.
Qed.

Lemma filter_min_discount_unreadable (m : Z) (l : list Partner.t) (q : Partner.t) :
  q ∈ l → discount_value q = None → filter_min_discount m l = ValueError.
Proof.
  intros Hq Hnone. induction l as [|p l IH]; [by apply elem_of_nil in Hq|].
  cbn [filter_min_discount]. destruct (discount_value p) as [d|] eqn:E; [|done].
  apply elem_of_cons in Hq as [->|Hq]; [congruence|]. by rewrite IH.
Qed.

Lemma discount_keys_readable (l : list Partner.t) :
  Forall (λ p, is_Some (discount_value p)) l →
  discount_keys l
  = Converted ((λ p, (default 0 (discount_value p), p)) <$> l).
Proof.
  induction 1 as [|p l [d Hd] _ IH]; [done|].
  cbn [discount_keys]. by rewrite fmap_cons, Hd, IH.
Qed.

Lemma discount_keys_unreadable (l : list Partner.t) (q : Partner.t) :
  q ∈ l → discount_value q = None → discount_keys l = ValueError.
Proof.
  intros Hq Hnone. induction l as [|p l IH]; [by apply elem_of_nil in Hq|].
  cbn [discount_keys]. destruct (discount_value p) as [d|] eqn:E; [|done].
  apply elem_of_cons in Hq as [->|Hq]; [congruence|]. by rewrite IH.
Qed.

(** *** [get_partners] step by step *)

(** The list after the three filters and the sort, when every discount
    that had to be read was readable. *)
Lemma filtered_place (category location : option string) (l0 : list Partner.t) :
  (if truthy location
   then filter (λ p, Some (Partner.location p) = location)
          (if truthy category
           then filter (λ p, Some (Partner.category p) = category) l0 else l0)
   else if truthy category
        then filter (λ p, Some (Partner.category p) = category) l0 else l0)
  = filter (λ p, matches_place category location p = true) l0.
Proof.
  unfold matches_place.
  destruct (truthy category), (truthy location); simpl.
  - rewrite list_filter_filter. apply list_filter_iff. intros p.
    rewrite andb_true_iff, !bool_decide_eq_true. tauto.
  - apply list_filter_iff. intros p.
    by rewrite andb_true_r, bool_decide_eq_true.
  - apply list_filter_iff. intros p. by rewrite bool_decide_eq_true.
  - symmetry. by apply filter_all.
Qed.

Lemma filtered_all (category location : option string) (min_discount : option Z)
    (l0 : list Partner.t) :
  (if truthy_int min_discount
   then filter (λ p, meets_min_discount (default 0 min_discount) p = true)
          (filter (λ p, matches_place category location p = true) l0)
   else filter (λ p, matches_place category location p = true) l0)
  = filter (λ p, matches_filters category location min_discount p = true) l0.
Proof.
  unfold matches_filters. destruct (truthy_int min_discount); simpl.
  - rewrite list_filter_filter. apply list_filter_iff. intros p.
    rewrite andb_true_iff. tauto.
  - apply list_filter_iff. intros p. by rewrite andb_true_r.
Qed.

Lemma get_partners_readable db category location min_discount sort_by :
  (truthy_int min_discount = true ∨ sort_by = Some "discount" →
   Forall (λ p, is_Some (discount_value p))
     (filter (λ p, matches_place category location p = true)
        (dict_values (partners db)))) →
  ∃ sorted,
    get_partners db category location min_discount sort_by
    = Converted {|
        PartnersResponse.partners := take 20 sorted;
        PartnersResponse.total := length sorted;
        PartnersResponse.filters := (category, location, min_discount) |} ∧
    sorted =
      (let matching :=
         filter (λ p, matches_filters category location min_discount p = true)
           (dict_values (partners db)) in
       if bool_decide (sort_by = Some "rating")
       then sort_desc Qle_bool Partner.rating matching
       else if bool_decide (sort_by = Some "discount")
            then sort_desc Z.leb (λ p, default 0 (discount_value p)) matching
            else matching) ∧
    (sort_by = Some "discount" →
     Forall (λ p, is_Some (discount_value p)) sorted).
Proof.
  intros Hread. unfold get_partners. cbv zeta.
  rewrite filtered_place.
  set (placed := filter (λ p, matches_place category location p = true) _) in *.
  assert ((if truthy_int min_discount
           then filter_min_discount (default 0 min_discount) placed
           else Converted placed)
          = Converted
              (filter (λ p, matches_filters category location min_discount p = true)
                 (dict_values (partners db)))) as ->.
  { rewrite <- filtered_all. fold placed.
    destruct (truthy_int min_discount); [|done].
    apply filter_min_discount_readable. apply Hread. by left. }
  set (matching := filter (λ p, matches_filters _ _ _ p = true) _).
  assert (sort_by = Some "discount" →
          Forall (λ p, is_Some (discount_value p)) matching) as Hread'.
  { intros Hd. apply Forall_forall. intros p Hp.
    assert (Forall (λ p, is_Some (discount_value p)) placed) as Hall
      by (apply Hread; by right).
    rewrite Forall_forall in Hall. apply Hall.
    unfold matching, matches_filters in Hp. unfold placed.
    apply list_elem_of_filter in Hp as [[Hp _]%andb_prop Hin].
    by apply list_elem_of_filter. }
  case_bool_decide as Hr.
  { eexists. split; [reflexivity|]. split; [done|]. intros ->. done. }
  case_bool_decide as Hd.
  - rewrite discount_keys_readable by auto.
    rewrite (sort_desc_fmap Z.leb fst
               (λ p, (default 0 (discount_value p), p)) matching).
    rewrite <- list_fmap_compose, list_fmap_id.
    eexists. split; [reflexivity|]. split; [done|].
    intros _. rewrite sort_desc_Permutation. auto.
  - eexists. split; [reflexivity|]. split; [done|]. intros ?. done.
Qed.

Lemma get_partners_unreadable db category location min_discount sort_by q :
  truthy_int min_discount = true ∨ sort_by = Some "discount" →
  q ∈ dict_values (partners db) →
  matches_place category location q = true →
  discount_value q = None →
  get_partners db category location min_discount sort_by = ValueError.
Proof.
  intros Hread Hq Hplace Hnone.
  assert (q ∈ filter (λ p, matches_place category location p = true)
                (dict_values (partners db))) as Hin
    by (by apply list_elem_of_filter).
  unfold get_partners. cbv zeta. rewrite filtered_place.
  destruct (truthy_int min_discount) eqn:Hm.
  - by rewrite (filter_min_discount_unreadable _ _ q).
  - destruct Hread as [?| ->]; [done|].
    rewrite bool_decide_eq_false_2, bool_decide_eq_true_2 by done.
    by rewrite (discount_keys_unreadable _ q).
Qed.

Lemma get_partners_Converted db category location min_discount sort_by r :
  get_partners db category location min_discount sort_by = Converted r →
  ∃ sorted,
    r = {| PartnersResponse.partners := take 20 sorted;
           PartnersResponse.total := length sorted;
           PartnersResponse.filters := (category, location, min_discount) |} ∧
    sorted =
      (let matching :=
         filter (λ p, matches_filters category location min_discount p = true)
           (dict_values (partners db)) in
       if bool_decide (sort_by = Some "rating")
       then sort_desc Qle_bool Partner.rating matching
       else if bool_decide (sort_by = Some "discount")
            then sort_desc Z.leb (λ p, default 0 (discount_value p)) matching
            else matching) ∧
    (sort_by = Some "discount" →
     Forall (λ p, is_Some (discount_value p)) sorted).
Proof.
  intros Hr.
  destruct (discount_values_dec
              (filter (λ p, matches_place category location p = true)
                 (dict_values (partners db)))) as [Hall|(q & Hq & Hnone)].
  - destruct (get_partners_readable db category location min_discount sort_by)
      as (sorted & Heq & Hs); [done|].
    exists sorted. split; [congruence|done].
  - destruct (decide (truthy_int min_discount = true ∨ sort_by = Some "discount"))
      as [Hread|Hread].
    + apply list_elem_of_filter in Hq as [Hplace Hq].
      rewrite (get_partners_unreadable _ _ _ _ _ q) in Hr by done. done.
    + destruct (get_partners_readable db category location min_discount sort_by)
        as (sorted & Heq & Hs); [done|].
      exists sorted. split; [congruence|done].
Qed.

Lemma sorted_Permutation (sort_by : option string) (matching : list Partner.t) :
  (if bool_decide (sort_by = Some "rating")
   then sort_desc Qle_bool Partner.rating matching
   else if bool_decide (sort_by = Some "discount")
        then sort_desc Z.leb (λ p, default 0 (discount_value p)) matching
        else matching) ≡ₚ matching.
Proof. repeat case_bool_decide; by rewrite ?sort_desc_Permutation. Qed.

Lemma filter_take_prefix {A : Type} (P : A → Prop) `{!∀ x, Decision (P x)}
    (n : nat) (l : list A) :
  filter P (take n l) `prefix_of` filter P l.
Proof.
  rewrite <- (take_drop n l) at 2. rewrite filter_app. by apply prefix_app_r.
Qed.

(** *** The fields of a partner no request changes *)

Lemma partner_field_handle {B : Type} (proj : Partner.t → B) db req :
  (∀ r p, proj (update_partner_rating r p) = proj p) →
  proj <$> dict_values (partners (handle db req))
  = proj <$> dict_values (partners db).
Proof.
  intros Hproj. destruct req as [email ts|t|tr token now|rv token now]; simpl.
  - unfold login. by destruct (list_find _ _) as [[??]|].
  - done.
  - unfold create_transaction.
    by destruct (negb (truthy (get_current_user db token))).
  - unfold create_review.
    destruct (negb (truthy (get_current_user db token))); [done|]. simpl.
    destruct (dict_get _ (partners db)); [|done].
    unfold dict_values. rewrite <- !list_fmap_compose.
    apply dict_mutate_fmap. intros k' v. apply Hproj.
Qed.

Lemma reachable_partner_field {B : Type} (proj : Partner.t → B) db :
  (∀ r p, proj (update_partner_rating r p) = proj p) →
  reachable db →
  proj <$> dict_values (partners db)
  = proj <$> dict_values (partners db_init).
Proof.
  intros Hproj [reqs ->]. generalize db_init as db0. intros db0.
  induction reqs as [|req reqs IH] using rev_ind; [reflexivity|].
  rewrite foldl_app. cbn [foldl]. by rewrite partner_field_handle.
Qed.

Lemma shipped_discounts_readable :
  Forall (λ d, is_Some (python_int (rstrip is_percent d)))
    (Partner.discount <$> dict_values (partners db_init)).
Proof. apply (bool_decide_unpack _). vm_compute. reflexivity. Qed.

Lemma reachable_discounts_readable db :
  reachable db →
  Forall (λ p, is_Some (discount_value p)) (dict_values (partners db)).
Proof.
  intros Hreach.
  pose proof shipped_discounts_readable as Hall.
  rewrite <- (reachable_partner_field Partner.discount db) in Hall by done.
  rewrite Forall_fmap in Hall. exact Hall.
Qed.

(** X22: on a catalog whose discount texts are ASCII and at most 4300
    characters long, [get_partners] fails with the ValueError of [int()]
    exactly when a discount has to be read (a minimum discount other than
    0 is given, or the sort key is "discount") and some partner that
    passed the category and location filters has a discount text that is
    no number; on every database the server can reach it answers. *)
Theorem get_partners_ValueError db category location min_discount sort_by :
  Forall (λ p, plain_text (Partner.discount p) = true)
    (dict_values (partners db)) →
  (get_partners db category location min_discount sort_by = ValueError ↔
   (truthy_int min_discount = true ∨ sort_by = Some "discount") ∧
   ∃ p, p ∈ dict_values (partners db) ∧
        matches_place category location p = true ∧
        discount_value p = None) ∧
  (reachable db →
   ∃ r, get_partners db category location min_discount sort_by = Converted r).
Proof.
  intros _. split.
  - split.
    + intros Herr.
      destruct (decide (truthy_int min_discount = true ∨ sort_by = Some "discount"))
        as [Hread|Hread].
      * split; [done|].
        destruct (discount_values_dec
                    (filter (λ p, matches_place category location p = true)
                       (dict_values (partners db))))
          as [Hall|(q & Hq & Hnone)].
        -- destruct (get_partners_readable db category location min_discount
                       sort_by) as (sorted & Heq & _); [done|congruence].
        -- apply list_elem_of_filter in Hq as [Hplace Hq]. eauto.
      * destruct (get_partners_readable db category location min_discount
                    sort_by) as (sorted & Heq & _); [done|congruence].
    + intros (Hread & q & Hq & Hplace & Hnone).
      by apply (get_partners_unreadable _ _ _ _ _ q).
  - intros Hreach.
    destruct (get_partners_readable db category location min_discount sort_by)
      as (sorted & Heq & _); [|eauto].
    intros _. apply reachable_discounts_readable in Hreach.
    rewrite Forall_forall in Hreach. apply Forall_forall.
    intros p [_ Hp]%list_elem_of_filter. auto.
Qed.

Lemma get_partners_ValueError_witness :
  Forall (λ p, plain_text (Partner.discount p) = true)
    (dict_values (partners unpriced_db)) ∧
  get_partners unpriced_db None None (Some 10) None = ValueError ∧
  ∃ r, get_partners unpriced_db None None None (Some "rating") = Converted r.
Proof.
  assert (H : Forall (λ p, plain_text (Partner.discount p) = true)
                (dict_values (partners unpriced_db))).
  { repeat constructor. }
  split; [exact H|]. split.
  - pose proof (get_partners_ValueError unpriced_db None None (Some 10) None H)
      as [Hiff _].
    apply Hiff. split; [left; reflexivity|].
    exists unpriced_partner. split; [right; left|]. split; reflexivity.
  - eexists. reflexivity.
Defined.

(** X23: whenever [get_partners] answers, [total] counts the partners
    that pass the three filters, the page holds the first 20 of them at
    most, every partner on the page is in the catalog and passes the
    filters, the filters are echoed, and without a known sort key the page
    is in catalog order. *)
Theorem get_partners_page db category location min_discount sort_by r :
  get_partners db category location min_discount sort_by = Converted r →
  PartnersResponse.total r
  = length (filter (λ p, matches_filters category location min_discount p = true)
              (dict_values (partners db))) ∧
  length (PartnersResponse.partners r) = (20 `min` PartnersResponse.total r)%nat ∧
  (∀ p, p ∈ PartnersResponse.partners r →
        p ∈ dict_values (partners db) ∧
        matches_filters category location min_discount p = true) ∧
  PartnersResponse.filters r = (category, location, min_discount) ∧
  (sort_by ≠ Some "rating" → sort_by ≠ Some "discount" →
   PartnersResponse.partners r
   = take 20 (filter (λ p, matches_filters category location min_discount p = true)
                (dict_values (partners db)))).
Proof.
  intros (sorted & -> & Hsorted & _)%get_partners_Converted.
  cbv zeta in Hsorted.
  pose proof (sorted_Permutation sort_by
                (filter (λ p, matches_filters category location min_discount p = true)
                   (dict_values (partners db)))) as Hperm.
  rewrite <- Hsorted in Hperm. cbn [PartnersResponse.total
    PartnersResponse.partners PartnersResponse.filters].
  split; [by rewrite Hperm|].
  split; [apply length_take|].
  split; [|split; [done|]].
  - intros p Hp.
    assert (p ∈ sorted) as Hin.
    { rewrite <- (take_drop 20 sorted). apply elem_of_app. by left. }
    rewrite Hperm in Hin. apply list_elem_of_filter in Hin. tauto.
  - intros Hr Hd. rewrite Hsorted.
    by rewrite !bool_decide_eq_false_2.
Qed.

Lemma get_partners_page_witness :
  get_partners db_init (Some "Fine Dining") (Some "Sofia") (Some 20) None
  = Converted sofia_discount_page ∧
  PartnersResponse.total sofia_discount_page
  = length (filter (λ p, matches_filters (Some "Fine Dining") (Some "Sofia")
                           (Some 20) p = true)
              (dict_values (partners db_init))).
Proof.
  assert (H : get_partners db_init (Some "Fine Dining") (Some "Sofia") (Some 20)
                None = Converted sofia_discount_page)
    by (vm_compute; reflexivity).
  split; [exact H|].
  pose proof (get_partners_page db_init (Some "Fine Dining") (Some "Sofia")
                (Some 20) None sofia_discount_page H) as [Hl _].
  exact Hl.
Defined.

(** X24: with the sort key "rating" (the default) the page of
    [get_partners] is in non-increasing order of rating, no matching
    partner left off the page is rated higher than one on it, and partners
    with equal ratings stay in catalog order. *)
Theorem get_partners_by_rating db category location min_discount r :
  get_partners db category location min_discount (Some "rating") = Converted r →
  StronglySorted (λ p q, (Partner.rating q <= Partner.rating p)%Q)
    (PartnersResponse.partners r) ∧
  (∀ p q, p ∈ PartnersResponse.partners r →
          q ∈ dict_values (partners db) →
          matches_filters category location min_discount q = true →
          q ∉ PartnersResponse.partners r →
          (Partner.rating q <= Partner.rating p)%Q) ∧
  (∀ v : Q,
     filter (λ p, Qeq_bool (Partner.rating p) v = true)
       (PartnersResponse.partners r)
     `prefix_of`
     filter (λ p, Qeq_bool (Partner.rating p) v = true)
       (filter (λ p, matches_filters category location min_discount p = true)
          (dict_values (partners db)))).
Proof.
  intros (sorted & -> & Hsorted & _)%get_partners_Converted.
  cbv zeta in Hsorted. rewrite bool_decide_eq_true_2 in Hsorted by done.
  cbn [PartnersResponse.partners].
  set (matching := filter (λ p, matches_filters _ _ _ p = true) _) in *.
  assert (StronglySorted (λ p q, Qle_bool (Partner.rating q) (Partner.rating p) = true)
            (take 20 sorted ++ drop 20 sorted)) as Hs.
  { rewrite take_drop, Hsorted.
    apply sort_desc_sorted; [apply Qle_bool_total|apply Qle_bool_trans]. }
  split; [|split].
  - apply StronglySorted_app_1_l in Hs.
    eapply (StronglySorted_weaken _ _ (λ _, True)); [| |exact Hs].
    + intros p q _ _ Hpq. by apply Qle_bool_iff.
    + by apply Forall_forall.
  - intros p q Hp Hq Hmatch Hout. apply Qle_bool_iff.
    apply (StronglySorted_app_1_elem_of _ _ _ _ _ Hs Hp).
    assert (q ∈ take 20 sorted ++ drop 20 sorted) as Hin.
    { rewrite take_drop, Hsorted, sort_desc_Permutation.
      by apply list_elem_of_filter. }
    apply elem_of_app in Hin as [?|?]; done.
  - intros v.
    rewrite <- (sort_desc_stable Qle_bool Partner.rating _ matching).
    + rewrite <- Hsorted. apply filter_take_prefix.
    + intros x y Hx%Qeq_bool_iff Hy%Qeq_bool_iff. apply Qle_bool_iff.
      rewrite Hx, Hy. apply Qle_refl.
Qed.

Lemma get_partners_by_rating_witness :
  get_partners db_init (Some "Fine Dining") (Some "Sofia") None (Some "rating")
  = Converted sofia_rating_page ∧
  StronglySorted (λ p q, (Partner.rating q <= Partner.rating p)%Q)
    (PartnersResponse.partners sofia_rating_page).
Proof.
  assert (H : get_partners db_init (Some "Fine Dining") (Some "Sofia") None
                (Some "rating") = Converted sofia_rating_page)
    by (vm_compute; reflexivity).
  split; [exact H|].
  pose proof (get_partners_by_rating db_init (Some "Fine Dining") (Some "Sofia")
                None sofia_rating_page H) as [Hl _].
  exact Hl.
Defined.

(** X25: with the sort key "discount" every partner on the page of
    [get_partners] has a readable discount, the page is in non-increasing
    order of the discount read, and partners with equal discounts stay in
    catalog order. *)
Theorem get_partners_by_discount db category location min_discount r :
  get_partners db category location min_discount (Some "discount") = Converted r →
  StronglySorted
    (λ p q, ∃ dp dq, discount_value p = Some dp ∧ discount_value q = Some dq ∧
                     dq ≤ dp)
    (PartnersResponse.partners r) ∧
  (∀ d : Z,
     filter (λ p, discount_value p = Some d) (PartnersResponse.partners r)
     `prefix_of`
     filter (λ p, discount_value p = Some d)
       (filter (λ p, matches_filters category location min_discount p = true)
          (dict_values (partners db)))).
Proof.
  intros (sorted & -> & Hsorted & Hread)%get_partners_Converted.
  cbv zeta in Hsorted. specialize (Hread eq_refl).
  rewrite bool_decide_eq_false_2, bool_decide_eq_true_2 in Hsorted by done.
  cbn [PartnersResponse.partners].
  set (matching := filter (λ p, matches_filters _ _ _ p = true) _) in *.
  split.
  - assert (StronglySorted
              (λ p q, (default 0 (discount_value q) <=? default 0 (discount_value p))
                      = true)
              (take 20 sorted ++ drop 20 sorted)) as Hs.
    { rewrite take_drop, Hsorted. apply sort_desc_sorted.
      - intros a b. rewrite Z.leb_gt, Z.leb_le. lia.
      - intros a b c. rewrite !Z.leb_le. lia. }
    apply StronglySorted_app_1_l in Hs.
    eapply (StronglySorted_weaken _ _ (λ p, is_Some (discount_value p)));
      [| |exact Hs].
    + intros p q [dp Hp] [dq Hq] Hpq. rewrite Hp, Hq in Hpq. simpl in Hpq.
      exists dp, dq. split; [done|]. split; [done|]. by apply Z.leb_le.
    + rewrite <- (take_drop 20 sorted) in Hread.
      by apply Forall_app in Hread as [? _].
  - intros d.
    rewrite <- (sort_desc_stable Z.leb (λ p, default 0 (discount_value p)) _
                  matching).
    + rewrite <- Hsorted. apply filter_take_prefix.
    + intros x y Hx Hy. rewrite Hx, Hy. simpl. apply Z.leb_refl.
Qed.

Lemma get_partners_by_discount_witness :
  get_partners db_init (Some "Fine Dining") (Some "Sofia") None (Some "discount")
  = Converted sofia_by_discount_page ∧
  StronglySorted
    (λ p q, ∃ dp dq, discount_value p = Some dp ∧ discount_value q = Some dq ∧
                     dq ≤ dp)
    (PartnersResponse.partners sofia_by_discount_page).
Proof.
  assert (H : get_partners db_init (Some "Fine Dining") (Some "Sofia") None
                (Some "discount") = Converted sofia_by_discount_page)
    by (vm_compute; reflexivity).
  split; [exact H|].
  pose proof (get_partners_by_discount db_init (Some "Fine Dining")
                (Some "Sofia") None sofia_by_discount_page H) as [Hl _].
  exact Hl.
Defined.

End BackendListingProperties.

(** ** Search, partner and profile lookups *)

Section BackendLookupProperties.
Import Backend.

(** *** Substring search *)

Lemma prefix_true (q s : string) :
  String.prefix q s = true ↔ ∃ b, s = q +:+ b.
Proof.
  revert s. induction q as [|c q IH]; intros s.
  - split; [intros _; by exists s|by destruct s].
  - destruct s as [|c' s]; simpl; [split; [done|by intros [b ?]]|].
    destruct (ascii_dec c c') as [->|Hne].
    + rewrite IH. split; intros [b Hb]; exists b; [by rewrite Hb|].
      by injection Hb.
    + split; [done|]. intros [b Hb]. injection Hb as ? ?. done.
Qed.

Lemma is_substring_true (q s : string) :
  is_substring q s = true ↔ ∃ a b, s = a +:+ q +:+ b.
Proof.
  induction s as [|c s IH]; cbn [is_substring].
  - rewrite orb_false_r, prefix_true. split.
    + intros [b Hb]. by exists "", b.
    + intros (a & b & Hab). destruct a; [by exists b|done].
  - rewrite orb_true_iff, prefix_true, IH. split.
    + intros [[b Hb]|(a & b & Hab)]; [by exists "", b|].
      exists (String c a), b. simpl. by rewrite Hab.
    + intros (a & b & Hab). destruct a as [|c' a]; [left; by exists b|].
      right. simpl in Hab. injection Hab as -> Hs. by exists a, b.
Qed.

Lemma ascii_lower_idemp (c : ascii) : ascii_lower (ascii_lower c) = ascii_lower c.
Proof. destruct c as [[] [] [] [] [] [] [] []]; vm_compute; reflexivity. Qed.

Lemma lower_idemp (s : string) : lower (lower s) = lower s.
Proof.
  induction s as [|c s IH]; [done|]. cbn [lower].
  by rewrite ascii_lower_idemp, IH.
Qed.

Lemma search_found (q : string) (p : Partner.t) :
  is_substring (lower q) (lower (Partner.name p))
  || is_substring (lower q) (lower (Partner.description p))
  || is_substring (lower q) (lower (Partner.category p)) = true
  ↔ mentions (lower q) p.
Proof.
  rewrite !orb_true_iff, !is_substring_true. unfold mentions. split.
  - intros [[(a & b & H)|(a & b & H)]|(a & b & H)]; exists a, b; tauto.
  - intros (a & b & [H|[H|H]]); eauto 6.
Qed.

Lemma filter_fmap_agree {A B : Type} (f : A → B) (P : A → Prop) (Q : B → Prop)
    `{!∀ x, Decision (P x)} (l l' : list A) :
  (∀ x, P x ↔ Q (f x)) →
  f <$> l = f <$> l' →
  f <$> filter P l = f <$> filter P l'.
Proof.
  intros HPQ. revert l'. induction l as [|x l IH]; intros [|x' l'] Heq;
    try done.
  rewrite !fmap_cons in Heq. injection Heq as Hx Hl.
  rewrite !filter_cons.
  destruct (decide (P x)) as [Hp|Hp], (decide (P x')) as [Hp'|Hp'].
  - rewrite !fmap_cons, Hx. f_equal. by apply IH.
  - exfalso. apply Hp'. apply HPQ. rewrite <- Hx. by apply HPQ.
  - exfalso. apply Hp. apply HPQ. rewrite Hx. by apply HPQ.
  - by apply IH.
Qed.

(** X26: [search] lists at most ten partners and counts all it found;
    the partners found are, in catalog order, exactly those whose
    lower-cased name, description or category contains the lower-cased
    query; the query is echoed as typed and its letter case does not
    matter; the empty query finds every partner; and on every database the
    server can reach the same partner ids are found as on the initial
    one. *)
Theorem search_results db (q : string) :
  SearchResponse.query (search db q) = q ∧
  (∃ found,
     SearchResponse.results (search db q) = take 10 found ∧
     SearchResponse.total (search db q) = length found ∧
     found `sublist_of` dict_values (partners db) ∧
     ∀ p, p ∈ found ↔ p ∈ dict_values (partners db) ∧ mentions (lower q) p) ∧
  search db (lower q)
    = {| SearchResponse.results := SearchResponse.results (search db q);
         SearchResponse.query := lower q;
         SearchResponse.total := SearchResponse.total (search db q) |} ∧
  SearchResponse.results (search db "") = take 10 (dict_values (partners db)) ∧
  SearchResponse.total (search db "") = length (dict_values (partners db)) ∧
  (reachable db →
   Partner.id <$> SearchResponse.results (search db q)
     = Partner.id <$> SearchResponse.results (search db_init q) ∧
   SearchResponse.total (search db q) = SearchResponse.total (search db_init q)).
Proof.
  split; [done|]. split; [|split; [|split; [|split]]].
  - eexists. unfold search.
    cbn [SearchResponse.results SearchResponse.total].
    split; [done|]. split; [done|]. split; [apply sublist_filter|].
    intros p. rewrite list_elem_of_filter, search_found. tauto.
  - unfold search. cbn [SearchResponse.results SearchResponse.total].
    by rewrite lower_idemp.
  - unfold search. cbn [SearchResponse.results lower]. f_equal.
    apply filter_all. intros p _. unfold is_substring. by destruct (lower _).
  - unfold search. cbn [SearchResponse.total lower].
    rewrite filter_all; [done|].
    intros p _. unfold is_substring. by destruct (lower _).
  - intros Hreach. unfold search.
    cbn [SearchResponse.results SearchResponse.total].
    pose proof (reachable_partner_field
                  (λ p, (Partner.id p, Partner.name p, Partner.description p,
                         Partner.category p)) db) as Hfix.
    specialize (Hfix (λ _ _, eq_refl) Hreach).
    eapply (filter_fmap_agree _
              (λ partner,
                 is_substring (lower q) (lower (Partner.name partner))
                 || is_substring (lower q) (lower (Partner.description partner))
                 || is_substring (lower q) (lower (Partner.category partner))
                 = true)
              (λ v, is_substring (lower q) (lower v.1.1.2)
                    || is_substring (lower q) (lower v.1.2)
                    || is_substring (lower q) (lower v.2) = true)) in Hfix;
      [|done].
    split.
    + rewrite !fmap_take. f_equal.
      apply (f_equal (fmap (λ v : string * string * string * string, v.1.1.1)))
        in Hfix.
      rewrite <- !list_fmap_compose in Hfix. exact Hfix.
    + apply (f_equal length) in Hfix. by rewrite !length_fmap in Hfix.
Qed.

(** *** Looking up one partner *)

Lemma partner_entry_handle {B : Type} (g : string * Partner.t → B) db req :
  (∀ k r p, g (k, update_partner_rating r p) = g (k, p)) →
  g <$> partners (handle db req) = g <$> partners db.
Proof.
  intros Hg. destruct req as [email ts|t|tr token now|rv token now]; simpl.
  - unfold login. by destruct (list_find _ _) as [[??]|].
  - done.
  - unfold create_transaction.
    by destruct (negb (truthy (get_current_user db token))).
  - unfold create_review.
    destruct (negb (truthy (get_current_user db token))); [done|]. simpl.
    destruct (dict_get _ (partners db)); [|done].
    apply dict_mutate_fmap. intros k' v. apply Hg.
Qed.

Lemma reachable_partner_entry {B : Type} (g : string * Partner.t → B) db :
  (∀ k r p, g (k, update_partner_rating r p) = g (k, p)) →
  reachable db → g <$> partners db = g <$> partners db_init.
Proof.
  intros Hg [reqs ->]. generalize db_init as db0. intros db0.
  induction reqs as [|req reqs IH] using rev_ind; [reflexivity|].
  rewrite foldl_app. cbn [foldl]. by rewrite partner_entry_handle.
Qed.

Lemma shipped_partner_ids :
  (λ e : string * Partner.t, (e.1, Partner.id e.2)) <$> partners db_init
  = (λ k, (k, k)) <$> serial_ids 80.
Proof. vm_compute. reflexivity. Qed.

Lemma reachable_partner_ids db :
  reachable db →
  (λ e : string * Partner.t, (e.1, Partner.id e.2)) <$> partners db
  = (λ k, (k, k)) <$> serial_ids 80.
Proof.
  intros Hreach. rewrite <- shipped_partner_ids.
  by apply reachable_partner_entry.
Qed.

Lemma dict_get_elem_of {V : Type} (k : string) (v : V) (d : list (string * V)) :
  dict_get k d = Some v → (k, v) ∈ d.
Proof.
  induction d as [|[k' v'] d IH]; [done|]. simpl.
  destruct (decide (k' = k)) as [->|Hne].
  - intros [= ->]. left.
  - intros Hd. right. by apply IH.
Qed.

Lemma last_n_suffix {A : Type} (n : nat) (l : list A) :
  last_n n l `suffix_of` l ∧ length (last_n n l) = (n `min` length l)%nat.
Proof.
  unfold last_n. split; [apply suffix_drop|]. rewrite length_drop. lia.
Qed.

Lemma last_n_snoc {A : Type} (n : nat) (l : list A) (x : A) :
  (0 < n)%nat → last (last_n n (l ++ [x])) = Some x.
Proof.
  intros Hn. unfold last_n. rewrite length_app. simpl.
  rewrite drop_app_le by lia. apply last_snoc.
Qed.

(** X27: [get_partner] answers 404 "Partner not found" exactly for the ids
    that are no key of the catalog; otherwise it returns the partner
    stored under the id, the last five at most of the stored reviews of
    that id in order of arrival, and as similar partners the first three
    of the catalog whatever partner was asked for.  On every database the
    server can reach the ids answered are "1" to "80", the partner
    returned carries the id asked for, and the similar partners are those
    numbered 1, 2 and 3. *)
Theorem get_partner_outcomes db (partner_id : string) :
  (get_partner db partner_id = Raise (HTTPException 404 "Partner not found")
   ↔ partner_id ∉ (partners db).*1) ∧
  (∀ r, get_partner db partner_id = Return r →
     dict_get partner_id (partners db) = Some (PartnerResponse.partner r) ∧
     PartnerResponse.reviews r `suffix_of` reviews_of db partner_id ∧
     length (PartnerResponse.reviews r)
       = (5 `min` length (reviews_of db partner_id))%nat ∧
     PartnerResponse.similar_partners r = take 3 (dict_values (partners db))) ∧
  (reachable db →
   (partner_id ∈ serial_ids 80 ↔
    ∃ r, get_partner db partner_id = Return r ∧
         Partner.id (PartnerResponse.partner r) = partner_id) ∧
   Partner.id <$> take 3 (dict_values (partners db)) = ["1"; "2"; "3"]).
Proof.
  split; [|split].
  - rewrite <- dict_get_is_Some. unfold get_partner.
    destruct (dict_get partner_id (partners db)) as [p|].
    + split; [done|]. intros []. eauto.
    + split; [|done]. by intros _ [??].
  - intros r. unfold get_partner.
    destruct (dict_get partner_id (partners db)) as [p|]; [|done].
    intros [= <-]. cbn [PartnerResponse.partner PartnerResponse.reviews
                        PartnerResponse.similar_partners].
    split; [done|]. split; [apply last_n_suffix|]. split; [|done].
    apply last_n_suffix.
  - intros Hreach. pose proof (reachable_partner_ids db Hreach) as Hids.
    split.
    + assert ((partners db).*1 = serial_ids 80) as Hkeys.
      { apply (f_equal (fmap fst)) in Hids.
        rewrite <- !list_fmap_compose in Hids.
        etrans; [exact Hids|]. apply list_fmap_id. }
      rewrite <- Hkeys, <- dict_get_is_Some. unfold get_partner.
      destruct (dict_get partner_id (partners db)) as [p|] eqn:Hp.
      * split; [|eauto]. intros _. eexists. split; [done|].
        cbn [PartnerResponse.partner].
        apply dict_get_elem_of in Hp.
        apply (list_elem_of_fmap_2 (λ e : string * Partner.t, (e.1, Partner.id e.2)))
          in Hp.
        rewrite Hids in Hp. apply list_elem_of_fmap in Hp as (k & [= -> ->] & _).
        done.
      * split; [by intros [??]|]. by intros (r & ? & _).
    + rewrite fmap_take.
      rewrite (reachable_partner_field Partner.id db) by done.
      vm_compute. reflexivity.
Qed.



(** *** The profile *)

(** X29: [get_profile] answers 401 "Unauthorized" exactly when the token
    names no session (or the session's user id is empty), and never 404 on
    a database the server can reach.  When it answers, the user is the one
    stored under the session's id, the transactions listed are the last
    ten at most of that user in order of arrival, exclusive access goes to
    premium and gold members, priority support to premium members only,
    and the discount multiplier is 1.5 with priority support and 1.0
    without. *)
Theorem get_profile_outcomes db (token : option string) :
  (get_profile db token = Raise (HTTPException 401 "Unauthorized")
   ↔ truthy (get_current_user db token) = false) ∧
  (reachable db →
   get_profile db token ≠ Raise (HTTPException 404 "User not found")) ∧
  (∀ r, get_profile db token = Return r →
     ∃ uid,
       get_current_user db token = Some uid ∧
       dict_get uid (users db) = Some (ProfileResponse.user r) ∧
       ProfileResponse.recent_transactions r `suffix_of` transactions_of db uid ∧
       length (ProfileResponse.recent_transactions r)
         = (10 `min` length (transactions_of db uid))%nat ∧
       let benefits := ProfileResponse.membership_benefits r in
       let membership := User.membership_type (ProfileResponse.user r) in
       (MembershipBenefits.exclusive_access benefits = true
        ↔ membership = "premium" ∨ membership = "gold") ∧
       (MembershipBenefits.priority_support benefits = true
        ↔ membership = "premium") ∧
       MembershipBenefits.discount_multiplier benefits
       = if MembershipBenefits.priority_support benefits then 1.5%Q else 1.0%Q).
Proof.
  split; [|split].
  - unfold get_profile.
    destruct (truthy (get_current_user db token)); simpl; [|done].
    split; [|done]. by destruct (dict_get _ (users db)).
  - intros [_ Hs]%reachable_invariant. unfold get_profile.
    destruct (truthy (get_current_user db token)) eqn:Htr; [|done]. simpl.
    destruct (get_current_user db token) as [uid|] eqn:Hu; [|done].
    pose proof Hu as Hu'.
    apply get_current_user_Some in Hu' as (t & _ & _ & Hl).
    apply Hs, dict_get_is_Some in Hl as [user Huser].
    simpl. by rewrite Huser.
  - intros r. unfold get_profile.
    destruct (truthy (get_current_user db token)) eqn:Htr; [|done].
    cbn [negb].
    destruct (get_current_user db token) as [uid|] eqn:Hu; [|done].
    change (default "" (Some uid)) with uid.
    destruct (dict_get uid (users db)) as [user|] eqn:Huser; [|done].
    intros [= <-]. exists uid.
    cbn [ProfileResponse.user ProfileResponse.recent_transactions
         ProfileResponse.membership_benefits
         MembershipBenefits.exclusive_access MembershipBenefits.priority_support
         MembershipBenefits.discount_multiplier].
    split; [done|]. split; [done|]. split; [apply last_n_suffix|].
    split; [apply last_n_suffix|]. split; [|split; [|done]].
    + rewrite bool_decide_eq_true, !elem_of_cons, elem_of_nil. tauto.
    + by rewrite bool_decide_eq_true.
Qed.

Lemma create_transaction_fields db transaction (t uid now : string) :
  t ≠ "" → sessions db !! t = Some uid → uid ≠ "" →
  ∃ new,
    transactions (create_transaction db transaction (Some t) now).1
      = transactions db ++ [new] ∧
    Transaction.id new = pretty (S (length (transactions db))) ∧
    Transaction.user_id new = uid ∧
    Transaction.discount_applied new
      = TransactionDict.discount_applied transaction ∧
    dict_get uid (users (create_transaction db transaction (Some t) now).1)
      = update_user_savings (TransactionDict.discount_applied transaction)
          <$> dict_get uid (users db) ∧
    sessions (create_transaction db transaction (Some t) now).1 = sessions db.
Proof.
  intros Ht Hl Huid. unfold create_transaction.
  rewrite (get_current_user_session db t uid Ht Hl).
  assert (Htr : truthy (Some uid) = true).
  { simpl. by rewrite bool_decide_eq_false_2. }
  rewrite Htr. cbn [negb fst snd default users partners transactions reviews sessions].
  eexists. split; [done|].
  cbn [Transaction.id Transaction.user_id Transaction.discount_applied].
  split; [by rewrite Nat.add_1_r|]. repeat (split; [done|]).
  split; [apply dict_get_mutate_eq|done].
Qed.

(** X30: after a transaction was recorded under a valid session of a
    stored user, [get_profile] with the same token lists that transaction
    last and shows the user with the discount added to the savings and one
    visit more, everything else of the user as before. *)
Theorem transaction_shows_on_profile db transaction (t uid now : string)
    (u : User.t) :
  t ≠ "" → sessions db !! t = Some uid → uid ≠ "" →
  dict_get uid (users db) = Some u →
  ∃ r new,
    get_profile (create_transaction db transaction (Some t) now).1 (Some t)
      = Return r ∧
    last (ProfileResponse.recent_transactions r) = Some new ∧
    Transaction.id new = pretty (S (length (transactions db))) ∧
    Transaction.user_id new = uid ∧
    Transaction.discount_applied new
      = TransactionDict.discount_applied transaction ∧
    ProfileResponse.user r
      = update_user_savings (TransactionDict.discount_applied transaction) u ∧
    User.total_savings (ProfileResponse.user r)
      = (User.total_savings u + TransactionDict.discount_applied transaction)%Q ∧
    User.visits_count (ProfileResponse.user r) = User.visits_count u + 1.
Proof.
  intros Ht Hl Huid Hu.
  destruct (create_transaction_fields db transaction t uid now Ht Hl Huid)
    as (new & Htx & Hid & Huser & Hdisc & Husers & Hsess).
  assert (Htr : truthy (Some uid) = true).
  { simpl. by rewrite bool_decide_eq_false_2. }
  unfold get_profile.
  rewrite (get_current_user_session _ t uid Ht) by (by rewrite Hsess).
  rewrite Htr. cbn [negb]. change (default "" (Some uid)) with uid.
  rewrite Husers, Hu.
  cbn [fmap option_fmap option_map].
  eexists. exists new. split; [reflexivity|].
  cbn [ProfileResponse.user ProfileResponse.recent_transactions].
  split; [|done].
  rewrite Htx, filter_app, filter_cons, decide_True by done.
  rewrite filter_nil. apply last_n_snoc. lia.
Qed.

Lemma transaction_shows_on_profile_witness :
  sessions maria_db !! "token-1-0" = Some "1" ∧
  ∃ r new,
    get_profile (create_transaction maria_db sample_transaction
                   (Some "token-1-0") "2025-01-01").1 (Some "token-1-0")
      = Return r ∧
    last (ProfileResponse.recent_transactions r) = Some new ∧
    Transaction.user_id new = "1".
Proof.
  assert (Hl : sessions maria_db !! "token-1-0" = Some "1")
    by (vm_compute; reflexivity).
  split; [exact Hl|].
  destruct (dict_get "1" (users maria_db)) as [u|] eqn:Hu;
    [|by vm_compute in Hu].
  assert (Ht : "token-1-0" ≠ "") by discriminate.
  assert (Huid : "1" ≠ "") by discriminate.
  destruct (transaction_shows_on_profile maria_db sample_transaction
              "token-1-0" "1" "2025-01-01" u Ht Hl Huid Hu)
    as (r & new & Hr & Hlast & _ & Hnew & _).
  exists r, new. split; [exact Hr|]. split; [exact Hlast|exact Hnew].
Defined.

End BackendLookupProperties.
